(** * Pairs-trading engine: a shallow embedding of the accounting, risk,
    aggregation and throttling code, with the properties checked on it.

  Conventions of the embedding.
  - A Python [float] is an exact rational [Q]: the arithmetic the code
    writes is kept operator for operator, rounding is not modelled.
    Equality of computed amounts is therefore [Qeq] ([==]).
  - A [datetime] is an integer count of microseconds ([Z]), the resolution
    of Python's [datetime]; [datetime.now()] is an explicit argument.
  - A Python [dict] keyed by strings is a [gmap string _]; where the code
    depends on insertion order (the vote tables) it is an association list.
  - Log lines are dropped; formatted reason strings are structured values. *)

From Stdlib Require Import ZArith QArith Qminmax Qabs Lqa Lia List String.
From stdpp Require Import gmap strings list sorting.

(** ** Float helpers *)

Module Float.

Local Open Scope Q_scope.

(** [a <= b] and [a < b] on floats, as booleans. *)
Definition leb (a b : Q) : bool := Qle_bool a b.
Definition ltb (a b : Q) : bool := negb (Qle_bool b a).

(** Python truthiness of a float: [0.0] is falsy. *)
Definition truthy (a : Q) : bool := negb (Qeq_bool a 0).

(** [total_seconds()] of a difference of two datetimes. *)
Definition total_seconds (delta_us : Z) : Q := inject_Z delta_us / 1000000.

End Float.

Notation "a <=? b" := (Float.leb a b) : Q_scope.
Notation "a <? b" := (Float.ltb a b) : Q_scope.

(** ** src/data/models.py *)

Module Models.

(** Modelled from the spec: the [PositionSide] enumeration of
    src/data/models.py, with its two members (values 'Long' and 'Short'). *)
Inductive PositionSide := LONG | SHORT.

#[global] Instance PositionSide_eq_dec : EqDecision PositionSide.
Proof. solve_decision. Defined.

(** Modelled from the spec: the [Position] record of src/data/models.py,
    which is not among the sources; the fields are those that
    [PositionManager.add_position] passes to its constructor, plus the
    [max_profit_pct] attribute that the risk agent attaches later. *)
Record Position := mkPosition {
  pair_id : string;
  symbol_a : string;
  symbol_b : string;
  side_a : PositionSide;
  side_b : PositionSide;
  size_a : Q;
  size_b : Q;
  entry_price_a : Q;
  entry_price_b : Q;
  current_price_a : Q;
  current_price_b : Q;
  hedge_ratio : Q;
  entry_zscore : Q;
  current_zscore : Q;
  entry_time : Z;
  unrealized_pnl : Q;
  status : string;
  max_profit_pct : option Q
}.

(** Modelled from the spec: the [Trade] record of src/data/models.py, with
    the fields that [PositionManager.close_position] passes. *)
Record Trade := mkTrade {
  t_pair_id : string;
  t_symbol_a : string;
  t_symbol_b : string;
  t_side_a : PositionSide;
  t_side_b : PositionSide;
  t_size_a : Q;
  t_size_b : Q;
  t_entry_price_a : Q;
  t_entry_price_b : Q;
  t_exit_price_a : Q;
  t_exit_price_b : Q;
  t_hedge_ratio : Q;
  t_entry_zscore : Q;
  t_exit_zscore : Q;
  t_entry_time : Z;
  t_exit_time : Z;
  t_duration_minutes : Q;
  t_pnl : Q;
  t_pnl_percent : Q;
  t_commission : Q;
  t_reason : string
}.

End Models.

(** ** src/monitoring/performance_tracker.py *)

Module PerformanceTracker.

Local Open Scope Q_scope.

(** One entry of [metrics['trades']] (the fields read back later). *)
Record TradeLog := mkTradeLog {
  l_pair_id : string;
  l_pnl : Q;
  l_pnl_percent : Q;
  l_duration_minutes : Q;
  l_strategy : string;
  l_commission : Q
}.

(** The tracker's state: the list [metrics['trades']]. *)
Definition t := list TradeLog.

Definition log_trade (tr : t) (e : TradeLog) : t := tr ++ [e].

(** The two entries of [get_session_stats()] that sizing reads. *)
Record SessionStats := mkStats {
  total_trades : nat;
  win_rate : Q
}.

Definition get_session_stats (tr : t) : SessionStats :=
  match tr with
  | [] => {| total_trades := 0; win_rate := 0 |}
  | _ =>
    let wins := List.filter (fun e => 0 <? l_pnl e) tr in
    {| total_trades := length tr;
       win_rate := inject_Z (Z.of_nat (length wins))
                   / inject_Z (Z.of_nat (length tr)) |}
  end.

End PerformanceTracker.

(** ** src/execution/position_manager.py *)

Module PositionManager.

Import Models.
Local Open Scope Q_scope.

Record t := mkPM {
  open_positions : gmap string Position;
  closed_trades : list Trade;
  daily_pnl : Q;
  total_pnl : Q
}.

Definition init : t :=
  {| open_positions := ∅; closed_trades := []; daily_pnl := 0; total_pnl := 0 |}.

Definition add_position (pm : t) (now : Z)
    (pair_id symbol_a symbol_b : string) (side_a side_b : PositionSide)
    (size_a size_b entry_price_a entry_price_b hedge_ratio entry_zscore : Q)
    : t * Position :=
  let position :=
    {| pair_id := pair_id;
       symbol_a := symbol_a;
       symbol_b := symbol_b;
       side_a := side_a;
       side_b := side_b;
       size_a := size_a;
       size_b := size_b;
       entry_price_a := entry_price_a;
       entry_price_b := entry_price_b;
       current_price_a := entry_price_a;
       current_price_b := entry_price_b;
       hedge_ratio := hedge_ratio;
       entry_zscore := entry_zscore;
       current_zscore := entry_zscore;
       entry_time := now;
       unrealized_pnl := 0;
       status := "open";
       max_profit_pct := None |} in
  ({| open_positions := <[pair_id := position]> (open_positions pm);
      closed_trades := closed_trades pm;
      daily_pnl := daily_pnl pm;
      total_pnl := total_pnl pm |}, position).

Definition _calculate_pnl (side : PositionSide)
    (entry_price current_price size : Q) : Q :=
  match side with
  | LONG => (current_price - entry_price) * size
  | SHORT => (entry_price - current_price) * size
  end.

(** The four assignments of [update_position] on the stored object. *)
Definition updated (position : Position)
    (current_price_a current_price_b current_zscore : Q) : Position :=
  let pnl_a := _calculate_pnl (side_a position) (entry_price_a position)
                 current_price_a (size_a position) in
  let pnl_b := _calculate_pnl (side_b position) (entry_price_b position)
                 current_price_b (size_b position) in
  {| pair_id := pair_id position;
     symbol_a := symbol_a position;
     symbol_b := symbol_b position;
     side_a := side_a position;
     side_b := side_b position;
     size_a := size_a position;
     size_b := size_b position;
     entry_price_a := entry_price_a position;
     entry_price_b := entry_price_b position;
     current_price_a := current_price_a;
     current_price_b := current_price_b;
     hedge_ratio := hedge_ratio position;
     entry_zscore := entry_zscore position;
     current_zscore := current_zscore;
     entry_time := entry_time position;
     unrealized_pnl := pnl_a + pnl_b;
     status := status position;
     max_profit_pct := max_profit_pct position |}.

Definition update_position (pm : t) (pair_id : string)
    (current_price_a current_price_b current_zscore : Q) : t :=
  match open_positions pm !! pair_id with
  | None => pm
  | Some position =>
    if (current_price_a <=? 0) || (current_price_b <=? 0) then pm
    else
      {| open_positions :=
           <[pair_id := updated position current_price_a current_price_b
                          current_zscore]> (open_positions pm);
         closed_trades := closed_trades pm;
         daily_pnl := daily_pnl pm;
         total_pnl := total_pnl pm |}
  end.

Definition commission_rate : Q := 0.0006.

(** The [Trade] that [close_position] builds for a stored position. *)
Definition trade_of (position : Position) (now : Z) (pair_id : string)
    (exit_price_a exit_price_b exit_zscore : Q) (reason : string) : Trade :=
  let pnl_a := _calculate_pnl (side_a position) (entry_price_a position)
                 exit_price_a (size_a position) in
  let pnl_b := _calculate_pnl (side_b position) (entry_price_b position)
                 exit_price_b (size_b position) in
  let total := pnl_a + pnl_b in
  let position_value_a := size_a position * exit_price_a in
  let position_value_b := size_b position * exit_price_b in
  let commission :=
    (position_value_a + position_value_b) * commission_rate * 2 in
  let net_pnl := total - commission in
  let duration := Float.total_seconds (now - entry_time position) / 60 in
  let initial_value := size_a position * entry_price_a position
                       + size_b position * entry_price_b position in
  let pnl_percent :=
    if 0 <? initial_value then net_pnl / initial_value * 100 else 0 in
  {| t_pair_id := pair_id;
     t_symbol_a := symbol_a position;
     t_symbol_b := symbol_b position;
     t_side_a := side_a position;
     t_side_b := side_b position;
     t_size_a := size_a position;
     t_size_b := size_b position;
     t_entry_price_a := entry_price_a position;
     t_entry_price_b := entry_price_b position;
     t_exit_price_a := exit_price_a;
     t_exit_price_b := exit_price_b;
     t_hedge_ratio := hedge_ratio position;
     t_entry_zscore := entry_zscore position;
     t_exit_zscore := exit_zscore;
     t_entry_time := entry_time position;
     t_exit_time := now;
     t_duration_minutes := duration;
     t_pnl := net_pnl;
     t_pnl_percent := pnl_percent;
     t_commission := commission;
     t_reason := reason |}.

Definition log_entry (trade : Trade) : PerformanceTracker.TradeLog :=
  {| PerformanceTracker.l_pair_id := t_pair_id trade;
     PerformanceTracker.l_pnl := t_pnl trade;
     PerformanceTracker.l_pnl_percent := t_pnl_percent trade;
     PerformanceTracker.l_duration_minutes := t_duration_minutes trade;
     PerformanceTracker.l_strategy := "multi_strategy";
     PerformanceTracker.l_commission := t_commission trade |}.

(** [close_position]: the manager and the global tracker are threaded. *)
Definition close_position (pm : t) (tracker : PerformanceTracker.t)
    (now : Z) (pair_id : string)
    (exit_price_a exit_price_b exit_zscore : Q) (reason : string)
    : option Trade * t * PerformanceTracker.t :=
  match open_positions pm !! pair_id with
  | None => (None, pm, tracker)
  | Some position =>
    let trade := trade_of position now pair_id exit_price_a exit_price_b
                   exit_zscore reason in
    (Some trade,
     {| open_positions := delete pair_id (open_positions pm);
        closed_trades := closed_trades pm ++ [trade];
        daily_pnl := daily_pnl pm + t_pnl trade;
        total_pnl := total_pnl pm + t_pnl trade |},
     PerformanceTracker.log_trade tracker (log_entry trade))
  end.

Definition get_position (pm : t) (pair_id : string) : option Position :=
  open_positions pm !! pair_id.

Definition get_position_count (pm : t) : nat := size (open_positions pm).

Definition clear_all_history (pm : t) : t := init.

(** The notional of the two legs at given prices. *)
Definition notional (position : Position) (price_a price_b : Q) : Q :=
  size_a position * price_a + size_b position * price_b.

Definition reset_daily_pnl (pm : t) : t :=
  {| open_positions := open_positions pm;
     closed_trades := closed_trades pm;
     daily_pnl := 0.0;
     total_pnl := total_pnl pm |}.

(** Python's [l[start:]] for a possibly negative [start]. *)
Definition slice_from {A : Type} (l : list A) (start : Z) : list A :=
  let n := Z.of_nat (length l) in
  let start := if (start <? 0)%Z then Z.max (start + n) 0 else Z.min start n in
  drop (Z.to_nat start) l.

(** [get_recent_trades]: [closed_trades[-limit:]] *)
Definition get_recent_trades (pm : t) (limit : Z) : list Trade :=
  slice_from (closed_trades pm) (- limit).

(** [sum(t.pnl for t in trades)] *)
Definition sum_pnl (trades : list Trade) : Q :=
  fold_left (fun acc trade => acc + t_pnl trade) trades 0.

(** [max((t.pnl for t in trades), default=0)] and the like for [min] *)
Definition max_pnl (trades : list Trade) : Q :=
  match trades with
  | [] => 0
  | trade :: rest =>
    fold_left (fun best x => if best <? t_pnl x then t_pnl x else best)
              rest (t_pnl trade)
  end.

Definition min_pnl (trades : list Trade) : Q :=
  match trades with
  | [] => 0
  | trade :: rest =>
    fold_left (fun best x => if t_pnl x <? best then t_pnl x else best)
              rest (t_pnl trade)
  end.

(** The dictionary of [get_statistics]; the entries that the dictionary
    of an empty history lacks are optional. *)
Record Statistics := mkStatistics {
  st_total_trades : nat;
  st_winning_trades : option nat;
  st_losing_trades : option nat;
  st_win_rate : Q;
  st_average_pnl : Q;
  st_average_winner : option Q;
  st_average_loser : option Q;
  st_total_pnl : Q;
  st_daily_pnl : Q;
  st_largest_winner : option Q;
  st_largest_loser : option Q
}.

Definition get_statistics (pm : t) : Statistics :=
  match closed_trades pm with
  | [] =>
    {| st_total_trades := 0; st_winning_trades := None;
       st_losing_trades := None; st_win_rate := 0.0; st_average_pnl := 0.0;
       st_average_winner := None; st_average_loser := None;
       st_total_pnl := total_pnl pm; st_daily_pnl := daily_pnl pm;
       st_largest_winner := None; st_largest_loser := None |}
  | _ =>
    let trades := closed_trades pm in
    let winning_trades := List.filter (fun x => 0 <? t_pnl x) trades in
    let losing_trades := List.filter (fun x => t_pnl x <=? 0) trades in
    let n := inject_Z (Z.of_nat (length trades)) in
    {| st_total_trades := length trades;
       st_winning_trades := Some (length winning_trades);
       st_losing_trades := Some (length losing_trades);
       st_win_rate := inject_Z (Z.of_nat (length winning_trades)) / n;
       st_average_pnl := sum_pnl trades / n;
       st_average_winner :=
         Some (match winning_trades with
               | [] => 0
               | _ => sum_pnl winning_trades
                      / inject_Z (Z.of_nat (length winning_trades))
               end);
       st_average_loser :=
         Some (match losing_trades with
               | [] => 0
               | _ => sum_pnl losing_trades
                      / inject_Z (Z.of_nat (length losing_trades))
               end);
       st_total_pnl := total_pnl pm;
       st_daily_pnl := daily_pnl pm;
       st_largest_winner := Some (max_pnl trades);
       st_largest_loser := Some (min_pnl trades) |}
  end.

(** The calls the engine makes on the manager, as data. *)
Inductive Call :=
  | Add (now : Z) (pair_id symbol_a symbol_b : string)
        (side_a side_b : PositionSide)
        (size_a size_b entry_price_a entry_price_b hedge_ratio entry_zscore : Q)
  | Update (pair_id : string)
           (current_price_a current_price_b current_zscore : Q)
  | Close (now : Z) (pair_id : string)
          (exit_price_a exit_price_b exit_zscore : Q) (reason : string)
  | ResetDaily
  | ClearAll.

Definition call (state : t * PerformanceTracker.t) (c : Call)
    : t * PerformanceTracker.t :=
  let '(pm, tracker) := state in
  match c with
  | Add now id sa sb side_a side_b size_a size_b pa pb hr z =>
    (fst (add_position pm now id sa sb side_a side_b size_a size_b pa pb hr z),
     tracker)
  | Update id pa pb z => (update_position pm id pa pb z, tracker)
  | Close now id xa xb z reason =>
    let '(_, pm', tracker') := close_position pm tracker now id xa xb z reason in
    (pm', tracker')
  | ResetDaily => (reset_daily_pnl pm, tracker)
  | ClearAll => (clear_all_history pm, tracker)
  end.

Definition calls (state : t * PerformanceTracker.t) (cs : list Call)
    : t * PerformanceTracker.t :=
  fold_left call cs state.

End PositionManager.

(** ** Actions and consensus labels (plain strings in the code) *)

Module Actions.

Inductive Action :=
  | LONG_SPREAD | SHORT_SPREAD | CLOSE | HOLD | PAUSE | APPROVE.

#[global] Instance Action_eq_dec : EqDecision Action.
Proof. solve_decision. Defined.

Inductive Consensus := STRONG | MODERATE | WEAK | CONFLICTING | NONE.

#[global] Instance Consensus_eq_dec : EqDecision Consensus.
Proof. solve_decision. Defined.

(** [action in ['LONG_SPREAD', 'SHORT_SPREAD']] *)
Definition is_entry (a : Action) : bool :=
  match a with LONG_SPREAD | SHORT_SPREAD => true | _ => false end.

End Actions.

(** ** src/config.py: the values the risk code reads *)

Module Config.

Record TradingConfig := mkTrading {
  max_position_size : Q;
  max_concurrent_pairs : Z;
  daily_loss_limit : Q;
  risk_per_trade : Q
}.

Record ZScoreConfig := mkZScore {
  entry_threshold : Q;
  exit_threshold : Q;
  stoploss_threshold : Q
}.

Record t := mkConfig {
  trading : TradingConfig;
  zscore : ZScoreConfig;
  (** [strategy.signals.max_holding_period_hours] of the YAML file, 24 when absent *)
  max_holding_period_hours : Z
}.

(** The defaults of [Settings]. *)
Definition default : t :=
  {| trading := {| max_position_size := 1000;
                   max_concurrent_pairs := 15;
                   daily_loss_limit := 1000000;
                   risk_per_trade := 0.01 |};
     zscore := {| entry_threshold := 2.5;
                  exit_threshold := 0.3;
                  stoploss_threshold := 4 |};
     max_holding_period_hours := 24 |}.

End Config.

(** ** src/agents/risk_agent.py *)

Module RiskAgent.

Import Models Actions.
Local Open Scope Q_scope.

(** The agent's mutable fields that the checks read and write. *)
Record t := mkRA {
  max_equity : Q;
  current_drawdown : Q
}.

Definition init : t := {| max_equity := 0; current_drawdown := 0 |}.

(** [stats] is the dictionary that [performance_tracker.get_session_stats()]
    returned, [None] when the lookup raised (the inner [except]). *)
Definition dynamic_base_size (cfg : Config.t)
    (stats : option PerformanceTracker.SessionStats) : Q :=
  let base_size := Config.max_position_size (Config.trading cfg) in
  match stats with
  | Some st =>
    if (5 <=? PerformanceTracker.total_trades st)%nat then
      if 0.60 <=? PerformanceTracker.win_rate st then base_size * 2.0
      else if 0.55 <=? PerformanceTracker.win_rate st then base_size * 1.5
      else base_size
    else base_size
  | None => base_size
  end.

Definition vol_multiplier (volatility : option Q) : Q :=
  match volatility with
  | Some v =>
    if Float.truthy v && (0 <? v) then
      if 0.5 <? v then Qmin 1.0 (0.5 / v) else 1.0
    else 1.0
  | None => 1.0
  end.

Definition calculate_position_size (cfg : Config.t)
    (stats : option PerformanceTracker.SessionStats)
    (pair_id : string) (account_balance signal_confidence : Q)
    (volatility : option Q) : Q * Q :=
  let base_size := dynamic_base_size cfg stats in
  let confidence_multiplier := 0.5 + signal_confidence * 0.5 in
  let vol_multiplier := vol_multiplier volatility in
  let risk_amount :=
    account_balance * Config.risk_per_trade (Config.trading cfg) in
  let position_size :=
    Qmin (base_size * confidence_multiplier * vol_multiplier)
         (risk_amount * 10) in
  let position_size := Qmin position_size (account_balance * 0.2) in
  let min_position_size := 500.0 in
  let position_size := Qmax position_size min_position_size in
  (position_size, position_size).

Inductive Violation :=
  | MaxConcurrentReached (n : nat)
  | DailyLossExceeded (daily_pnl : Q)
  | ExposureTooHigh (total_exposure max_exposure : Q)
  | HighDrawdown (drawdown : Q).

Definition _update_drawdown (ra : t) (current_equity : Q) : t :=
  let max_equity' :=
    if max_equity ra <? current_equity then current_equity
    else max_equity ra in
  {| max_equity := max_equity';
     current_drawdown :=
       if 0 <? max_equity' then (max_equity' - current_equity) / max_equity'
       else 0.0 |}.

Definition exposure (pos : Position) : Q :=
  let price_a := if 0 <? current_price_a pos then current_price_a pos
                 else entry_price_a pos in
  let price_b := if 0 <? current_price_b pos then current_price_b pos
                 else entry_price_b pos in
  let exposure_a := size_a pos * price_a in
  let exposure_b := size_b pos * price_b in
  exposure_a + exposure_b.

Definition total_exposure (current_positions : list Position) : Q :=
  fold_left (fun acc pos => acc + exposure pos) current_positions 0.0.

Definition check_risk_limits (cfg : Config.t) (ra : t)
    (current_positions : list Position) (daily_pnl account_balance : Q)
    : bool * list Violation * t :=
  let n := length current_positions in
  let v1 :=
    if (Config.max_concurrent_pairs (Config.trading cfg) <=? Z.of_nat n)%Z
    then [MaxConcurrentReached n] else [] in
  let v2 :=
    if daily_pnl <? - Config.daily_loss_limit (Config.trading cfg)
    then [DailyLossExceeded daily_pnl] else [] in
  let total := total_exposure current_positions in
  let max_exposure := account_balance * 0.8 in
  let v3 :=
    if max_exposure <? total then [ExposureTooHigh total max_exposure]
    else [] in
  let ra' := _update_drawdown ra account_balance in
  let v4 :=
    if 0.20 <? current_drawdown ra' then [HighDrawdown (current_drawdown ra')]
    else [] in
  let violations := v1 ++ v2 ++ v3 ++ v4 in
  (match violations with [] => true | _ => false end, violations, ra').

(** The formatted reason of an exit verdict, as a structured value. *)
Inductive CloseReason :=
  | EmergencyStopLoss (pnl : Q)
  | HoldingTimeBelowMin (holding_seconds : Q)
  | QuickProfit (pnl_pct holding_seconds : Q)
  | BreakevenExit (holding_seconds : Q)
  | TrailingStop (pnl_pct max_profit : Q)
  | PnlPctStopLoss (pnl_pct : Q)
  | ZScoreStopLoss (zscore : Q)
  | MeanReversion (zscore : Q)
  | MaxHoldingExceeded (holding_seconds : Q)
  | PnlStopLoss (pnl : Q)
  | NoReason.

Definition MIN_HOLDING_SECONDS : Q := 30.
Definition ACTIVATION_THRESHOLD : Q := 0.3.
Definition TRAILING_DIST : Q := 0.15.

Definition set_max_profit_pct (position : Position) (m : Q) : Position :=
  {| pair_id := pair_id position;
     symbol_a := symbol_a position;
     symbol_b := symbol_b position;
     side_a := side_a position;
     side_b := side_b position;
     size_a := size_a position;
     size_b := size_b position;
     entry_price_a := entry_price_a position;
     entry_price_b := entry_price_b position;
     current_price_a := current_price_a position;
     current_price_b := current_price_b position;
     hedge_ratio := hedge_ratio position;
     entry_zscore := entry_zscore position;
     current_zscore := current_zscore position;
     entry_time := entry_time position;
     unrealized_pnl := unrealized_pnl position;
     status := status position;
     max_profit_pct := Some m |}.

(** The trailing-stop block: records the peak on the position object. *)
Definition track_max_profit (position : Position) (pnl_pct : Q) : Position :=
  if ACTIVATION_THRESHOLD <=? pnl_pct then
    match max_profit_pct position with
    | None => set_max_profit_pct position pnl_pct
    | Some m => set_max_profit_pct position (Qmax m pnl_pct)
    end
  else position.

(** [should_close_position]; the third component is the position object
    after the call (it may have gained [max_profit_pct]). *)
Definition should_close_position (cfg : Config.t) (now : Z)
    (position : Position) (current_price_a current_price_b current_zscore : Q)
    : bool * CloseReason * Position :=
  let holding_time_delta := (now - entry_time position)%Z in
  let holding_seconds := Float.total_seconds holding_time_delta in
  let pnl := unrealized_pnl position in
  if Float.truthy pnl && (pnl <? -100) then
    (true, EmergencyStopLoss pnl, position)
  else if holding_seconds <? MIN_HOLDING_SECONDS then
    (false, HoldingTimeBelowMin holding_seconds, position)
  else
    let position_value := size_a position * entry_price_a position in
    let pnl_pct :=
      if 0 <? position_value then pnl / position_value * 100 else 0.0 in
    if 0.2 <=? pnl_pct then
      (true, QuickProfit pnl_pct holding_seconds, position)
    else if (0.0 <=? pnl_pct) && (120 <=? holding_seconds) then
      (true, BreakevenExit holding_seconds, position)
    else
      let position' := track_max_profit position pnl_pct in
      let trailing :=
        match max_profit_pct position' with
        | Some m => (ACTIVATION_THRESHOLD <=? pnl_pct)
                    && (pnl_pct <? m - TRAILING_DIST)
        | None => false
        end in
      if trailing then
        (true,
         TrailingStop pnl_pct (default pnl_pct (max_profit_pct position')),
         position')
      else if pnl_pct <=? -0.3 then
        (true, PnlPctStopLoss pnl_pct, position')
      else if Config.stoploss_threshold (Config.zscore cfg)
              <? Qabs current_zscore then
        (true, ZScoreStopLoss current_zscore, position')
      else if Qabs current_zscore
              <? Config.exit_threshold (Config.zscore cfg) then
        (true, MeanReversion current_zscore, position')
      else if (Config.max_holding_period_hours cfg * 3600 * 1000000
               <? holding_time_delta)%Z then
        (true, MaxHoldingExceeded holding_seconds, position')
      else if Float.truthy pnl && (pnl <? - position_value * 0.005) then
        (true, PnlStopLoss pnl, position')
      else (false, NoReason, position').

(** The reason strings of the risk recommendation. *)
Inductive RiskReason :=
  | RiskViolations (violations : list Violation)
  | MaxPositionsReached
  | RiskChecksPassed.

Record Recommendation := mkRec {
  r_action : Action;
  r_reason : RiskReason;
  r_confidence : Q
}.

Definition get_recommendation (cfg : Config.t) (ra : t)
    (signal_action : Action) (current_positions : list Position)
    (account_balance daily_pnl : Q) : Recommendation * t :=
  let '(is_safe, violations, ra') :=
    check_risk_limits cfg ra current_positions daily_pnl account_balance in
  if negb is_safe then
    ({| r_action := PAUSE;
        r_reason := RiskViolations violations;
        r_confidence := 1.0 |}, ra')
  else if is_entry signal_action
          && (Config.max_concurrent_pairs (Config.trading cfg)
              <=? Z.of_nat (length current_positions))%Z then
    ({| r_action := HOLD;
        r_reason := MaxPositionsReached;
        r_confidence := 1.0 |}, ra')
  else
    ({| r_action := APPROVE;
        r_reason := RiskChecksPassed;
        r_confidence := 1.0 |}, ra').

End RiskAgent.

(** ** src/strategy/strategy_manager.py *)

Module StrategyManager.

Import Actions.
Local Open Scope Q_scope.

(** The keys of [self.strategies], in the order of the dictionary. *)
Inductive StrategyName :=
  | engle_granger | orderbook_imbalance | correlation_rsi | mean_reversion.

#[global] Instance StrategyName_eq_dec : EqDecision StrategyName.
Proof. solve_decision. Defined.

(** The dictionary [_run_strategy] returns for a strategy (the [details]
    entry carries diagnostics only). *)
Record Signal := mkSignal {
  s_action : Action;
  s_confidence : Q
}.

(** [signals]: strategy name to signal, in insertion order. *)
Definition Signals := list (StrategyName * Signal).

Record ActionVotes := mkVotes {
  count : nat;
  total_confidence : Q;
  strategies : list StrategyName
}.

(** [actions]: action to tally, in insertion order. *)
Definition Tally := list (Action * ActionVotes).

Record AggregatedSignal := mkAgg {
  action : Action;
  confidence : Q;
  strategy_signals : Signals;
  consensus : Consensus;
  votes : list (Action * nat);
  agreeing_strategies : list StrategyName
}.

(** The manager's state that aggregation reads: [self.weights]. *)
Record t := mkSM {
  weights : StrategyName -> Q
}.

Definition initial_weights (name : StrategyName) : Q :=
  match name with
  | engle_granger => 0.4
  | orderbook_imbalance => 0.3
  | correlation_rsi => 0.2
  | mean_reversion => 0.1
  end.

Definition init : t := {| weights := initial_weights |}.

(** [len(self.strategies)] *)
Definition n_strategies : nat := 4.

(** One pass of the loop body on the [actions] dictionary. *)
Fixpoint tally_vote (actions : Tally) (action : Action)
    (weighted_confidence : Q) (name : StrategyName) : Tally :=
  match actions with
  | [] =>
    [(action, {| count := 0 + 1;
                 total_confidence := 0.0 + weighted_confidence;
                 strategies := [name] |})]
  | (a, d) :: rest =>
    if decide (a = action) then
      (a, {| count := count d + 1;
             total_confidence := total_confidence d + weighted_confidence;
             strategies := strategies d ++ [name] |}) :: rest
    else (a, d) :: tally_vote rest action weighted_confidence name
  end.

Definition tally (sm : t) (signals : Signals) : Tally * Q :=
  fold_left
    (fun '(actions, total_weight) '(name, signal) =>
       let weight := weights sm name in
       let weighted_confidence := s_confidence signal * weight in
       (tally_vote actions (s_action signal) weighted_confidence name,
        total_weight + weight))
    signals ([], 0).

(** Python's ordering of the sort keys [(count, total_confidence)]. *)
Definition key_ltb (x y : ActionVotes) : bool :=
  (count x <? count y)%nat
  || ((count x =? count y)%nat && (total_confidence x <? total_confidence y)).

(** [sorted(..., reverse=True)]: stable, greatest key first. *)
Fixpoint insert_desc (x : Action * ActionVotes) (l : Tally) : Tally :=
  match l with
  | [] => [x]
  | y :: l' =>
    if key_ltb (snd y) (snd x) then x :: y :: l' else y :: insert_desc x l'
  end.

Definition sorted_desc (l : Tally) : Tally :=
  fold_left (fun acc x => insert_desc x acc) l [].

Definition _aggregate_signals (sm : t) (signals : Signals) (pair_id : string)
    : AggregatedSignal :=
  let '(actions, total_weight) := tally sm signals in
  match sorted_desc actions with
  | [] =>
    {| action := HOLD; confidence := 0.0; strategy_signals := signals;
       consensus := NONE; votes := []; agreeing_strategies := [] |}
  | (dominant_action, details) :: _ =>
    let '(consensus, dominant_action) :=
      if (count details =? n_strategies)%nat then (STRONG, dominant_action)
      else if (n_strategies <=? 2 * count details)%nat
           then (MODERATE, dominant_action)
      else if 0.7 <? total_confidence details then (MODERATE, dominant_action)
      else if (2 <? length actions)%nat then (CONFLICTING, HOLD)
      else (WEAK, dominant_action) in
    let avg_confidence :=
      if 0 <? total_weight then total_confidence details / total_weight
      else 0.0 in
    {| action := dominant_action;
       confidence := avg_confidence;
       strategy_signals := signals;
       consensus := consensus;
       votes := map (fun '(a, d) => (a, count d)) actions;
       agreeing_strategies := strategies details |}
  end.

(** [generate_aggregated_signal] after the strategies have run: [signals]
    are their outputs and [breakout_detected] the outcome of the two
    [check_breakout] calls. *)
Definition generate_aggregated_signal (sm : t) (signals : Signals)
    (breakout_detected : bool) (pair_id : string) : AggregatedSignal :=
  let aggregated := _aggregate_signals sm signals pair_id in
  if breakout_detected && negb (bool_decide (action aggregated = HOLD)) then
    {| action := action aggregated;
       confidence := Qmin 1.0 (confidence aggregated * 1.2);
       strategy_signals := strategy_signals aggregated;
       consensus := STRONG;
       votes := votes aggregated;
       agreeing_strategies := agreeing_strategies aggregated |}
  else aggregated.

(** The four signals of one evaluation, keyed as [self.strategies] is. *)
Definition four (eg obi cr mr : Signal) : Signals :=
  [(engle_granger, eg); (orderbook_imbalance, obi);
   (correlation_rsi, cr); (mean_reversion, mr)].

(** The strategies that signal an action other than [HOLD]. *)
Definition signalling (signals : Signals) : Signals :=
  List.filter (fun '(_, s) => negb (bool_decide (s_action s = HOLD))) signals.

Definition opposing (a b : Action) : Prop :=
  (a = LONG_SPREAD /\ b = SHORT_SPREAD) \/ (a = SHORT_SPREAD /\ b = LONG_SPREAD).

(** Exactly one strategy signals, with action [a]. *)
Definition lone_signal (signals : Signals) (a : Action) : Prop :=
  exists name s, signalling signals = [(name, s)] /\ s_action s = a.

(** Exactly two strategies signal, with opposing entry actions and equal
    weighted confidence. *)
Definition split_signal (sm : t) (signals : Signals) : Prop :=
  exists n1 s1 n2 s2,
    signalling signals = [(n1, s1); (n2, s2)]
    /\ opposing (s_action s1) (s_action s2)
    /\ s_confidence s1 * weights sm n1 == s_confidence s2 * weights sm n2.

(** The keys of [self.weights] and [self.performance], in dictionary order. *)
Definition names : list StrategyName :=
  [engle_granger; orderbook_imbalance; correlation_rsi; mean_reversion].

(** One entry of [self.performance]. *)
Record Performance := mkPerf {
  p_trades : nat;
  p_wins : nat;
  p_pnl : Q
}.

Definition initial_performance (name : StrategyName) : Performance :=
  {| p_trades := 0; p_wins := 0; p_pnl := 0.0 |}.

(** [sum(self.weights.values())] *)
Definition total_weight (w : StrategyName -> Q) : Q :=
  fold_left (fun acc name => acc + w name) names 0.

(** The first half of [_update_weights]: the win-rate based weights. *)
Definition adjusted (perf : StrategyName -> Performance)
    (w : StrategyName -> Q) : StrategyName -> Q :=
  let total_pnl := fold_left (fun acc name => acc + p_pnl (perf name)) names 0 in
  if 0 <? total_pnl then
    fun name =>
      if (10 <? p_trades (perf name))%nat then
        let win_rate :=
          inject_Z (Z.of_nat (p_wins (perf name)))
          / inject_Z (Z.of_nat (p_trades (perf name))) in
        0.3 + 0.4 * win_rate
      else w name
  else w.

(** The second half: normalisation. *)
Definition normalized (w : StrategyName -> Q) : StrategyName -> Q :=
  let total := total_weight w in
  if 0 <? total then fun name => w name / total else w.

Definition _update_weights (perf : StrategyName -> Performance)
    (w : StrategyName -> Q) : StrategyName -> Q :=
  normalized (adjusted perf w).

(** [update_strategy_performance] on the pair of [self.weights] and
    [self.performance]. *)
Definition update_strategy_performance
    (state : (StrategyName -> Q) * (StrategyName -> Performance))
    (strategy_name : StrategyName) (pnl : Q)
    : (StrategyName -> Q) * (StrategyName -> Performance) :=
  let '(w, perf) := state in
  let old := perf strategy_name in
  let new :=
    {| p_trades := p_trades old + 1;
       p_wins := if 0 <? pnl then p_wins old + 1 else p_wins old;
       p_pnl := p_pnl old + pnl |} in
  let perf' :=
    fun name => if decide (name = strategy_name) then new else perf name in
  (_update_weights perf' w, perf').

(** The test of [generate_all_individual_signals] (OR mode) on a signal. *)
Definition actionable (signal : Signal) : bool :=
  negb (bool_decide (s_action signal = HOLD)) && (0.3 <? s_confidence signal).

(** [generate_all_individual_signals] after the strategies have run. *)
Definition generate_all_individual_signals (signals : Signals) : Signals :=
  List.filter (fun '(_, signal) => actionable signal) signals.

End StrategyManager.

(** ** src/strategy/engle_granger_strategy.py *)

Module EngleGranger.

Import Actions.
Local Open Scope Q_scope.

(** A [pd.Series] of prices: (index, value) rows in storage order. *)
Definition Series := list (Z * Q).

(** [s[~s.index.duplicated(keep='last')]]: a row stays when no later row
    has its index. *)
Fixpoint drop_duplicated_keep_last (s : Series) : Series :=
  match s with
  | [] => []
  | (i, v) :: rest =>
    if existsb (fun '(j, _) => (i =? j)%Z) rest
    then drop_duplicated_keep_last rest
    else (i, v) :: drop_duplicated_keep_last rest
  end.

Fixpoint insert_by_index (x : Z * Q) (s : Series) : Series :=
  match s with
  | [] => [x]
  | y :: s' =>
    if (fst x <? fst y)%Z then x :: y :: s' else y :: insert_by_index x s'
  end.

(** [.sort_index()] *)
Definition sort_index (s : Series) : Series :=
  fold_left (fun acc x => insert_by_index x acc) s [].

(** [.tail(n)] *)
Definition tail (n : nat) (s : Series) : Series :=
  drop (length s - n) s.

(** The numerical routines of the strategy, which rest on statsmodels,
    scipy and pandas: each catches its own errors and returns a value. *)
Record Numerics := mkNumerics {
  calculate_correlation : Series -> Series -> Q;
  calculate_distance : Series -> Series -> Q;
  (** hedge ratio, ADF p-value, residuals *)
  engle_granger_test : Series -> Series -> Q * Q * list Q;
  (** z-score and spread for a hedge ratio *)
  calculate_spread_zscore : Series -> Series -> Q -> Q * list Q
}.

(** The constructor arguments of [EngleGrangerStrategy]. *)
Record Params := mkParams {
  lookback_periods : nat;
  adf_pvalue_threshold : Q;
  zscore_entry : Q;
  zscore_exit : Q;
  zscore_stoploss : Q;
  min_data_points : nat
}.

Definition default_params : Params :=
  {| lookback_periods := 60;
     adf_pvalue_threshold := 0.10;
     zscore_entry := 2.0;
     zscore_exit := 0.3;
     zscore_stoploss := 3.5;
     min_data_points := 30 |}.

Inductive EntryReason :=
  | InsufficientData
  | StopLoss
  | MeanReversionComplete
  | HoldingPosition
  | NotCointegrated
  | ShortEntry (strong : bool)
  | LongEntry (strong : bool)
  | NoSignal.

Record EngleGrangerSignal := mkEG {
  action : Action;
  confidence : Q;
  zscore : Q;
  spread : Q;
  hedge_ratio : Q;
  correlation : Q;
  distance : Q;
  adf_pvalue : Q;
  entry_reason : EntryReason
}.

(** Truthiness of [current_position : Optional[str]]. *)
Definition holding (current_position : option string) : bool :=
  match current_position with
  | Some s => negb (String.eqb s "")
  | None => false
  end.

(** The two cleaned series the strategy works on. *)
Definition cleaned (prices : Series) : Series :=
  sort_index (drop_duplicated_keep_last prices).

(** The p-value of the ADF test on the residuals of the windowed OLS fit. *)
Definition windowed_pvalue (num : Numerics) (p : Params)
    (prices_a prices_b : Series) : Q :=
  snd (fst (engle_granger_test num
              (tail (lookback_periods p) (cleaned prices_a))
              (tail (lookback_periods p) (cleaned prices_b)))).

(** The z-score of the spread over the same windows. *)
Definition windowed_zscore (num : Numerics) (p : Params)
    (prices_a prices_b : Series) : Q :=
  let wa := tail (lookback_periods p) (cleaned prices_a) in
  let wb := tail (lookback_periods p) (cleaned prices_b) in
  fst (calculate_spread_zscore num wa wb
         (fst (fst (engle_granger_test num wa wb)))).

Definition generate_signal (num : Numerics) (p : Params)
    (prices_a prices_b : Series) (current_position : option string)
    : EngleGrangerSignal :=
  let prices_a := cleaned prices_a in
  let prices_b := cleaned prices_b in
  if (length prices_a <? min_data_points p)%nat
     || (length prices_b <? min_data_points p)%nat then
    {| action := HOLD; confidence := 0.0; zscore := 0.0; spread := 0.0;
       hedge_ratio := 1.0; correlation := 0.0; distance := 0.0;
       adf_pvalue := 1.0; entry_reason := InsufficientData |}
  else
    let wa := tail (lookback_periods p) prices_a in
    let wb := tail (lookback_periods p) prices_b in
    let correlation := calculate_correlation num wa wb in
    let distance := calculate_distance num wa wb in
    let '(hedge_ratio, adf_pvalue, residuals) :=
      engle_granger_test num wa wb in
    let '(zscore, spread) := calculate_spread_zscore num wa wb hedge_ratio in
    let current_spread := List.last spread 0.0 in
    let signal a c r :=
      {| action := a; confidence := c; zscore := zscore;
         spread := current_spread; hedge_ratio := hedge_ratio;
         correlation := correlation; distance := distance;
         adf_pvalue := adf_pvalue; entry_reason := r |} in
    if holding current_position then
      if zscore_stoploss p <? Qabs zscore then signal CLOSE 0.95 StopLoss
      else if Qabs zscore <? zscore_exit p
           then signal CLOSE 0.90 MeanReversionComplete
      else signal HOLD 0.5 HoldingPosition
    else
      let is_strong_cointegration := adf_pvalue <? 0.10 in
      let is_weak_cointegration := adf_pvalue <? 0.20 in
      if negb is_weak_cointegration then signal HOLD 0.0 NotCointegrated
      else
        let cointegration_quality :=
          if is_strong_cointegration then 1.0
          else Qmax 0.5 (1.0 - (adf_pvalue - 0.10) * 5) in
        if zscore_entry p <? zscore then
          let raw_confidence := Qmin 0.95 (0.6 + Qabs zscore / 10) in
          signal SHORT_SPREAD (raw_confidence * cointegration_quality)
                 (ShortEntry is_strong_cointegration)
        else if zscore <? - zscore_entry p then
          let raw_confidence := Qmin 0.95 (0.6 + Qabs zscore / 10) in
          signal LONG_SPREAD (raw_confidence * cointegration_quality)
                 (LongEntry is_strong_cointegration)
        else signal HOLD 0.5 NoSignal.

End EngleGranger.

(** ** src/agents/orchestrator.py *)

Module Orchestrator.

Import Models Actions.
Local Open Scope Q_scope.

(** The entries of the quant analysis that the decision reads. *)
Record Cointegration := mkCoint {
  c_pvalue : Q;
  c_hedge_ratio : Q;
  c_half_life : option Q;
  c_is_cointegrated : bool
}.

Record QuantAnalysis := mkQA {
  qa_cointegration : option Cointegration;
  qa_zscore : option Q;
  qa_mean_reversion_score : Q
}.

(** The reason a voter gives. *)
Inductive VoteReason :=
  | StrategyConsensus (c : Consensus) (n_signals : nat)
  | VeryNegativeSentiment (score : Q)
  | VeryPositiveSentiment (score : Q)
  | ExtremeSentiment (score : Q)
  | PureQuantSignal
  | SentimentAligns (score : Q).

Record Vote := mkVote {
  v_action : Action;
  v_confidence : Q;
  v_reason : VoteReason
}.

Inductive Agent := quant | sentiment.

Inductive Reason :=
  | ConsensusOf (count n_votes : nat) (agents : list Agent)
                (quant_detail sentiment_detail : option VoteReason)
  | Risk (r : RiskAgent.RiskReason)
  | Error.

Record Metadata := mkMeta {
  m_votes : list (Agent * Vote);
  m_sentiment_score : Q;
  m_zscore : Q;
  m_pvalue : Q;
  m_hedge_ratio : Q;
  m_half_life : option Q;
  m_mean_reversion_score : Q;
  m_is_cointegrated : bool
}.

Record Decision := mkDecision {
  d_action : Action;
  d_reason : Reason;
  d_confidence : Q;
  d_timestamp : Z;
  d_metadata : option Metadata;
  d_position_size_a : option Q;
  d_position_size_b : option Q;
  d_hedge_ratio : option Q;
  d_symbol_a : option string;
  d_symbol_b : option string;
  d_pair_id : option string
}.

Definition _make_decision_response (now : Z) (action : Action)
    (reason : Reason) (confidence : Q) (metadata : option Metadata)
    : Decision :=
  {| d_action := action; d_reason := reason; d_confidence := confidence;
     d_timestamp := now; d_metadata := metadata;
     d_position_size_a := None; d_position_size_b := None;
     d_hedge_ratio := None; d_symbol_a := None; d_symbol_b := None;
     d_pair_id := None |}.

Definition _sentiment_to_action (sentiment_score : Q) (quant_action : Action)
    (current_position : option Position) : Vote :=
  if (sentiment_score <? -0.6) && bool_decide (quant_action = LONG_SPREAD) then
    {| v_action := HOLD; v_confidence := 0.7;
       v_reason := VeryNegativeSentiment sentiment_score |}
  else if negb (sentiment_score <? -0.6) && (0.6 <? sentiment_score)
          && bool_decide (quant_action = SHORT_SPREAD) then
    {| v_action := HOLD; v_confidence := 0.7;
       v_reason := VeryPositiveSentiment sentiment_score |}
  else if (0.8 <? Qabs sentiment_score)
          && bool_decide (is_Some current_position) then
    {| v_action := CLOSE; v_confidence := 0.6;
       v_reason := ExtremeSentiment sentiment_score |}
  else if Qeq_bool sentiment_score 0.0 then
    {| v_action := quant_action; v_confidence := 0.9;
       v_reason := PureQuantSignal |}
  else
    {| v_action := quant_action;
       v_confidence := 0.5 + Qabs sentiment_score * 0.2;
       v_reason := SentimentAligns sentiment_score |}.

Record Ballot := mkBallot {
  b_count : nat;
  b_total_confidence : Q;
  b_agents : list Agent
}.

Fixpoint cast (action_votes : list (Action * Ballot)) (agent : Agent)
    (vote : Vote) : list (Action * Ballot) :=
  match action_votes with
  | [] =>
    [(v_action vote, {| b_count := 0 + 1;
                        b_total_confidence := 0.0 + v_confidence vote;
                        b_agents := [agent] |})]
  | (a, b) :: rest =>
    if decide (a = v_action vote) then
      (a, {| b_count := b_count b + 1;
             b_total_confidence := b_total_confidence b + v_confidence vote;
             b_agents := b_agents b ++ [agent] |}) :: rest
    else (a, b) :: cast rest agent vote
  end.

Definition ballot_ltb (x y : Ballot) : bool :=
  (b_count x <? b_count y)%nat
  || ((b_count x =? b_count y)%nat
      && (b_total_confidence x <? b_total_confidence y)).

(** [max(items, key=...)]: the first of the greatest. *)
Definition best_of (first : Action * Ballot) (rest : list (Action * Ballot))
    : Action * Ballot :=
  fold_left (fun best x => if ballot_ltb (snd best) (snd x) then x else best)
            rest first.

Definition _combine_agent_decisions (now : Z) (quant_recommendation : Vote)
    (sentiment_score : Q) (current_position : option Position)
    (quant_analysis : QuantAnalysis) : Decision :=
  let quant_action := v_action quant_recommendation in
  let sentiment_action :=
    _sentiment_to_action sentiment_score quant_action current_position in
  let votes := [(quant, quant_recommendation); (sentiment, sentiment_action)] in
  let action_votes :=
    fold_left (fun acc '(agent, vote) => cast acc agent vote) votes [] in
  match action_votes with
  | [] => _make_decision_response now HOLD Error 0.0 None
  | first :: rest =>
    let '(action, action_data) := best_of first rest in
    let confidence :=
      b_total_confidence action_data / inject_Z (Z.of_nat (length votes)) in
    let reason :=
      ConsensusOf (b_count action_data) (length votes) (b_agents action_data)
        (if decide (quant_action = action)
         then Some (v_reason quant_recommendation) else None)
        (if decide (v_action sentiment_action = action)
         then Some (v_reason sentiment_action) else None) in
    _make_decision_response now action reason confidence
      (Some {| m_votes := votes;
               m_sentiment_score := sentiment_score;
               m_zscore := default 0 (qa_zscore quant_analysis);
               m_pvalue :=
                 default 1.0 (c_pvalue <$> qa_cointegration quant_analysis);
               m_hedge_ratio :=
                 default 1.0 (c_hedge_ratio <$> qa_cointegration quant_analysis);
               m_half_life :=
                 qa_cointegration quant_analysis ≫= c_half_life;
               m_mean_reversion_score :=
                 qa_mean_reversion_score quant_analysis;
               m_is_cointegrated :=
                 default false
                   (c_is_cointegrated <$> qa_cointegration quant_analysis) |})
  end.

(** The first position of the list that belongs to the pair. *)
Definition find_position (pair_id : string)
    (current_positions : list Position) : option Position :=
  List.find (fun pos => String.eqb (Models.pair_id pos) pair_id)
            current_positions.

Definition with_sizes (decision : Decision) (size_a size_b hedge : Q)
    : Decision :=
  {| d_action := d_action decision; d_reason := d_reason decision;
     d_confidence := d_confidence decision;
     d_timestamp := d_timestamp decision;
     d_metadata := d_metadata decision;
     d_position_size_a := Some size_a; d_position_size_b := Some size_b;
     d_hedge_ratio := Some hedge;
     d_symbol_a := d_symbol_a decision; d_symbol_b := d_symbol_b decision;
     d_pair_id := d_pair_id decision |}.

Definition with_symbols (decision : Decision)
    (symbol_a symbol_b pair_id : string) : Decision :=
  {| d_action := d_action decision; d_reason := d_reason decision;
     d_confidence := d_confidence decision;
     d_timestamp := d_timestamp decision;
     d_metadata := d_metadata decision;
     d_position_size_a := d_position_size_a decision;
     d_position_size_b := d_position_size_b decision;
     d_hedge_ratio := d_hedge_ratio decision;
     d_symbol_a := Some symbol_a; d_symbol_b := Some symbol_b;
     d_pair_id := Some pair_id |}.

(** The live [make_decision] (the second, candle-aware definition of the
    class), from the point where the quant analysis and the aggregated
    strategy signal have been obtained; [stats] is what the performance
    tracker answers to the sizing code. The risk agent is threaded. *)
Definition make_decision (cfg : Config.t) (ra : RiskAgent.t)
    (stats : option PerformanceTracker.SessionStats) (now : Z)
    (symbol_a symbol_b : string)
    (quant_analysis : QuantAnalysis)
    (strategy_signal : StrategyManager.AggregatedSignal)
    (current_positions : list Position) (account_balance daily_pnl : Q)
    : Decision * RiskAgent.t :=
  let pair_id := (symbol_a ++ "_" ++ symbol_b)%string in
  let current_position := find_position pair_id current_positions in
  let sentiment_score := 0.0 in
  let strategy_signal_dict :=
    {| v_action := StrategyManager.action strategy_signal;
       v_confidence := StrategyManager.confidence strategy_signal;
       v_reason :=
         StrategyConsensus (StrategyManager.consensus strategy_signal)
           (length (StrategyManager.strategy_signals strategy_signal)) |} in
  let decision :=
    _combine_agent_decisions now strategy_signal_dict sentiment_score
      current_position quant_analysis in
  let '(risk_recommendation, ra') :=
    RiskAgent.get_recommendation cfg ra (d_action decision) current_positions
      account_balance daily_pnl in
  if negb (bool_decide (RiskAgent.r_action risk_recommendation = APPROVE)) then
    (_make_decision_response now
       (RiskAgent.r_action risk_recommendation)
       (Risk (RiskAgent.r_reason risk_recommendation))
       (RiskAgent.r_confidence risk_recommendation) None, ra')
  else
    let sized :=
      if is_entry (d_action decision) then
        let '(size_a, size_b) :=
          RiskAgent.calculate_position_size cfg stats pair_id account_balance
            (d_confidence decision) None in
        match qa_cointegration quant_analysis with
        | Some c => Some (with_sizes decision size_a size_b (c_hedge_ratio c))
        | None => None
        end
      else Some decision in
    match sized with
    | Some decision => (with_symbols decision symbol_a symbol_b pair_id, ra')
    | None => (_make_decision_response now HOLD Error 0.0 None, ra')
    end.

(** *** OR mode: one decision per signalling strategy *)

Record StrategyMetadata := mkSMeta {
  sm_strategy_name : StrategyManager.StrategyName;
  sm_zscore : Q;
  sm_pvalue : Q;
  sm_hedge_ratio : Q;
  sm_half_life : option Q;
  sm_is_cointegrated : bool
}.

Record StrategyDecision := mkSD {
  sd_action : Action;
  sd_confidence : Q;
  sd_timestamp : Z;
  sd_strategy : StrategyManager.StrategyName;
  sd_pair_id : string;
  sd_symbol_a : string;
  sd_symbol_b : string;
  sd_metadata : StrategyMetadata;
  sd_position_size_a : option Q;
  sd_position_size_b : option Q;
  sd_hedge_ratio : option Q
}.

(** The dictionary built in the loop body for an approved signal. The
    chained [quant_analysis.get('zscore', {}).get(...)] lookups raise when
    the analysis holds [None] under 'zscore' or 'cointegration' (the empty
    analysis): the result is then [None]. *)
Definition strategy_decision (cfg : Config.t)
    (stats : option PerformanceTracker.SessionStats) (now : Z)
    (symbol_a symbol_b pair_id : string) (quant_analysis : QuantAnalysis)
    (strategy_name : StrategyManager.StrategyName)
    (signal : StrategyManager.Signal) (account_balance : Q)
    : option StrategyDecision :=
  match qa_zscore quant_analysis, qa_cointegration quant_analysis with
  | Some z, Some c =>
    let action := StrategyManager.s_action signal in
    let sizes :=
      if is_entry action then
        Some (RiskAgent.calculate_position_size cfg stats pair_id
                account_balance (StrategyManager.s_confidence signal) None)
      else None in
    Some {| sd_action := action;
            sd_confidence := StrategyManager.s_confidence signal;
            sd_timestamp := now;
            sd_strategy := strategy_name;
            sd_pair_id := pair_id;
            sd_symbol_a := symbol_a;
            sd_symbol_b := symbol_b;
            sd_metadata :=
              {| sm_strategy_name := strategy_name;
                 sm_zscore := z;
                 sm_pvalue := c_pvalue c;
                 sm_hedge_ratio := c_hedge_ratio c;
                 sm_half_life := c_half_life c;
                 sm_is_cointegrated := c_is_cointegrated c |};
            sd_position_size_a := fst <$> sizes;
            sd_position_size_b := snd <$> sizes;
            sd_hedge_ratio :=
              if is_entry action then Some (c_hedge_ratio c) else None |}
  | _, _ => None
  end.

(** [make_all_strategy_decisions] from the point where the quant analysis
    and the individual signals have been obtained. An exception in the loop
    abandons it, and the function answers the empty list. *)
Definition make_all_strategy_decisions (cfg : Config.t) (ra : RiskAgent.t)
    (stats : option PerformanceTracker.SessionStats) (now : Z)
    (symbol_a symbol_b : string) (quant_analysis : QuantAnalysis)
    (strategy_signals : StrategyManager.Signals)
    (current_positions : list Position) (account_balance daily_pnl : Q)
    : list StrategyDecision * RiskAgent.t :=
  let pair_id := (symbol_a ++ "_" ++ symbol_b)%string in
  let '(is_safe, _, ra1) :=
    RiskAgent.check_risk_limits cfg ra current_positions daily_pnl
      account_balance in
  if negb is_safe then ([], ra1)
  else
    let '(result, ra2) :=
      fold_left
        (fun '(acc, ra) '(strategy_name, signal) =>
           match acc with
           | None => (None, ra)
           | Some decisions =>
             let '(risk_recommendation, ra') :=
               RiskAgent.get_recommendation cfg ra
                 (StrategyManager.s_action signal) current_positions
                 account_balance daily_pnl in
             if negb (bool_decide
                        (RiskAgent.r_action risk_recommendation = APPROVE))
             then (Some decisions, ra')
             else
               match strategy_decision cfg stats now symbol_a symbol_b
                       pair_id quant_analysis strategy_name signal
                       account_balance with
               | Some decision => (Some (decisions ++ [decision]), ra')
               | None => (None, ra')
               end
           end)
        strategy_signals (Some [], ra1) in
    (default [] result, ra2).

End Orchestrator.

(** ** src/execution/rate_limiter.py *)

Module OrderRateLimiter.

Definition max_orders_per_second : Z := 5.
Definition max_orders_per_minute : nat := 100.

(** One second, and the pause [1.0 / max_orders_per_second], in microseconds. *)
Definition one_second : Z := 1000000.
Definition wait_time : Z := 200000.

Record t := mkRL {
  (** [deque(maxlen=max_orders_per_minute)] of the recorded timestamps *)
  recent_orders : list Z;
  in_cooldown : bool;
  cooldown_until : option Z;
  consecutive_errors : nat
}.

Definition init : t :=
  {| recent_orders := []; in_cooldown := false; cooldown_until := None;
     consecutive_errors := 0 |}.

(** [deque.append] on a bounded deque: the oldest entry falls out. *)
Definition deque_append (d : list Z) (x : Z) : list Z :=
  let d' := d ++ [x] in
  drop (length d' - max_orders_per_minute) d'.

(** The [while ... popleft()] loop. *)
Fixpoint drop_older (cutoff : Z) (d : list Z) : list Z :=
  match d with
  | [] => []
  | x :: d' => if (x <? cutoff)%Z then drop_older cutoff d' else d
  end.

(** [acquire] called when the clock reads [now]: the answer, the state
    after the call, and the time spent in [asyncio.sleep]. *)
Definition acquire (rl : t) (now : Z) (symbol : string) : bool * t * Z :=
  let '(cool, until, slept1) :=
    match in_cooldown rl, cooldown_until rl with
    | true, Some until =>
      if (now <? until)%Z then (true, Some until, (until - now)%Z)
      else (false, None, 0%Z)
    | c, u => (c, u, 0%Z)
    end in
  let cutoff_1s := (now - one_second)%Z in
  let recent := drop_older cutoff_1s (recent_orders rl) in
  let orders_last_second := Z.of_nat (length recent) in
  let slept2 :=
    if (max_orders_per_second <=? orders_last_second)%Z then wait_time
    else 0%Z in
  (true,
   {| recent_orders := deque_append recent now;
      in_cooldown := cool;
      cooldown_until := until;
      consecutive_errors := consecutive_errors rl |},
   (slept1 + slept2)%Z).

(** [report_error] at clock reading [now]: exponential backoff, capped. *)
Definition base_cooldown : Z := 2000000.
Definition max_cooldown : Z := 30000000.

Definition report_error (rl : t) (now : Z) : t :=
  let errors := S (consecutive_errors rl) in
  let cooldown :=
    Z.min (base_cooldown * 2 ^ (Z.of_nat errors - 1)) max_cooldown in
  {| recent_orders := recent_orders rl;
     in_cooldown := true;
     cooldown_until := Some (now + cooldown)%Z;
     consecutive_errors := errors |}.


(** A caller that issues [acquire] calls one after the other: before each
    call it idles for the given gap; the clock advances by the gaps and by
    the sleeps inside [acquire]. The result lists, per call, the answer and
    the clock reading when the call returned. *)
Fixpoint run (rl : t) (clock : Z) (gaps : list Z)
    : list (bool * Z) * t :=
  match gaps with
  | [] => ([], rl)
  | gap :: gaps' =>
    let now := (clock + gap)%Z in
    let '(ok, rl', slept) := acquire rl now "" in
    let done := (now + slept)%Z in
    let '(log, rl'') := run rl' done gaps' in
    ((ok, done) :: log, rl'')
  end.

(** The entries of a list of instants that fall in [start, start + 1s). *)
Definition in_window (start : Z) (instants : list Z) : list Z :=
  List.filter (fun x => (start <=? x)%Z && (x <? start + one_second)%Z)
              instants.

End OrderRateLimiter.

(** ** src/market_data/manager.py and src/main.py: the price history *)

Module TradingEngine.

Local Open Scope Q_scope.

Definition Series := list (Z * Q).

(** [MarketDataManager.get_price]: [latest_prices.get(symbol, 0.0)] *)
Definition get_price (latest_prices : gmap string Q) (symbol : string) : Q :=
  default 0.0 (latest_prices !! symbol).

(** [datetime.min], in microseconds from the Unix epoch. *)
Definition datetime_min : Z := (-62135596800000000)%Z.

Definition max_points : nat := Z.to_nat 10000.

(** [index[-1]] of a series, [datetime.min] when it is empty. *)
Definition last_time (s : Series) : Z :=
  match last s with
  | Some (t, _) => t
  | None => datetime_min
  end.

(** The throttle test [(current_time - last_time).total_seconds() >= 1]. *)
Definition sample_due (current_time : Z) (s : Series) : bool :=
  1 <=? Float.total_seconds (current_time - last_time s).

(** [.iloc[-10000:]] when the series is longer than 10000 *)
Definition keep_last (s : Series) : Series :=
  if (max_points <? length s)%nat then drop (length s - max_points) s else s.

(** The body of the loop of [_update_price_data] for one symbol. *)
Definition update_symbol (current_time : Z) (latest_prices : gmap string Q)
    (price_data : gmap string Series) (symbol : string)
    : gmap string Series :=
  let price := get_price latest_prices symbol in
  if 0 <? price then
    let s := default [] (price_data !! symbol) in
    if sample_due current_time s then
      <[symbol := keep_last (s ++ [(current_time, price)])]> price_data
    else <[symbol := s]> price_data
  else price_data.

Definition _update_price_data (current_time : Z) (symbols : list string)
    (latest_prices : gmap string Q) (price_data : gmap string Series)
    : gmap string Series :=
  fold_left (update_symbol current_time latest_prices) symbols price_data.

(** Successive iterations of the main loop: each reads the clock and the
    market-data cache of its moment. *)
Definition run_updates (symbols : list string)
    (iterations : list (Z * gmap string Q)) (price_data : gmap string Series)
    : gmap string Series :=
  fold_left (fun pd '(now, prices) => _update_price_data now symbols prices pd)
            iterations price_data.

(** The stored series of a symbol (empty when the symbol has none). *)
Definition series (price_data : gmap string Series) (symbol : string)
    : Series :=
  default [] (price_data !! symbol).

Definition bounded (price_data : gmap string Series) : Prop :=
  forall symbol, (length (series price_data symbol) <= max_points)%nat.

(** [s'] is [s] with some of its oldest rows removed. *)
Definition oldest_removed (s s' : Series) : Prop :=
  exists k, s' = drop k s.

End TradingEngine.

(** ** src/strategy/orderbook_imbalance_strategy.py *)

Module OrderBookImbalance.

Import Actions.
Local Open Scope Q_scope.

Definition Series := list (Z * Q).

(** An order book dictionary: the rows [[price, size]] under ['bids'] and
    ['asks'], a missing key reading as the empty list. An argument that is
    [None] or the empty dictionary is [None] here. *)
Record OrderBook := mkBook {
  bids : list (Q * Q);
  asks : list (Q * Q)
}.

(** The constructor arguments of [OrderBookImbalanceStrategy]. *)
Record Params := mkParams {
  depth_levels : Z;
  imbalance_threshold : Q;
  profit_target_pct : Q;
  stop_loss_pct : Q;
  max_trade_duration_seconds : Z;
  kill_switch_loss_pct : Q;
  kill_switch_window_minutes : Z;
  lookback_periods : nat
}.

Definition default_params : Params :=
  {| depth_levels := 5;
     imbalance_threshold := 0.3;
     profit_target_pct := 0.001;
     stop_loss_pct := 0.0005;
     max_trade_duration_seconds := 120;
     kill_switch_loss_pct := 0.02;
     kill_switch_window_minutes := 5;
     lookback_periods := 10 |}.

(** The mutable attributes of the strategy object. *)
Record t := mkOBI {
  (** [deque(maxlen=100)] of (time, loss) *)
  recent_losses : list (Z * Q);
  paused_until : option Z;
  entry_time : option Z;
  entry_price_a : option Q;
  entry_price_b : option Q;
  (** [deque(maxlen=lookback_periods)] *)
  imbalance_history : list Q
}.

Definition init : t :=
  {| recent_losses := []; paused_until := None; entry_time := None;
     entry_price_a := None; entry_price_b := None; imbalance_history := [] |}.

(** [deque.append] on a deque of bounded length: the oldest entry falls
    out. *)
Definition deque_append {A : Type} (maxlen : nat) (d : list A) (x : A)
    : list A :=
  let d' := d ++ [x] in
  drop (length d' - maxlen) d'.

(** Python's [l[:stop]] for a possibly negative [stop]. *)
Definition slice_to {A : Type} (l : list A) (stop : Z) : list A :=
  let n := Z.of_nat (length l) in
  let stop := if (stop <? 0)%Z then Z.max (stop + n) 0 else Z.min stop n in
  take (Z.to_nat stop) l.

(** [sum(float(price) * float(size) for price, size in rows)] *)
Definition volume (rows : list (Q * Q)) : Q :=
  fold_left (fun acc '(price, size) => acc + price * size) rows 0.

Definition calculate_orderbook_imbalance (p : Params)
    (orderbook_a orderbook_b : option OrderBook) : Q * Q * Q :=
  match orderbook_a, orderbook_b with
  | Some book_a, Some _ =>
    let bids_a := slice_to (bids book_a) (depth_levels p) in
    let asks_a := slice_to (asks book_a) (depth_levels p) in
    let bid_volume_a := volume bids_a in
    let ask_volume_a := volume asks_a in
    let total_volume := bid_volume_a + ask_volume_a in
    if Qeq_bool total_volume 0 then (0.0, 0.0, 0.0)
    else ((bid_volume_a - ask_volume_a) / total_volume,
          bid_volume_a, ask_volume_a)
  | _, _ => (0.0, 0.0, 0.0)
  end.

(** [timedelta(minutes=m)], in microseconds. *)
Definition minutes (m : Z) : Z := (m * 60000000)%Z.

(** [sum] of a list of floats. *)
Definition sum (l : list Q) : Q := fold_left Qplus l 0.

(** [check_kill_switch] when the clock reads [now]: the answer and the
    object afterwards. *)
Definition check_kill_switch (p : Params) (s : t) (now : Z) : bool * t :=
  match paused_until s with
  | Some until =>
    if (now <? until)%Z then (true, s)
    else (false,
          {| recent_losses := recent_losses s; paused_until := None;
             entry_time := entry_time s; entry_price_a := entry_price_a s;
             entry_price_b := entry_price_b s;
             imbalance_history := imbalance_history s |})
  | None =>
    let cutoff_time := (now - minutes (kill_switch_window_minutes p))%Z in
    let recent_losses_in_window :=
      snd <$> List.filter (fun '(loss_time, _) => (cutoff_time <? loss_time)%Z)
                          (recent_losses s) in
    match recent_losses_in_window with
    | [] => (false, s)
    | _ =>
      let total_loss_pct := sum recent_losses_in_window in
      if total_loss_pct <? - kill_switch_loss_pct p then
        (true,
         {| recent_losses := recent_losses s;
            paused_until := Some (now + minutes 10)%Z;
            entry_time := entry_time s; entry_price_a := entry_price_a s;
            entry_price_b := entry_price_b s;
            imbalance_history := imbalance_history s |})
      else (false, s)
    end
  end.

Inductive ExitReason :=
  | NoExit
  | ProfitTarget (avg_pnl : Q)
  | StopLoss (avg_pnl : Q)
  | MaxDuration (time_in_trade : Q).

(** Truthiness of [current_position : Optional[str]]. *)
Definition holding (current_position : option string) : bool :=
  match current_position with
  | Some s => negb (String.eqb s "")
  | None => false
  end.

(** The two relative leg returns, [None] where the source returns early
    (a position that is neither spread side) or an exception is raised and
    caught: a missing entry price (TypeError) or a zero one
    (ZeroDivisionError). *)
Definition leg_pnl (s : t) (current_position : string)
    (current_price_a current_price_b : Q) : option (Q * Q) :=
  let long := String.eqb current_position "LONG_SPREAD" in
  let short := String.eqb current_position "SHORT_SPREAD" in
  if long || short then
    match entry_price_a s, entry_price_b s with
    | Some entry_a, Some entry_b =>
      if Qeq_bool entry_a 0 || Qeq_bool entry_b 0 then None
      else if long then
        Some ((current_price_a - entry_a) / entry_a,
              (entry_b - current_price_b) / entry_b)
      else
        Some ((entry_a - current_price_a) / entry_a,
              (current_price_b - entry_b) / entry_b)
    | _, _ => None
    end
  else None.

Definition check_exit_conditions (p : Params) (s : t) (now : Z)
    (current_price_a current_price_b : Q) (current_position : option string)
    : bool * ExitReason * Q :=
  match current_position, entry_time s with
  | Some position, Some entered =>
    if negb (holding current_position) then (false, NoExit, 0.0)
    else
      match leg_pnl s position current_price_a current_price_b with
      | None => (false, NoExit, 0.0)
      | Some (pnl_a, pnl_b) =>
        let avg_pnl := (pnl_a + pnl_b) / 2 in
        if profit_target_pct p <=? avg_pnl then
          (true, ProfitTarget avg_pnl, avg_pnl)
        else if avg_pnl <=? - stop_loss_pct p then
          (true, StopLoss avg_pnl, avg_pnl)
        else
          let time_in_trade := Float.total_seconds (now - entered) in
          if inject_Z (max_trade_duration_seconds p) <? time_in_trade then
            (true, MaxDuration time_in_trade, avg_pnl)
          else (false, NoExit, avg_pnl)
      end
  | _, _ => (false, NoExit, 0.0)
  end.

Inductive EntryReason :=
  | KillSwitchActivated
  | Exit (reason : ExitReason)
  | HoldingPosition (pnl_pct : Q)
  | NoOrderBook
  | StrongBuyPressure
  | StrongSellPressure
  | ModerateBuyPressure
  | ModerateSellPressure
  | NoClearImbalance.

Record OBISignal := mkSignal {
  action : Action;
  confidence : Q;
  imbalance_ratio : Q;
  bid_volume : Q;
  ask_volume : Q;
  bid_pressure : Q;
  ask_pressure : Q;
  entry_reason : EntryReason
}.

(** The signal of the branches that report no order book figures. *)
Definition plain (a : Action) (c : Q) (r : EntryReason) : OBISignal :=
  {| action := a; confidence := c; imbalance_ratio := 0.0; bid_volume := 0.0;
     ask_volume := 0.0; bid_pressure := 0.0; ask_pressure := 0.0;
     entry_reason := r |}.

(** [float(prices.iloc[-1]) if len(prices) > 0 else 0.0] *)
Definition last_price (prices : Series) : Q :=
  match last prices with
  | Some (_, v) => v
  | None => 0.0
  end.

(** [np.mean] of a non-empty list. *)
Definition mean (l : list Q) : Q := sum l / inject_Z (Z.of_nat (length l)).

(** [generate_signal] when the clock reads [now]: the signal and the
    object afterwards. *)
Definition generate_signal (p : Params) (s : t) (now : Z)
    (prices_a prices_b : Series) (current_position : option string)
    (orderbook_a orderbook_b : option OrderBook) : OBISignal * t :=
  let '(paused, s) := check_kill_switch p s now in
  if paused then (plain HOLD 0.0 KillSwitchActivated, s)
  else if holding current_position then
    let current_price_a := last_price prices_a in
    let current_price_b := last_price prices_b in
    let '(should_exit, exit_reason, pnl_pct) :=
      check_exit_conditions p s now current_price_a current_price_b
                            current_position in
    if should_exit then
      let losses :=
        if pnl_pct <? 0 then deque_append 100 (recent_losses s) (now, pnl_pct)
        else recent_losses s in
      (plain CLOSE 0.95 (Exit exit_reason),
       {| recent_losses := losses; paused_until := paused_until s;
          entry_time := None; entry_price_a := None; entry_price_b := None;
          imbalance_history := imbalance_history s |})
    else (plain HOLD 0.5 (HoldingPosition pnl_pct), s)
  else
    match orderbook_a with
    | None => (plain HOLD 0.0 NoOrderBook, s)
    | Some _ =>
      let '(imbalance_ratio, bid_volume, ask_volume) :=
        calculate_orderbook_imbalance p orderbook_a orderbook_b in
      let history :=
        deque_append (lookback_periods p) (imbalance_history s)
                     imbalance_ratio in
      let s :=
        {| recent_losses := recent_losses s; paused_until := paused_until s;
           entry_time := entry_time s; entry_price_a := entry_price_a s;
           entry_price_b := entry_price_b s; imbalance_history := history |} in
      let smoothed_imbalance :=
        if (3 <=? length history)%nat then mean history
        else imbalance_ratio in
      let total_volume := bid_volume + ask_volume in
      let '(bid_pressure, ask_pressure) :=
        if 0 <? total_volume
        then (bid_volume / total_volume, ask_volume / total_volume)
        else (0.5, 0.5) in
      let signal a c r :=
        {| action := a; confidence := c;
           imbalance_ratio := smoothed_imbalance; bid_volume := bid_volume;
           ask_volume := ask_volume; bid_pressure := bid_pressure;
           ask_pressure := ask_pressure; entry_reason := r |} in
      let tracked :=
        {| recent_losses := recent_losses s; paused_until := paused_until s;
           entry_time := Some now;
           entry_price_a := Some (last_price prices_a);
           entry_price_b := Some (last_price prices_b);
           imbalance_history := imbalance_history s |} in
      let strong := Qmin 0.95 (0.6 + Qabs smoothed_imbalance * 0.5) in
      let moderate_threshold := imbalance_threshold p * 0.7 in
      if imbalance_threshold p <? smoothed_imbalance then
        (signal LONG_SPREAD strong StrongBuyPressure, tracked)
      else if smoothed_imbalance <? - imbalance_threshold p then
        (signal SHORT_SPREAD strong StrongSellPressure, tracked)
      else if moderate_threshold <? smoothed_imbalance then
        (signal LONG_SPREAD 0.65 ModerateBuyPressure, s)
      else if smoothed_imbalance <? - moderate_threshold then
        (signal SHORT_SPREAD 0.65 ModerateSellPressure, s)
      else (signal HOLD 0.5 NoClearImbalance, s)
    end.

(** One call of [generate_signal]: the clock reading and the arguments. *)
Record Call := mkCall {
  c_now : Z;
  c_prices_a : Series;
  c_prices_b : Series;
  c_current_position : option string;
  c_orderbook_a : option OrderBook;
  c_orderbook_b : option OrderBook
}.

Definition call (p : Params) (s : t) (c : Call) : OBISignal * t :=
  generate_signal p s (c_now c) (c_prices_a c) (c_prices_b c)
                  (c_current_position c) (c_orderbook_a c) (c_orderbook_b c).

(** Successive calls on the same object: the signals, in order, and the
    object at the end. *)
Fixpoint calls (p : Params) (s : t) (cs : list Call)
    : list OBISignal * t :=
  match cs with
  | [] => ([], s)
  | c :: cs' =>
    let '(signal, s1) := call p s c in
    let '(signals, s2) := calls p s1 cs' in
    (signal :: signals, s2)
  end.

End OrderBookImbalance.

(** * Properties *)

(** ** Float comparisons *)

Module FloatFacts.

Local Open Scope Q_scope.

Lemma leb_le a b : (a <=? b) = true <-> a <= b.
Proof. apply Qle_bool_iff. Qed.

Lemma leb_gt a b : (a <=? b) = false <-> b < a.
Proof.
  unfold Float.leb. rewrite <- not_true_iff_false, Qle_bool_iff.
  split; [apply Qnot_le_lt | apply Qlt_not_le].
Qed.

Lemma ltb_lt a b : (a <? b) = true <-> a < b.
Proof.
  unfold Float.ltb. rewrite negb_true_iff. apply leb_gt.
Qed.

Lemma ltb_ge a b : (a <? b) = false <-> b <= a.
Proof.
  unfold Float.ltb. rewrite negb_false_iff. apply Qle_bool_iff.
Qed.

Lemma truthy_neq a : Float.truthy a = true <-> ~ a == 0.
Proof.
  unfold Float.truthy.
  rewrite negb_true_iff, <- not_true_iff_false, Qeq_bool_iff. reflexivity.
Qed.

Lemma total_seconds_lt (d n : Z) :
  Float.total_seconds d < inject_Z n <-> (d < n * 1000000)%Z.
Proof.
  unfold Float.total_seconds, Qlt, Qdiv, Qmult, Qinv, inject_Z. simpl. lia.
Qed.

Lemma total_seconds_le (d n : Z) :
  inject_Z n <= Float.total_seconds d <-> (n * 1000000 <= d)%Z.
Proof.
  unfold Float.total_seconds, Qle, Qdiv, Qmult, Qinv, inject_Z. simpl. lia.
Qed.

(** Case analysis on a float comparison, with the order fact in context. *)
Ltac case_ltb a b :=
  let H := fresh "Hcmp" in
  destruct (Float.ltb a b) eqn:H;
  [apply ltb_lt in H | apply ltb_ge in H].

Ltac case_leb a b :=
  let H := fresh "Hcmp" in
  destruct (Float.leb a b) eqn:H;
  [apply leb_le in H | apply leb_gt in H].

End FloatFacts.

(** ** Position manager *)

Module PositionManagerFacts.

Import Models PositionManager FloatFacts.
Local Open Scope Q_scope.

(** A two-leg position on BTC and ETH, 600 USD a leg, opened at time 0. *)
Definition btc_eth : string := "BTCUSDT_ETHUSDT".

Definition one_open : PositionManager.t :=
  fst (add_position init 0 btc_eth "BTCUSDT" "ETHUSDT" LONG SHORT
         0.01 0.2 60000 3000 1 (-2.1)).

Definition the_position : Position :=
  snd (add_position init 0 btc_eth "BTCUSDT" "ETHUSDT" LONG SHORT
         0.01 0.2 60000 3000 1 (-2.1)).

Lemma one_open_lookup : open_positions one_open !! btc_eth = Some the_position.
Proof. unfold one_open, the_position. simpl. apply lookup_insert_eq. Qed.

Lemma close_position_open pm tracker now pair_id xa xb z reason position :
  open_positions pm !! pair_id = Some position ->
  close_position pm tracker now pair_id xa xb z reason =
    (Some (trade_of position now pair_id xa xb z reason),
     {| open_positions := delete pair_id (open_positions pm);
        closed_trades :=
          closed_trades pm ++ [trade_of position now pair_id xa xb z reason];
        daily_pnl :=
          daily_pnl pm + t_pnl (trade_of position now pair_id xa xb z reason);
        total_pnl :=
          total_pnl pm + t_pnl (trade_of position now pair_id xa xb z reason) |},
     PerformanceTracker.log_trade tracker
       (log_entry (trade_of position now pair_id xa xb z reason))).
Proof. intros H. unfold close_position. rewrite H. reflexivity. Qed.

(** The entry-plus-exit fee equals twice the exit fee exactly when the two
    notionals agree. *)
Lemma round_trip_fee_iff (entry exit_ : Q) :
  exit_ * commission_rate * 2 == entry * commission_rate + exit_ * commission_rate
  <-> entry == exit_.
Proof. unfold commission_rate. split; intros H; lra. Qed.

(** C1, as stated, fails: closing the 600/600 USD position after BTC rose
    by 10% records a commission of 1.512, while entry notional times 0.0006
    plus exit notional times 0.0006 is 1.476. *)
Lemma close_position_commission_counterexample :
  exists trade pm' tracker',
    close_position one_open [] 90000000 btc_eth 66000 3000 0 "Quick profit"
      = (Some trade, pm', tracker')
    /\ ~ t_commission trade ==
         notional the_position (entry_price_a the_position)
                  (entry_price_b the_position) * 0.0006
         + notional the_position 66000 3000 * 0.0006.
Proof.
  eexists _, _, _. split.
  - apply close_position_open, one_open_lookup.
  - vm_compute. discriminate.
Qed.

(** C1 (amended): for every open position, [close_position] records on the
    trade a commission of exit notional times 0.0006 times 2 (the exit
    notional is charged for both the entry and the exit), which is the
    entry-plus-exit fee exactly when the two notionals are equal; the
    trade's pnl is the P&L of leg A plus the P&L of leg B minus that
    commission, and the trade is appended, the position removed and both
    P&L tallies increased by the net pnl. *)
Theorem close_position_commission pm tracker now pair_id xa xb z reason position :
  open_positions pm !! pair_id = Some position ->
  exists trade pm' tracker',
    close_position pm tracker now pair_id xa xb z reason
      = (Some trade, pm', tracker')
    /\ t_commission trade == notional position xa xb * 0.0006 * 2
    /\ (t_commission trade ==
          notional position (entry_price_a position) (entry_price_b position)
            * 0.0006
          + notional position xa xb * 0.0006
        <-> notional position (entry_price_a position) (entry_price_b position)
            == notional position xa xb)
    /\ t_pnl trade ==
         _calculate_pnl (side_a position) (entry_price_a position) xa
                        (size_a position)
         + _calculate_pnl (side_b position) (entry_price_b position) xb
                          (size_b position)
         - t_commission trade
    /\ closed_trades pm' = closed_trades pm ++ [trade]
    /\ open_positions pm' !! pair_id = None
    /\ daily_pnl pm' = daily_pnl pm + t_pnl trade
    /\ total_pnl pm' = total_pnl pm + t_pnl trade.
Proof.
  intros Hopen. eexists _, _, _. split; [apply close_position_open, Hopen |].
  cbn [t_commission t_pnl trade_of closed_trades open_positions daily_pnl
       total_pnl].
  repeat split; try reflexivity.
  - intros H. apply (round_trip_fee_iff _ (notional position xa xb)).
    unfold notional, commission_rate in *. lra.
  - intros H. unfold notional, commission_rate in *. lra.
  - apply lookup_delete_eq.
Qed.

Lemma close_position_commission_witness :
  exists trade pm' tracker',
    close_position one_open [] 90000000 btc_eth 66000 3000 0 "Quick profit"
      = (Some trade, pm', tracker')
    /\ t_commission trade == 1.512
    /\ t_pnl trade == 60 - 1.512.
Proof.
  destruct (close_position_commission one_open [] 90000000 btc_eth 66000 3000
              0 "Quick profit" the_position one_open_lookup)
    as (trade & pm' & tracker' & Heq & Hc & _ & Hp & _).
  exists trade, pm', tracker'. split; [exact Heq |].
  rewrite close_position_open with (position := the_position) in Heq
    by apply one_open_lookup.
  injection Heq as <- _ _. split; vm_compute; reflexivity.
Defined.

(** C7, as stated, fails: with the BTC/ETH position open, a second
    [add_position] for the same pair is not rejected; the stored position is
    the new one (sizes 0.02 and 0.4) and the first one is gone. *)
Lemma add_position_existing_counterexample :
  open_positions one_open !! btc_eth = Some the_position
  /\ open_positions
       (fst (add_position one_open 5000000 btc_eth "BTCUSDT" "ETHUSDT"
               SHORT LONG 0.02 0.4 61000 3100 1 2.3)) !! btc_eth
     <> Some the_position.
Proof.
  split; [apply one_open_lookup |].
  cbn [add_position fst open_positions]. rewrite lookup_insert_eq.
  unfold the_position. cbn [add_position snd]. discriminate.
Qed.

(** C7 (amended): [add_position] has no guard for an existing pair_id; in
    every state it stores the newly built position under the pair_id (in
    place of an existing one, so the number of open positions is then
    unchanged), returns it, and leaves the other pairs, the closed trades
    and both P&L tallies as they were. *)
Theorem add_position_overwrites pm now pair_id sa sb side_a side_b
    size_a size_b pa pb hr z :
  let '(pm', position) :=
    add_position pm now pair_id sa sb side_a side_b size_a size_b pa pb hr z in
  open_positions pm' !! pair_id = Some position
  /\ Models.size_a position = size_a /\ Models.size_b position = size_b
  /\ entry_price_a position = pa /\ entry_price_b position = pb
  /\ current_price_a position = pa /\ current_price_b position = pb
  /\ Models.side_a position = side_a /\ Models.side_b position = side_b
  /\ entry_time position = now /\ unrealized_pnl position = 0
  /\ (forall other, other <> pair_id ->
        open_positions pm' !! other = open_positions pm !! other)
  /\ (is_Some (open_positions pm !! pair_id) ->
        size (open_positions pm') = size (open_positions pm))
  /\ closed_trades pm' = closed_trades pm
  /\ daily_pnl pm' = daily_pnl pm /\ total_pnl pm' = total_pnl pm.
Proof.
  cbn [add_position open_positions closed_trades daily_pnl total_pnl
       Models.size_a Models.size_b entry_price_a entry_price_b
       current_price_a current_price_b Models.side_a Models.side_b
       entry_time unrealized_pnl].
  repeat split.
  - apply lookup_insert_eq.
  - intros other Hne. apply lookup_insert_ne. congruence.
  - intros [old Hold].
    rewrite <- (insert_delete_id (open_positions pm) pair_id old Hold) at 2.
    rewrite <- insert_delete_eq.
    rewrite !map_size_insert_None by apply lookup_delete_eq. reflexivity.
Qed.

(** [update_position] on a pair that is open, with two positive prices. *)
Lemma update_position_valid pm pair_id pa pb z position :
  open_positions pm !! pair_id = Some position ->
  0 < pa -> 0 < pb ->
  update_position pm pair_id pa pb z =
    {| open_positions :=
         <[pair_id := updated position pa pb z]> (open_positions pm);
       closed_trades := closed_trades pm;
       daily_pnl := daily_pnl pm;
       total_pnl := total_pnl pm |}.
Proof.
  intros Hopen Ha Hb. unfold update_position. rewrite Hopen.
  apply leb_gt in Ha, Hb. rewrite Ha, Hb. reflexivity.
Qed.

(** C10: [update_position] leaves the whole manager state as it was when
    the pair_id is not open or a price is not positive; otherwise only the
    position of that pair changes, and of it only the two current prices,
    the current z-score and the unrealized P&L (recomputed from the entry
    prices, sizes and sides, which stay, like the entry time). *)
Theorem update_position_atomic pm pair_id pa pb z :
  (open_positions pm !! pair_id = None \/ pa <= 0 \/ pb <= 0 ->
     update_position pm pair_id pa pb z = pm)
  /\ (forall position,
        open_positions pm !! pair_id = Some position -> 0 < pa -> 0 < pb ->
        let pm' := update_position pm pair_id pa pb z in
        exists position',
          open_positions pm' !! pair_id = Some position'
          /\ current_price_a position' = pa
          /\ current_price_b position' = pb
          /\ current_zscore position' = z
          /\ unrealized_pnl position' =
               _calculate_pnl (side_a position) (entry_price_a position) pa
                              (size_a position)
               + _calculate_pnl (side_b position) (entry_price_b position) pb
                                (size_b position)
          /\ Models.pair_id position' = Models.pair_id position
          /\ symbol_a position' = symbol_a position
          /\ symbol_b position' = symbol_b position
          /\ side_a position' = side_a position
          /\ side_b position' = side_b position
          /\ size_a position' = size_a position
          /\ size_b position' = size_b position
          /\ entry_price_a position' = entry_price_a position
          /\ entry_price_b position' = entry_price_b position
          /\ hedge_ratio position' = hedge_ratio position
          /\ entry_zscore position' = entry_zscore position
          /\ entry_time position' = entry_time position
          /\ status position' = status position
          /\ max_profit_pct position' = max_profit_pct position
          /\ (forall other, other <> pair_id ->
                open_positions pm' !! other = open_positions pm !! other)
          /\ closed_trades pm' = closed_trades pm
          /\ daily_pnl pm' = daily_pnl pm
          /\ total_pnl pm' = total_pnl pm).
Proof.
  split.
  - intros H. unfold update_position.
    destruct (open_positions pm !! pair_id) as [position|]; [| reflexivity].
    destruct H as [H | [H | H]]; [discriminate | |];
      apply leb_le in H; rewrite H; [| rewrite orb_true_r]; reflexivity.
  - intros position Hopen Ha Hb pm'. subst pm'.
    rewrite (update_position_valid _ _ _ _ _ _ Hopen Ha Hb).
    exists (updated position pa pb z).
    cbn [open_positions closed_trades daily_pnl total_pnl updated
         current_price_a current_price_b current_zscore unrealized_pnl
         Models.pair_id symbol_a symbol_b side_a side_b size_a size_b
         entry_price_a entry_price_b hedge_ratio entry_zscore entry_time
         status max_profit_pct].
    repeat split.
    + apply lookup_insert_eq.
    + intros other Hne. apply lookup_insert_ne. congruence.
Qed.

(** The BTC/ETH position, updated at 66000 and 3000, gains 60; an update
    with a zero price changes nothing. *)
Example update_position_example :
  (exists position',
     open_positions (update_position one_open btc_eth 66000 3000 (-1)) !! btc_eth
       = Some position'
     /\ unrealized_pnl position' == 60)
  /\ update_position one_open btc_eth 0 3000 (-1) = one_open.
Proof.
  split.
  - rewrite update_position_valid with (position := the_position);
      [| apply one_open_lookup | reflexivity | reflexivity].
    eexists. split; [apply lookup_insert_eq |]. vm_compute. reflexivity.
  - unfold update_position. rewrite one_open_lookup. reflexivity.
Qed.

End PositionManagerFacts.

(** ** Risk agent *)

Module RiskAgentFacts.

Import Models Actions RiskAgent FloatFacts.
Local Open Scope Q_scope.

Lemma vol_multiplier_pos volatility : 0 < vol_multiplier volatility.
Proof.
  unfold vol_multiplier.
  destruct volatility as [v|]; [| reflexivity].
  destruct (Float.truthy v); [| reflexivity]. cbn [andb].
  case_ltb 0 v; [| reflexivity].
  case_ltb 0.5 v; [| reflexivity].
  apply Q.min_glb_lt; [reflexivity |].
  unfold Qdiv. apply Qmult_lt_0_compat; [reflexivity |].
  apply Qinv_lt_0_compat. assumption.
Qed.

Lemma dynamic_base_size_sign cfg stats :
  (0 <= Config.max_position_size (Config.trading cfg) ->
   0 <= dynamic_base_size cfg stats)
  /\ (Config.max_position_size (Config.trading cfg) < 0 ->
      dynamic_base_size cfg stats < 0).
Proof.
  unfold dynamic_base_size.
  destruct stats as [st|]; [| split; intros H; exact H].
  destruct (5 <=? PerformanceTracker.total_trades st)%nat;
    [| split; intros H; exact H].
  destruct (0.60 <=? PerformanceTracker.win_rate st); [split; intros; lra |].
  destruct (0.55 <=? PerformanceTracker.win_rate st); split; intros; lra.
Qed.

(** The size before the caps and the floor, as a function of confidence. *)
Definition raw_size (base vol c : Q) : Q := base * (0.5 + c * 0.5) * vol.

Lemma raw_size_monotone base vol c1 c2 :
  0 <= base -> 0 < vol -> c1 <= c2 ->
  raw_size base vol c1 <= raw_size base vol c2.
Proof.
  intros Hb Hv Hc. unfold raw_size.
  apply Qmult_le_compat_r; [| apply Qlt_le_weak, Hv].
  rewrite !(Qmult_comm base).
  apply Qmult_le_compat_r; [lra | exact Hb].
Qed.

Lemma raw_size_nonpos base vol c :
  base < 0 -> 0 < vol -> -1 <= c -> raw_size base vol c <= 0.
Proof.
  intros Hb Hv Hc. unfold raw_size.
  assert (H1 : 0 <= (0.5 + c * 0.5) * vol)
    by (apply Qmult_le_0_compat; lra).
  rewrite <- Qmult_assoc.
  apply Qle_trans with (0 * ((0.5 + c * 0.5) * vol)).
  - apply Qmult_le_compat_r; [lra | exact H1].
  - rewrite Qmult_0_l. apply Qle_refl.
Qed.

(** The caps and the floor applied to a raw size. *)
Definition capped (cfg : Config.t) (account_balance raw : Q) : Q :=
  Qmax (Qmin (Qmin raw
                (account_balance * Config.risk_per_trade (Config.trading cfg)
                 * 10))
             (account_balance * 0.2))
       500.0.

Lemma capped_monotone cfg balance x y :
  x <= y -> capped cfg balance x <= capped cfg balance y.
Proof.
  intros H. unfold capped.
  apply Q.max_le_compat_r, Q.min_le_compat_r, Q.min_le_compat_r, H.
Qed.

Lemma capped_floor cfg balance x :
  x <= 0 -> capped cfg balance x == 500.0.
Proof.
  intros H. unfold capped. apply Q.max_r.
  eapply Qle_trans; [apply Q.le_min_l |].
  eapply Qle_trans; [apply Q.le_min_l |]. lra.
Qed.

Lemma calculate_position_size_eq cfg stats pair_id balance c vol :
  calculate_position_size cfg stats pair_id balance c vol =
    (capped cfg balance
       (raw_size (dynamic_base_size cfg stats) (vol_multiplier vol) c),
     capped cfg balance
       (raw_size (dynamic_base_size cfg stats) (vol_multiplier vol) c)).
Proof. reflexivity. Qed.

(** C8: with the pair, the balance, the volatility and the tracker's
    statistics fixed, the size returned for confidence [c1] is at most the
    size returned for [c2] whenever [c1 <= c2], and the two legs get the
    same size. This needs the product with the confidence factor
    [0.5 + 0.5 c] to be monotone: the configured [max_position_size] is not
    negative, or the confidence is at least -1 (signal confidences lie in
    [0, 1]). *)
Theorem calculate_position_size_monotone cfg stats pair_id balance vol c1 c2 :
  0 <= Config.max_position_size (Config.trading cfg) \/ -1 <= c1 ->
  c1 <= c2 ->
  fst (calculate_position_size cfg stats pair_id balance c1 vol)
    <= fst (calculate_position_size cfg stats pair_id balance c2 vol)
  /\ fst (calculate_position_size cfg stats pair_id balance c1 vol)
     = snd (calculate_position_size cfg stats pair_id balance c1 vol)
  /\ fst (calculate_position_size cfg stats pair_id balance c2 vol)
     = snd (calculate_position_size cfg stats pair_id balance c2 vol).
Proof.
  intros Hdom Hc. rewrite !calculate_position_size_eq. cbn [fst snd].
  split; [| split; reflexivity].
  pose proof (vol_multiplier_pos vol) as Hv.
  destruct (dynamic_base_size_sign cfg stats) as [Hpos Hneg].
  destruct (Qlt_le_dec (Config.max_position_size (Config.trading cfg)) 0)
    as [Hlt | Hge].
  - destruct Hdom as [Hdom | Hdom]; [lra |].
    rewrite !capped_floor; [lra | |];
      apply raw_size_nonpos; auto; lra.
  - apply capped_monotone, raw_size_monotone; auto.
Qed.

Lemma calculate_position_size_monotone_witness :
  fst (calculate_position_size Config.default None "BTCUSDT_ETHUSDT" 100000
         0.2 None)
    <= fst (calculate_position_size Config.default None "BTCUSDT_ETHUSDT"
              100000 0.9 None).
Proof.
  apply (calculate_position_size_monotone Config.default None
           "BTCUSDT_ETHUSDT" 100000 None 0.2 0.9).
  - left. vm_compute. discriminate.
  - vm_compute. discriminate.
Defined.

(** With the default configuration and a balance of 100000, confidence 0.2
    gives 600 a leg and confidence 0.9 gives 950. *)
Example calculate_position_size_values :
  fst (calculate_position_size Config.default None "BTCUSDT_ETHUSDT" 100000
         0.2 None) == 600
  /\ fst (calculate_position_size Config.default None "BTCUSDT_ETHUSDT" 100000
            0.9 None) == 950.
Proof. split; vm_compute; reflexivity. Qed.

(** The side condition of the monotonicity is needed: with a negative
    configured base size, a confidence of -5 gets 2000 a leg and a
    confidence of 0 gets the floor of 500. *)
Example calculate_position_size_outside_domain :
  let cfg :=
    {| Config.trading :=
         {| Config.max_position_size := -1000;
            Config.max_concurrent_pairs := 15;
            Config.daily_loss_limit := 1000000;
            Config.risk_per_trade := 0.01 |};
       Config.zscore := Config.zscore Config.default;
       Config.max_holding_period_hours := 24 |} in
  fst (calculate_position_size cfg None "BTCUSDT_ETHUSDT" 100000 (-5) None)
    == 2000
  /\ fst (calculate_position_size cfg None "BTCUSDT_ETHUSDT" 100000 0 None)
     == 500.
Proof. split; vm_compute; reflexivity. Qed.

(** C4: a position whose unrealized P&L is below -100 is closed whatever
    its holding time (emergency stop); any other position held for less
    than 30 seconds is not closed. *)
Theorem should_close_position_min_hold cfg now position pa pb z :
  (unrealized_pnl position < -100 ->
     fst (should_close_position cfg now position pa pb z)
       = (true, EmergencyStopLoss (unrealized_pnl position)))
  /\ (Float.total_seconds (now - entry_time position) < 30 ->
      ~ unrealized_pnl position < -100 ->
      fst (fst (should_close_position cfg now position pa pb z)) = false)
  /\ (Float.total_seconds (now - entry_time position) < 30 ->
      fst (fst (should_close_position cfg now position pa pb z)) = true ->
      unrealized_pnl position < -100).
Proof.
  assert (Hemergency :
    unrealized_pnl position < -100 ->
    Float.truthy (unrealized_pnl position)
      && (unrealized_pnl position <? -100) = true).
  { intros H. apply andb_true_intro. split.
    - apply truthy_neq. intros Heq. rewrite Heq in H. discriminate H.
    - apply ltb_lt, H. }
  assert (Hquiet :
    Float.total_seconds (now - entry_time position) < 30 ->
    ~ unrealized_pnl position < -100 ->
    fst (fst (should_close_position cfg now position pa pb z)) = false).
  { intros Hhold Hpnl. unfold should_close_position.
    replace (Float.truthy (unrealized_pnl position)
             && (unrealized_pnl position <? -100)) with false.
    - apply ltb_lt in Hhold. unfold MIN_HOLDING_SECONDS. rewrite Hhold.
      reflexivity.
    - symmetry. apply andb_false_intro2, not_true_iff_false.
      rewrite ltb_lt. exact Hpnl. }
  split; [| split].
  - intros H. unfold should_close_position. rewrite (Hemergency H).
    reflexivity.
  - exact Hquiet.
  - intros Hhold Hclose.
    destruct (Qlt_le_dec (unrealized_pnl position) (-100)) as [H | H];
      [exact H |].
    rewrite Hquiet in Hclose; [discriminate | exact Hhold |].
    apply Qle_not_lt, H.
Qed.

(** Ten seconds after entry: a loss of 150 closes at once, a gain of 5
    (above the 0.2% quick-profit mark) does not. *)
Example should_close_position_examples :
  let p := PositionManager.updated PositionManagerFacts.the_position in
  fst (fst (should_close_position Config.default 10000000
              (p 45000 3000 0) 45000 3000 0)) = true
  /\ fst (fst (should_close_position Config.default 10000000
                 (p 60500 3000 0) 60500 3000 0)) = false
  /\ fst (fst (should_close_position Config.default 40000000
                 (p 60500 3000 0) 60500 3000 0)) = true.
Proof. repeat split; vm_compute; reflexivity. Qed.

End RiskAgentFacts.

(** ** Orchestrator: the risk gate of a decision *)

Module OrchestratorFacts.

Import Models Actions Orchestrator FloatFacts.
Local Open Scope Q_scope.

(** The pre-trade check fails exactly on one of its four conditions. *)
Lemma check_risk_limits_unsafe cfg ra positions daily_pnl balance :
  fst (fst (RiskAgent.check_risk_limits cfg ra positions daily_pnl balance))
    = false
  <-> ((Config.max_concurrent_pairs (Config.trading cfg)
        <= Z.of_nat (length positions))%Z
       \/ daily_pnl < - Config.daily_loss_limit (Config.trading cfg)
       \/ balance * 0.8 < RiskAgent.total_exposure positions
       \/ 0.20 < RiskAgent.current_drawdown
                   (RiskAgent._update_drawdown ra balance)).
Proof.
  unfold RiskAgent.check_risk_limits. cbn [fst].
  destruct (Z.leb_spec (Config.max_concurrent_pairs (Config.trading cfg))
              (Z.of_nat (length positions))) as [H1 | H1];
    [split; [intros _; left; exact H1 | reflexivity] |].
  case_ltb daily_pnl (- Config.daily_loss_limit (Config.trading cfg));
    [split; [intros _; right; left; assumption | reflexivity] |].
  case_ltb (balance * 0.8) (RiskAgent.total_exposure positions);
    [split; [intros _; right; right; left; assumption | reflexivity] |].
  case_ltb 0.20 (RiskAgent.current_drawdown
                   (RiskAgent._update_drawdown ra balance));
    [split; [intros _; right; right; right; assumption | reflexivity] |].
  cbn [app]. split; [discriminate |].
  intros [H | [H | [H | H]]]; [lia | | |]; exfalso;
    eapply Qlt_not_le; eassumption.
Qed.

Lemma get_recommendation_unsafe cfg ra signal_action positions balance daily_pnl :
  fst (fst (RiskAgent.check_risk_limits cfg ra positions daily_pnl balance))
    = false ->
  fst (RiskAgent.get_recommendation cfg ra signal_action positions balance
         daily_pnl)
  = {| RiskAgent.r_action := PAUSE;
       RiskAgent.r_reason :=
         RiskAgent.RiskViolations
           (snd (fst (RiskAgent.check_risk_limits cfg ra positions daily_pnl
                        balance)));
       RiskAgent.r_confidence := 1.0 |}.
Proof.
  intros H. unfold RiskAgent.get_recommendation.
  destruct (RiskAgent.check_risk_limits cfg ra positions daily_pnl balance)
    as [[is_safe violations] ra'].
  cbn [fst snd] in *. subst is_safe. reflexivity.
Qed.

(** One open BTC/ETH position of 1200 USD notional and a balance of 1000:
    the exposure limit of 800 is exceeded. *)
Definition held : list Position := [PositionManagerFacts.the_position].

Definition quiet : StrategyManager.AggregatedSignal :=
  StrategyManager._aggregate_signals StrategyManager.init
    (StrategyManager.four
       {| StrategyManager.s_action := HOLD; StrategyManager.s_confidence := 0.5 |}
       {| StrategyManager.s_action := HOLD; StrategyManager.s_confidence := 0 |}
       {| StrategyManager.s_action := HOLD; StrategyManager.s_confidence := 0 |}
       {| StrategyManager.s_action := HOLD; StrategyManager.s_confidence := 0 |})
    "BTCUSDT_ETHUSDT".

Definition no_analysis : QuantAnalysis :=
  {| qa_cointegration := None; qa_zscore := None;
     qa_mean_reversion_score := 0 |}.

(** C2, as stated, fails: with the exposure limit violated, the decision
    for the pair that has the open position is Pause, not Close, and the
    decision for a pair without a position is Pause, not Hold. *)
Lemma make_decision_risk_counterexample :
  fst (fst (RiskAgent.check_risk_limits Config.default RiskAgent.init held 0
              1000)) = false
  /\ is_Some (find_position "BTCUSDT_ETHUSDT" held)
  /\ d_action (fst (make_decision Config.default RiskAgent.init None 0
                      "BTCUSDT" "ETHUSDT" no_analysis quiet held 1000 0))
     <> CLOSE
  /\ find_position "SOLUSDT_AVAXUSDT" held = None
  /\ d_action (fst (make_decision Config.default RiskAgent.init None 0
                      "SOLUSDT" "AVAXUSDT" no_analysis quiet held 1000 0))
     <> HOLD.
Proof.
  repeat split; try (vm_compute; (reflexivity || discriminate)).
  vm_compute. eexists. reflexivity.
Qed.

(** C2 (amended): whenever the pre-trade risk check reports a violation
    (positions at the limit, daily loss limit breached, exposure above 0.8
    times the balance, or drawdown above 0.20), the decision emitted for the
    pair has action Pause, confidence 1.0 and the violations as its reason,
    and carries no sizes, whether or not a position is open for the pair. *)
Theorem make_decision_risk_violation cfg ra stats now symbol_a symbol_b
    quant_analysis strategy_signal positions balance daily_pnl :
  (Config.max_concurrent_pairs (Config.trading cfg)
   <= Z.of_nat (length positions))%Z
  \/ daily_pnl < - Config.daily_loss_limit (Config.trading cfg)
  \/ balance * 0.8 < RiskAgent.total_exposure positions
  \/ 0.20 < RiskAgent.current_drawdown (RiskAgent._update_drawdown ra balance) ->
  let decision :=
    fst (make_decision cfg ra stats now symbol_a symbol_b quant_analysis
           strategy_signal positions balance daily_pnl) in
  d_action decision = PAUSE
  /\ d_confidence decision = 1.0
  /\ d_reason decision =
       Risk (RiskAgent.RiskViolations
               (snd (fst (RiskAgent.check_risk_limits cfg ra positions
                            daily_pnl balance))))
  /\ d_position_size_a decision = None
  /\ d_position_size_b decision = None.
Proof.
  intros Hviolation decision. subst decision.
  apply check_risk_limits_unsafe in Hviolation.
  unfold make_decision.
  match goal with
  | |- context [RiskAgent.get_recommendation ?c ?r ?a ?p ?b ?d] =>
    pose proof (get_recommendation_unsafe c r a p b d Hviolation) as Hrec;
    destruct (RiskAgent.get_recommendation c r a p b d) as [rec ra']
  end.
  cbn [fst] in Hrec. subst rec. cbn. repeat split.
Qed.

Lemma make_decision_risk_violation_witness :
  d_action (fst (make_decision Config.default RiskAgent.init None 0
                   "BTCUSDT" "ETHUSDT" no_analysis quiet held 1000 0))
  = PAUSE.
Proof.
  apply (make_decision_risk_violation Config.default RiskAgent.init None 0
           "BTCUSDT" "ETHUSDT" no_analysis quiet held 1000 0).
  right. right. left. vm_compute. reflexivity.
Defined.

End OrchestratorFacts.

(** ** Strategy manager: consensus aggregation *)

Module StrategyManagerFacts.

Import Actions StrategyManager FloatFacts.
Local Open Scope Q_scope.

Definition sig (a : Action) (c : Q) : Signal :=
  {| s_action := a; s_confidence := c |}.

(** Engle-Granger alone signals a long spread with confidence 0.9. *)
Definition lone_long : Signals :=
  four (sig LONG_SPREAD 0.9) (sig HOLD 0.5) (sig HOLD 0.5) (sig HOLD 0.5).

(** Engle-Granger long at 0.3 and order-book short at 0.4: both weigh 0.12. *)
Definition long_vs_short : Signals :=
  four (sig LONG_SPREAD 0.3) (sig SHORT_SPREAD 0.4) (sig HOLD 0.5) (sig HOLD 0.5).

Lemma lone_long_is_lone : lone_signal lone_long LONG_SPREAD.
Proof. exists engle_granger, (sig LONG_SPREAD 0.9). split; reflexivity. Qed.

Lemma long_vs_short_is_split : split_signal init long_vs_short.
Proof.
  exists engle_granger, (sig LONG_SPREAD 0.3),
         orderbook_imbalance, (sig SHORT_SPREAD 0.4).
  split; [reflexivity |]. split; [left; split; reflexivity |].
  vm_compute. reflexivity.
Qed.

(** C3, as stated, fails on both parts: the lone long-spread signal is
    outvoted by the three Hold votes, so the aggregated action is Hold and
    not the signalling strategy's action; and for two opposing signals of
    equal weighted confidence the label is Moderate, not Conflicting. *)
Lemma aggregate_signals_counterexample :
  lone_signal lone_long LONG_SPREAD
  /\ action (_aggregate_signals init lone_long "BTCUSDT_ETHUSDT")
     <> LONG_SPREAD
  /\ split_signal init long_vs_short
  /\ consensus (_aggregate_signals init long_vs_short "BTCUSDT_ETHUSDT")
     <> CONFLICTING.
Proof.
  split; [apply lone_long_is_lone |].
  split; [vm_compute; discriminate |].
  split; [apply long_vs_short_is_split |].
  vm_compute; discriminate.
Qed.

Section Aggregation.

Local Opaque Float.ltb Float.leb Qplus Qmult Qdiv Qmin.

(** Evaluates the aggregation of four signals with known actions; the
    confidences stay symbolic, so every comparison of two tallies with the
    same count is split into its two outcomes. *)
Local Ltac evaluate_aggregation :=
  lazy;
  repeat match goal with
         | |- context [Float.ltb ?a ?b] => destruct (Float.ltb a b); lazy
         end;
  split; reflexivity.

(** C3 (amended): in consensus mode Hold votes are counted like any other
    action. If exactly one of the four strategies signals an action other
    than Hold, the three Hold votes win and the aggregated action is Hold
    with label Moderate; if two strategies signal opposing entry actions
    with equal weighted confidence and the other two signal Hold, the two
    Hold votes win and the aggregated action is Hold with label Moderate.
    A detected breakout does not change either outcome. *)
Theorem aggregate_signals_hold_majority sm eg obi cr mr breakout pair_id :
  (exists a, lone_signal (four eg obi cr mr) a)
  \/ split_signal sm (four eg obi cr mr) ->
  let aggregated :=
    generate_aggregated_signal sm (four eg obi cr mr) breakout pair_id in
  action aggregated = HOLD /\ consensus aggregated = MODERATE.
Proof.
  intros H aggregated. subst aggregated.
  destruct eg as [a1 c1], obi as [a2 c2], cr as [a3 c3], mr as [a4 c4].
  destruct sm as [w].
  unfold generate_aggregated_signal, _aggregate_signals, four.
  destruct H as [(a & name & s & Hsig & _)
                | (n1 & s1 & n2 & s2 & Hsig & Hopp & _)].
  - destruct a1, a2; try (exfalso; lazy in Hsig; discriminate Hsig);
      destruct a3; try (exfalso; lazy in Hsig; discriminate Hsig);
      destruct a4; try (exfalso; lazy in Hsig; discriminate Hsig);
      clear Hsig; destruct breakout; evaluate_aggregation.
  - destruct a1, a2, a3; try (exfalso; lazy in Hsig; discriminate Hsig);
      destruct a4; lazy in Hsig; try discriminate Hsig;
      injection Hsig as _ <- _ <-; cbn in Hopp;
      (destruct Hopp as [[? ?] | [? ?]]; try discriminate);
      destruct breakout; evaluate_aggregation.
Qed.

Local Transparent Float.ltb Float.leb Qplus Qmult Qdiv Qmin.

End Aggregation.

Lemma aggregate_signals_hold_majority_witness :
  action (generate_aggregated_signal init lone_long true "BTCUSDT_ETHUSDT")
    = HOLD
  /\ consensus (generate_aggregated_signal init lone_long true
                  "BTCUSDT_ETHUSDT") = MODERATE.
Proof.
  apply (aggregate_signals_hold_majority init (sig LONG_SPREAD 0.9)
           (sig HOLD 0.5) (sig HOLD 0.5) (sig HOLD 0.5) true
           "BTCUSDT_ETHUSDT").
  left. exists LONG_SPREAD. exists engle_granger, (sig LONG_SPREAD 0.9).
  split; reflexivity.
Defined.

(** Two strategies agreeing on an entry against two Hold votes: the tie of
    the counts is broken by the weighted confidence. *)
Example aggregate_two_against_two :
  action (_aggregate_signals init
            (four (sig LONG_SPREAD 0.9) (sig LONG_SPREAD 0.8)
                  (sig HOLD 0.5) (sig HOLD 0.5)) "BTCUSDT_ETHUSDT")
    = LONG_SPREAD
  /\ action (_aggregate_signals init
               (four (sig HOLD 0.5) (sig HOLD 0.5)
                     (sig LONG_SPREAD 0.9) (sig LONG_SPREAD 0.8))
               "BTCUSDT_ETHUSDT")
    = HOLD.
Proof. split; vm_compute; reflexivity. Qed.

End StrategyManagerFacts.

(** ** Engle-Granger strategy *)

Module EngleGrangerFacts.

Import Actions EngleGranger FloatFacts.
Local Open Scope Q_scope.

(** Whether both cleaned series have the minimum number of points. *)
Definition enough_data (p : Params) (prices_a prices_b : Series) : bool :=
  negb ((length (cleaned prices_a) <? min_data_points p)%nat
        || (length (cleaned prices_b) <? min_data_points p)%nat).

(** The exit rule applied while a position is held. *)
Definition exit_action (p : Params) (z : Q) : Action :=
  if (zscore_stoploss p <? Qabs z) || (Qabs z <? zscore_exit p) then CLOSE
  else HOLD.

Lemma generate_signal_action num p prices_a prices_b current_position :
  action (generate_signal num p prices_a prices_b current_position) =
    if enough_data p prices_a prices_b then
      if holding current_position then
        exit_action p (windowed_zscore num p prices_a prices_b)
      else if windowed_pvalue num p prices_a prices_b <? 0.20 then
        if zscore_entry p <? windowed_zscore num p prices_a prices_b
        then SHORT_SPREAD
        else if windowed_zscore num p prices_a prices_b <? - zscore_entry p
        then LONG_SPREAD
        else HOLD
      else HOLD
    else HOLD.
Proof.
  unfold generate_signal, enough_data, exit_action, windowed_zscore,
    windowed_pvalue.
  destruct ((length (cleaned prices_a) <? min_data_points p)%nat
            || (length (cleaned prices_b) <? min_data_points p)%nat);
    [reflexivity |].
  cbn [negb].
  destruct (engle_granger_test num _ _) as [[hedge pvalue] residuals].
  cbn [fst snd].
  destruct (calculate_spread_zscore num _ _ hedge) as [z spread].
  cbn [fst].
  destruct (holding current_position).
  - destruct (zscore_stoploss p <? Qabs z); [reflexivity |].
    destruct (Qabs z <? zscore_exit p); reflexivity.
  - destruct (pvalue <? 0.20); [| reflexivity]. cbn [negb].
    destruct (zscore_entry p <? z); [reflexivity |].
    destruct (z <? - zscore_entry p); reflexivity.
Qed.

(** Thirty one-second samples at a constant price. *)
Definition flat (price : Q) : Series :=
  map (fun i => (Z.of_nat i * 1000000, price)%Z) (seq 0 30).

(** A numerical back end whose ADF test answers p = 0.5 and whose spread
    stands at z = 0.1, as for two unrelated series near their mean. *)
Definition unrelated : Numerics :=
  {| calculate_correlation := fun _ _ => 0.1;
     calculate_distance := fun _ _ => 40;
     engle_granger_test := fun _ _ => (1.0, 0.5, [0.2; -0.1; 0.1]);
     calculate_spread_zscore := fun _ _ _ => (0.1, [97; 98; 98.1]) |}.

(** C6, as stated, fails: with an ADF p-value of 0.5 and a long-spread
    position held, a z-score of 0.1 makes the strategy return Close. *)
Lemma generate_signal_pvalue_counterexample :
  0.20 <= windowed_pvalue unrelated default_params (flat 100) (flat 98)
  /\ action (generate_signal unrelated default_params (flat 100) (flat 98)
               (Some "LONG_SPREAD"%string)) <> HOLD.
Proof. split; vm_compute; discriminate. Qed.

(** C6 (amended): if the ADF p-value on the windowed residuals is at least
    0.20 and no position is held ([current_position] is None or empty), the
    returned action is Hold. While a position is held the p-value is not
    consulted: with enough data the action is Close when |z| exceeds the
    stop-loss threshold or is below the exit threshold, and Hold otherwise. *)
Theorem generate_signal_not_cointegrated num p prices_a prices_b current_position :
  0.20 <= windowed_pvalue num p prices_a prices_b ->
  let signal := generate_signal num p prices_a prices_b current_position in
  (holding current_position = false -> action signal = HOLD)
  /\ (holding current_position = true ->
      action signal =
        if enough_data p prices_a prices_b
        then exit_action p (windowed_zscore num p prices_a prices_b)
        else HOLD).
Proof.
  intros Hp signal. subst signal. rewrite generate_signal_action.
  split; intros Hheld; rewrite Hheld; [| reflexivity].
  apply ltb_ge in Hp. rewrite Hp.
  destruct (enough_data p prices_a prices_b); reflexivity.
Qed.

Lemma generate_signal_not_cointegrated_witness :
  action (generate_signal unrelated default_params (flat 100) (flat 98) None)
    = HOLD.
Proof.
  apply (generate_signal_not_cointegrated unrelated default_params
           (flat 100) (flat 98) None).
  - vm_compute. discriminate.
  - reflexivity.
Defined.

(** The cleaning keeps the last row of a repeated index and sorts. *)
Example cleaned_example :
  cleaned [(3%Z, 30); (1%Z, 10); (3%Z, 31); (2%Z, 20)]
    = [(1%Z, 10); (2%Z, 20); (3%Z, 31)].
Proof. reflexivity. Qed.

End EngleGrangerFacts.

(** ** Order rate limiter *)

Module OrderRateLimiterFacts.

Import OrderRateLimiter.

(** [acquire] has no refusing path: it always answers True and always
    records the instant at which it was called. *)
Lemma acquire_always_records rl now symbol :
  fst (fst (acquire rl now symbol)) = true
  /\ last (recent_orders (snd (fst (acquire rl now symbol)))) = Some now.
Proof.
  unfold acquire.
  destruct (in_cooldown rl), (cooldown_until rl) as [until|];
    try destruct (now <? until)%Z; cbn [fst snd recent_orders];
    (split; [reflexivity |]);
    unfold deque_append, max_orders_per_minute;
    (rewrite drop_app_le by (rewrite List.length_app; cbn; lia));
    apply last_snoc.
Qed.

(** When five orders are on record for the last second, the sixth call
    sleeps 0.2 s and is then recorded with the instant of its call. *)
Lemma acquire_full_window now symbol t1 t2 t3 t4 t5 :
  (now - one_second <= t1)%Z ->
  acquire {| recent_orders := [t1; t2; t3; t4; t5]; in_cooldown := false;
             cooldown_until := None; consecutive_errors := 0 |} now symbol
  = (true,
     {| recent_orders := [t1; t2; t3; t4; t5; now]; in_cooldown := false;
        cooldown_until := None; consecutive_errors := 0 |},
     wait_time).
Proof.
  intros H. unfold acquire. cbn [in_cooldown cooldown_until recent_orders].
  cbn [drop_older]. destruct (Z.ltb_spec t1 (now - one_second)); [lia |].
  reflexivity.
Qed.

(** C5 fails on the code: six calls on a fresh limiter, one millisecond
    apart. Every call answers True; the sixth finds five orders on record,
    sleeps 0.2 s and is recorded all the same, so six acquisitions are
    recorded with instants inside one second, and all six calls have
    returned 205 ms after the first. *)
Theorem six_acquires_within_one_second :
  let '(log, rl) := run init 0 [0; 1000; 1000; 1000; 1000; 1000]%Z in
  map fst log = [true; true; true; true; true; true]
  /\ map snd log = [0; 1000; 2000; 3000; 4000; 205000]%Z
  /\ recent_orders rl = [0; 1000; 2000; 3000; 4000; 5000]%Z
  /\ length (in_window 0 (recent_orders rl)) = 6
  /\ length (in_window 0 (map snd log)) = 6.
Proof. vm_compute. repeat split. Qed.

(** After the burst the limiter paces the calls 0.2 s apart, which lets
    nine acquisitions return within the first second. *)
Example nine_acquires_in_first_second :
  length (in_window 0
            (map snd (fst (run init 0 [0; 0; 0; 0; 0; 0; 0; 0; 0; 0]%Z)))) = 9.
Proof. vm_compute. reflexivity. Qed.

End OrderRateLimiterFacts.

(** ** Price history *)

Module TradingEngineFacts.

Import TradingEngine FloatFacts.
Local Open Scope Q_scope.

Lemma max_points_pos : (1 <= max_points)%nat.
Proof. unfold max_points. lia. Qed.

Lemma sample_due_spec now s :
  sample_due now s = true <-> (last_time s + 1000000 <= now)%Z.
Proof.
  unfold sample_due. rewrite leb_le.
  rewrite (total_seconds_le (now - last_time s) 1). lia.
Qed.

Lemma keep_last_length s : (length (keep_last s) <= max_points)%nat.
Proof.
  unfold keep_last.
  destruct (Nat.ltb_spec max_points (length s)); [| assumption].
  rewrite length_drop. pose proof max_points_pos. lia.
Qed.

Lemma keep_last_oldest_removed s : oldest_removed s (keep_last s).
Proof.
  unfold keep_last, oldest_removed.
  destruct (max_points <? length s)%nat.
  - eexists. reflexivity.
  - exists 0%nat. reflexivity.
Qed.

Lemma keep_last_snoc s x : last (keep_last (s ++ [x])) = Some x.
Proof.
  unfold keep_last.
  destruct (max_points <? length (s ++ [x]))%nat; [| apply last_snoc].
  rewrite drop_app_le; [apply last_snoc |].
  rewrite length_app. cbn. pose proof max_points_pos. lia.
Qed.

(** What one pass of the loop body does to the series of a symbol. *)
Inductive step (now : Z) (price : Q) (s : Series) : Series -> Prop :=
  | step_skip : step now price s s
  | step_append :
      0 < price ->
      sample_due now s = true ->
      step now price s (keep_last (s ++ [(now, price)])).

Lemma series_insert pd symbol s other :
  series (<[symbol := s]> pd) other
    = if decide (symbol = other) then s else series pd other.
Proof.
  unfold series. rewrite lookup_insert. destruct (decide (symbol = other));
    reflexivity.
Qed.

Lemma update_symbol_step now prices pd symbol other :
  (symbol <> other ->
     series (update_symbol now prices pd symbol) other = series pd other)
  /\ step now (get_price prices symbol) (series pd symbol)
          (series (update_symbol now prices pd symbol) symbol).
Proof.
  unfold update_symbol. fold (series pd symbol).
  case_ltb 0 (get_price prices symbol).
  - destruct (sample_due now (series pd symbol)) eqn:Hdue;
      rewrite !series_insert; split.
    + intros Hne. destruct (decide (symbol = other)); [contradiction | reflexivity].
    + destruct (decide (symbol = symbol)); [| contradiction].
      apply step_append; assumption.
    + intros Hne. destruct (decide (symbol = other)); [contradiction | reflexivity].
    + destruct (decide (symbol = symbol)); [| contradiction].
      apply step_skip.
  - split; [reflexivity | apply step_skip].
Qed.

(** Once the sample of this instant is stored, it is not stored again. *)
Lemma step_twice now price s s1 s2 :
  step now price s s1 -> step now price s1 s2 -> step now price s s2.
Proof.
  intros H1 H2. destruct H1 as [| Hp Hdue]; [exact H2 |].
  destruct H2 as [| _ Hdue2]; [apply step_append; assumption |].
  exfalso. apply sample_due_spec in Hdue2.
  unfold last_time in Hdue2. rewrite keep_last_snoc in Hdue2. lia.
Qed.

Lemma update_price_data_step now symbols prices pd symbol :
  step now (get_price prices symbol) (series pd symbol)
       (series (_update_price_data now symbols prices pd) symbol).
Proof.
  unfold _update_price_data. revert pd.
  induction symbols as [| x symbols IH]; intros pd; [apply step_skip |].
  cbn [fold_left]. specialize (IH (update_symbol now prices pd x)).
  destruct (update_symbol_step now prices pd x symbol) as [Hother Hsame].
  destruct (decide (x = symbol)) as [-> | Hne].
  - eapply step_twice; eassumption.
  - rewrite Hother in IH by assumption. exact IH.
Qed.

Lemma step_bounded now price s s' :
  step now price s s' ->
  (length s <= max_points)%nat -> (length s' <= max_points)%nat.
Proof.
  intros [| _ _] H; [exact H | apply keep_last_length].
Qed.

Lemma run_updates_bounded symbols iterations pd :
  bounded pd -> bounded (run_updates symbols iterations pd).
Proof.
  unfold run_updates. revert pd.
  induction iterations as [| [now prices] iterations IH]; intros pd Hpd;
    [exact Hpd |].
  cbn [fold_left]. apply IH. intros symbol.
  eapply step_bounded; [apply update_price_data_step | apply Hpd].
Qed.

(** C9: an update either leaves the series of a symbol as it was, or has
    appended the sample (now, price), and this only when the price is
    positive and the last stored sample is at least one second older than
    now; what is stored then is the extended series with only oldest rows
    removed, the new sample last, and at most 10000 rows. A series within
    the bound stays within it, so from a store within the bound (the empty
    store the engine starts with) every sequence of updates keeps every
    series at 10000 rows at most. *)
Theorem update_price_data_invariants now symbols prices pd symbol :
  let s := series pd symbol in
  let s' := series (_update_price_data now symbols prices pd) symbol in
  let sample := (now, get_price prices symbol) in
  (s' = s
   \/ (0 < get_price prices symbol
       /\ (last_time s + 1000000 <= now)%Z
       /\ oldest_removed (s ++ [sample]) s'
       /\ last s' = Some sample
       /\ (length s' <= max_points)%nat))
  /\ ((length s <= max_points)%nat -> (length s' <= max_points)%nat)
  /\ (forall iterations,
        bounded pd -> bounded (run_updates symbols iterations pd))
  /\ bounded ∅.
Proof.
  intros s s' sample. subst s s' sample.
  pose proof (update_price_data_step now symbols prices pd symbol) as Hstep.
  repeat split.
  - destruct Hstep as [| Hp Hdue]; [left; reflexivity | right].
    repeat split.
    + exact Hp.
    + apply sample_due_spec, Hdue.
    + apply keep_last_oldest_removed.
    + apply keep_last_snoc.
    + apply keep_last_length.
  - eapply step_bounded, Hstep.
  - intros iterations. apply run_updates_bounded.
  - intros sym. unfold series. rewrite lookup_empty. cbn. lia.
Qed.

(** Two iterations half a second apart store one sample; a third one, a
    full second after the first, stores the second sample. *)
Example run_updates_example :
  series (run_updates ["BTCUSDT"%string]
            [(1000000%Z, {["BTCUSDT"%string := 60000]});
             (1500000%Z, {["BTCUSDT"%string := 60010]});
             (2000000%Z, {["BTCUSDT"%string := 60020]})] ∅) "BTCUSDT"
  = [(1000000%Z, 60000); (2000000%Z, 60020)].
Proof. vm_compute. reflexivity. Qed.

End TradingEngineFacts.

(** * Further properties *)

(** ** Position manager: further properties *)

Module PositionManagerProps.

Import Models PositionManager FloatFacts.
Local Open Scope Q_scope.

Lemma sum_pnl_from (trades : list Trade) (acc : Q) :
  fold_left (fun acc trade => acc + t_pnl trade) trades acc
    == acc + sum_pnl trades.
Proof.
  unfold sum_pnl. revert acc.
  induction trades as [| x trades IH]; intros acc; cbn [fold_left].
  - ring.
  - rewrite IH, (IH (0 + t_pnl x)). ring.
Qed.

Lemma sum_pnl_snoc (trades : list Trade) (x : Trade) :
  sum_pnl (trades ++ [x]) == sum_pnl trades + t_pnl x.
Proof.
  unfold sum_pnl at 1. rewrite fold_left_app. cbn [fold_left].
  fold (sum_pnl trades). reflexivity.
Qed.

(** X1: Closing a pair that is not open answers [None] and changes nothing;
    in particular a position cannot be closed twice. *)
Theorem close_position_twice pm tracker now1 now2 pair_id xa xb z reason
    xa' xb' z' reason' :
  let '(_, pm1, tracker1) :=
    close_position pm tracker now1 pair_id xa xb z reason in
  close_position pm1 tracker1 now2 pair_id xa' xb' z' reason'
    = (None, pm1, tracker1).
Proof.
  unfold close_position at 1.
  destruct (open_positions pm !! pair_id) as [position|] eqn:Hopen.
  - unfold close_position. cbn [open_positions].
    rewrite lookup_delete_eq. reflexivity.
  - unfold close_position. rewrite Hopen. reflexivity.
Qed.

(** X2: Opening a position and closing it at once at its entry prices loses
    exactly the commission, which is 0.0012 times the entry notional; the
    pair is not open afterwards and one trade is on record. *)
Theorem open_then_close_at_entry pm tracker now pair_id sa sb side_a side_b
    size_a size_b pa pb hr z reason :
  let '(pm1, position) :=
    add_position pm now pair_id sa sb side_a side_b size_a size_b pa pb hr z in
  exists trade pm2 tracker2,
    close_position pm1 tracker now pair_id pa pb z reason
      = (Some trade, pm2, tracker2)
    /\ t_pnl trade == - t_commission trade
    /\ t_commission trade == (size_a * pa + size_b * pb) * 0.0012
    /\ t_duration_minutes trade == 0
    /\ open_positions pm2 = delete pair_id (open_positions pm)
    /\ closed_trades pm2 = closed_trades pm ++ [trade]
    /\ total_pnl pm2 == total_pnl pm - t_commission trade.
Proof.
  cbn [add_position]. eexists _, _, _. split.
  - unfold close_position. cbn [open_positions]. rewrite lookup_insert_eq.
    reflexivity.
  - cbn [t_pnl t_commission t_duration_minutes trade_of open_positions
         closed_trades total_pnl Models.side_a Models.side_b
         Models.size_a Models.size_b entry_price_a entry_price_b entry_time].
    repeat split.
    + destruct side_a, side_b; unfold _calculate_pnl, commission_rate; ring.
    + unfold commission_rate. ring.
    + rewrite Z.sub_diag. reflexivity.
    + apply delete_insert_eq.
    + destruct side_a, side_b; unfold _calculate_pnl, commission_rate; ring.
Qed.

(** The books agree: the total P&L is the sum of the recorded trades' net
    pnl, and every open position is stored under its own pair_id. *)
Definition consistent (pm : PositionManager.t) : Prop :=
  total_pnl pm == sum_pnl (closed_trades pm)
  /\ (forall key position,
        open_positions pm !! key = Some position -> pair_id position = key).

Lemma consistent_init : consistent init.
Proof.
  split; [reflexivity |]. intros key position H.
  cbn in H. rewrite lookup_empty in H. discriminate.
Qed.

Lemma call_consistent state c :
  consistent (fst state) -> consistent (fst (call state c)).
Proof.
  destruct state as [pm tracker]. cbn [fst]. intros [Hsum Hkeys].
  destruct c as [now id sa sb sda sdb sza szb pa pb hr z | id pa pb z | now id xa xb z reason | |];
    cbn [call fst].
  - split; [exact Hsum |]. cbn [add_position fst open_positions].
    intros key position H.
    destruct (decide (id = key)) as [-> | Hne].
    + rewrite lookup_insert_eq in H. injection H as <-. reflexivity.
    + rewrite lookup_insert_ne in H by exact Hne. eapply Hkeys, H.
  - unfold update_position.
    destruct (open_positions pm !! id) as [position|] eqn:Hopen;
      [| split; assumption].
    destruct ((pa <=? 0) || (pb <=? 0));
      [split; assumption |].
    split; [exact Hsum |]. cbn [open_positions]. intros key position' H.
    destruct (decide (id = key)) as [-> | Hne].
    + rewrite lookup_insert_eq in H. injection H as <-.
      cbn [updated pair_id]. eapply Hkeys, Hopen.
    + rewrite lookup_insert_ne in H by exact Hne. eapply Hkeys, H.
  - unfold close_position.
    destruct (open_positions pm !! id) as [position|] eqn:Hopen;
      [| split; assumption].
    cbn [fst]. split.
    + cbn [total_pnl closed_trades]. rewrite sum_pnl_snoc, Hsum. reflexivity.
    + cbn [open_positions]. intros key position' H.
      apply lookup_delete_Some in H as [_ H]. eapply Hkeys, H.
  - split; [exact Hsum | exact Hkeys].
  - apply consistent_init.
Qed.

(** X3: Whatever the engine calls on the manager (add, update, close, daily
    reset, clearing the history), starting from a state in which the books
    agree, as the initial state is, they still agree afterwards. *)
Theorem calls_consistent state cs :
  consistent (fst state) -> consistent (fst (calls state cs)).
Proof.
  unfold calls. revert state.
  induction cs as [| c cs IH]; intros state H; [exact H |].
  cbn [fold_left]. apply IH, call_consistent, H.
Qed.

Lemma calls_consistent_witness :
  consistent
    (fst (calls (init, [])
            [Add 0 "BTCUSDT_ETHUSDT" "BTCUSDT" "ETHUSDT" LONG SHORT
                 0.01 0.2 60000 3000 1 (-2.1);
             Update "BTCUSDT_ETHUSDT" 60600 3000 (-1);
             Close 90000000 "BTCUSDT_ETHUSDT" 60600 3000 (-0.2)
                   "Quick profit"])).
Proof.
  apply (calls_consistent (init, [])). apply consistent_init.
Defined.

Lemma filter_partition_length (trades : list Trade) :
  Nat.add (length (List.filter (fun x => 0 <? t_pnl x) trades))
          (length (List.filter (fun x => t_pnl x <=? 0) trades))
  = length trades.
Proof.
  induction trades as [| x trades IH]; [reflexivity |]. cbn [List.filter].
  unfold Float.ltb at 1. destruct (Qle_bool (t_pnl x) 0) eqn:H;
    unfold Float.leb at 1; rewrite H; cbn [negb length]; lia.
Qed.

(** X4: The statistics split the trades into winners (pnl > 0) and losers
    (pnl <= 0) with nothing left over, and the win rate is the winners'
    share, between 0 and 1. *)
Theorem get_statistics_partition pm :
  closed_trades pm <> [] ->
  exists winners losers,
    st_winning_trades (get_statistics pm) = Some winners
    /\ st_losing_trades (get_statistics pm) = Some losers
    /\ (winners + losers)%nat = st_total_trades (get_statistics pm)
    /\ st_total_trades (get_statistics pm) = length (closed_trades pm)
    /\ st_win_rate (get_statistics pm)
         * inject_Z (Z.of_nat (st_total_trades (get_statistics pm)))
       == inject_Z (Z.of_nat winners)
    /\ 0 <= st_win_rate (get_statistics pm) <= 1.
Proof.
  intros Hne. unfold get_statistics.
  destruct (closed_trades pm) as [| x trades] eqn:Htrades; [contradiction |].
  set (all := x :: trades) in *.
  cbn [st_winning_trades st_losing_trades st_total_trades st_win_rate].
  eexists _, _. split; [reflexivity |]. split; [reflexivity |].
  pose proof (filter_partition_length all) as Hpart.
  assert (Hn : 0 < inject_Z (Z.of_nat (length all))).
  { change 0 with (inject_Z 0). rewrite <- Zlt_Qlt. unfold all.
    cbn [length]. lia. }
  split; [exact Hpart |]. split; [reflexivity |]. split.
  - field. intros H0. rewrite H0 in Hn. discriminate.
  - split.
    + apply Qle_shift_div_l; [exact Hn |]. rewrite Qmult_0_l.
      change 0 with (inject_Z 0). rewrite <- Zle_Qle. lia.
    + apply Qle_shift_div_r; [exact Hn |]. rewrite Qmult_1_l.
      rewrite <- Zle_Qle. lia.
Qed.

Lemma get_statistics_partition_witness :
  exists winners losers,
    st_winning_trades
      (get_statistics
         (snd (fst (close_position PositionManagerFacts.one_open [] 90000000
                      PositionManagerFacts.btc_eth 66000 3000 0 "Quick profit"))))
      = Some winners
    /\ st_losing_trades
         (get_statistics
            (snd (fst (close_position PositionManagerFacts.one_open []
                         90000000 PositionManagerFacts.btc_eth 66000 3000 0
                         "Quick profit"))))
       = Some losers
    /\ (winners + losers)%nat = 1%nat.
Proof.
  destruct (get_statistics_partition
              (snd (fst (close_position PositionManagerFacts.one_open []
                           90000000 PositionManagerFacts.btc_eth 66000 3000 0
                           "Quick profit"))))
    as (winners & losers & Hw & Hl & Hsum & Htotal & _).
  - vm_compute. discriminate.
  - exists winners, losers. split; [exact Hw |]. split; [exact Hl |].
    rewrite Hsum, Htotal. vm_compute. reflexivity.
Defined.

(** X5: [get_recent_trades(limit)] returns the last [limit] trades (all of
    them when fewer are recorded) for a positive limit; for a limit of 0
    the slice [-0:] is the whole history. *)
Theorem get_recent_trades_slice pm limit :
  ((0 < limit)%Z ->
     get_recent_trades pm limit
       = drop (length (closed_trades pm) - Z.to_nat limit) (closed_trades pm)
     /\ length (get_recent_trades pm limit)
        = Nat.min (Z.to_nat limit) (length (closed_trades pm)))
  /\ get_recent_trades pm 0 = closed_trades pm.
Proof.
  unfold get_recent_trades, slice_from. split.
  - intros Hlimit. destruct (Z.ltb_spec (- limit) 0); [| lia].
    assert (Heq : Z.to_nat (Z.max (- limit + Z.of_nat (length (closed_trades pm))) 0)
                  = (length (closed_trades pm) - Z.to_nat limit)%nat) by lia.
    rewrite Heq. split; [reflexivity |]. rewrite length_drop. lia.
  - change (- 0 <? 0)%Z with false. cbn iota.
    replace (Z.to_nat (Z.min (- 0) (Z.of_nat (length (closed_trades pm)))))
      with 0%nat by lia.
    apply drop_0.
Qed.

End PositionManagerProps.

(** ** Risk agent: further properties *)

Module RiskAgentProps.

Import Models Actions RiskAgent FloatFacts.
Local Open Scope Q_scope.

(** X6: The returned size is never below the 500 floor and never above the
    larger of the floor and 20% of the balance; below a balance of 2500
    the floor overrides the 20% cap and the size is exactly 500. *)
Theorem calculate_position_size_bounds cfg stats pair_id balance c vol :
  500 <= fst (calculate_position_size cfg stats pair_id balance c vol)
  /\ fst (calculate_position_size cfg stats pair_id balance c vol)
     <= Qmax 500 (balance * 0.2)
  /\ (balance <= 2500 ->
      fst (calculate_position_size cfg stats pair_id balance c vol) == 500).
Proof.
  rewrite RiskAgentFacts.calculate_position_size_eq. cbn [fst].
  unfold RiskAgentFacts.capped.
  set (raw := RiskAgentFacts.raw_size _ _ _).
  set (risk := balance * Config.risk_per_trade (Config.trading cfg) * 10).
  set (low := Qmin (Qmin raw risk) (balance * 0.2)).
  assert (Hcap : low <= balance * 0.2) by apply Q.le_min_r.
  pose proof (Q.max_spec low 500.0) as Hfloor.
  pose proof (Q.max_spec 500 (balance * 0.2)) as Hbound.
  repeat split; [lra | lra |]. intros Hsmall. lra.
Qed.

(** X7: The drawdown tracker keeps a high-water mark: it never falls, it is at
    least the equity just seen, the drawdown is 0 at or above the mark and
    never negative, and a second reading of the same equity changes
    nothing. *)
Theorem update_drawdown_high_water ra equity :
  let ra' := _update_drawdown ra equity in
  max_equity ra <= max_equity ra'
  /\ equity <= max_equity ra'
  /\ 0 <= current_drawdown ra'
  /\ (max_equity ra <= equity -> current_drawdown ra' == 0)
  /\ _update_drawdown ra' equity = ra'.
Proof.
  intros ra'. subst ra'. unfold _update_drawdown.
  cbn [max_equity current_drawdown].
  set (m := if max_equity ra <? equity then equity else max_equity ra).
  assert (Hm1 : max_equity ra <= m)
    by (unfold m; case_ltb (max_equity ra) equity; lra).
  assert (Hm2 : equity <= m)
    by (unfold m; case_ltb (max_equity ra) equity; lra).
  assert (Hd : 0 <= (if 0 <? m then (m - equity) / m else 0.0)).
  { case_ltb 0 m; [| discriminate].
    apply Qle_shift_div_l; [assumption | lra]. }
  repeat split; try assumption.
  - intros Hge. case_ltb 0 m; [| reflexivity].
    assert (Heq : m == equity).
    { unfold m in *. case_ltb (max_equity ra) equity; lra. }
    assert (Hzero : m - equity == 0) by lra.
    unfold Qdiv. rewrite Hzero. apply Qmult_0_l.
  - assert (Hnot : (m <? equity) = false) by (apply ltb_ge; exact Hm2).
    rewrite Hnot. reflexivity.
Qed.



(** X9: The recommendation is Pause when the check fails and Approve when it
    passes: the 'Max positions reached' Hold answer cannot occur, because
    a full book already fails the check. *)
Theorem get_recommendation_pause_or_approve cfg ra signal_action positions
    balance daily_pnl :
  r_action (fst (get_recommendation cfg ra signal_action positions balance
                   daily_pnl))
  = if fst (fst (check_risk_limits cfg ra positions daily_pnl balance))
    then APPROVE else PAUSE.
Proof.
  unfold get_recommendation, check_risk_limits.
  destruct (Config.max_concurrent_pairs (Config.trading cfg)
            <=? Z.of_nat (length positions))%Z; [reflexivity |].
  rewrite andb_false_r. cbn [app].
  repeat match goal with
         | |- context [if ?b then [?x] else []] => destruct b
         end;
    reflexivity.
Qed.

(** X10: The exit verdict never alters the position: the trailing-stop block,
    which would record the peak profit on it, lies behind the quick-profit
    exit at 0.2% and is not reachable at its 0.3% activation level. *)
Theorem should_close_position_pure cfg now position pa pb z :
  snd (should_close_position cfg now position pa pb z) = position
  /\ forall pct peak,
       snd (fst (should_close_position cfg now position pa pb z))
       <> TrailingStop pct peak.
Proof.
  unfold should_close_position.
  destruct (Float.truthy (unrealized_pnl position)
            && (unrealized_pnl position <? -100));
    [split; [reflexivity | discriminate] |].
  destruct (Float.total_seconds (now - entry_time position)
            <? MIN_HOLDING_SECONDS);
    [split; [reflexivity | discriminate] |].
  set (pnl_pct := if 0 <? size_a position * entry_price_a position
                  then unrealized_pnl position
                       / (size_a position * entry_price_a position) * 100
                  else 0.0).
  case_leb 0.2 pnl_pct; [split; [reflexivity | discriminate] |].
  destruct ((0.0 <=? pnl_pct)
            && (120 <=? Float.total_seconds (now - entry_time position)));
    [split; [reflexivity | discriminate] |].
  assert (Hact : (ACTIVATION_THRESHOLD <=? pnl_pct) = false).
  { apply leb_gt. unfold ACTIVATION_THRESHOLD. lra. }
  unfold track_max_profit. rewrite Hact.
  destruct (max_profit_pct position); cbn [andb];
    repeat match goal with
           | |- context [if ?b then _ else _] => destruct b
           end;
    split; (reflexivity || discriminate).
Qed.

End RiskAgentProps.

(** ** Order rate limiter: cooldown and bookkeeping *)

Module OrderRateLimiterProps.

Import OrderRateLimiter.
Local Open Scope Z_scope.



(** X12: A call made during a cooldown returns no earlier than the cooldown's
    end and leaves the cooldown flag set; a call made at or after the end
    clears the flag and sleeps for the rate limit only. *)
Theorem acquire_cooldown rl now symbol until :
  in_cooldown rl = true -> cooldown_until rl = Some until ->
  let '(ok, rl', slept) := acquire rl now symbol in
  ok = true
  /\ (now < until ->
      until <= now + slept /\ in_cooldown rl' = true
      /\ cooldown_until rl' = Some until)
  /\ (until <= now ->
      0 <= slept <= wait_time /\ in_cooldown rl' = false
      /\ cooldown_until rl' = None).
Proof.
  intros Hin Huntil. unfold acquire. rewrite Hin, Huntil.
  destruct (Z.ltb_spec now until) as [Hlt | Hge];
    cbn [in_cooldown cooldown_until];
    (split; [reflexivity |]); unfold wait_time;
    destruct (max_orders_per_second <=? _); repeat split; lia.
Qed.

Lemma acquire_cooldown_witness :
  let '(ok, rl', slept) := acquire (report_error init 0) 500000 "BTCUSDT" in
  ok = true /\ slept = 1500000.
Proof.
  pose proof (acquire_cooldown (report_error init 0) 500000 "BTCUSDT" 2000000
                eq_refl eq_refl) as H.
  destruct (acquire (report_error init 0) 500000 "BTCUSDT")
    as [[ok rl'] slept] eqn:Heq.
  destruct H as [Hok _]. split; [exact Hok |].
  vm_compute in Heq. injection Heq as _ _ <-. reflexivity.
Defined.




End OrderRateLimiterProps.

(** ** Strategy manager: voting, confidence and weights *)

Module StrategyManagerProps.

Import Actions StrategyManager FloatFacts.
Local Open Scope Q_scope.

(** *** The tally *)

Definition sum_counts (actions : Tally) : nat :=
  fold_right (fun e acc => (count (snd e) + acc)%nat) 0%nat actions.

Lemma tally_vote_counts actions a wc name :
  sum_counts (tally_vote actions a wc name) = S (sum_counts actions).
Proof.
  induction actions as [| [b d] actions IH]; cbn [tally_vote].
  - reflexivity.
  - destruct (decide (b = a)); cbn [sum_counts fold_right snd count] in *;
      [lia |]. fold (sum_counts (tally_vote actions a wc name)).
    rewrite IH. fold (sum_counts actions). lia.
Qed.

Lemma tally_counts sm signals :
  sum_counts (fst (tally sm signals)) = length signals.
Proof.
  unfold tally.
  assert (H : forall acc tw,
    sum_counts (fst (fold_left
      (fun '(actions, total_weight) '(name, signal) =>
         (tally_vote actions (s_action signal)
            (s_confidence signal * weights sm name) name,
          total_weight + weights sm name)) signals (acc, tw)))
    = (sum_counts acc + length signals)%nat).
  { induction signals as [| [name s] signals IH]; intros acc tw;
      cbn [fold_left length fst]; [lia |].
    rewrite IH, tally_vote_counts. lia. }
  apply (H [] 0).
Qed.

(** *** The sort *)

Lemma Forall_insert_desc (P : Action * ActionVotes -> Prop) x l :
  Forall P (insert_desc x l) <-> P x /\ Forall P l.
Proof.
  induction l as [| y l IH]; cbn [insert_desc].
  - rewrite Forall_cons. reflexivity.
  - destruct (key_ltb (snd y) (snd x)).
    + rewrite Forall_cons. reflexivity.
    + rewrite !Forall_cons, IH. tauto.
Qed.

Lemma Forall_sorted_desc (P : Action * ActionVotes -> Prop) l :
  Forall P (sorted_desc l) <-> Forall P l.
Proof.
  unfold sorted_desc.
  assert (H : forall acc,
    Forall P (fold_left (fun acc x => insert_desc x acc) l acc)
    <-> Forall P acc /\ Forall P l).
  { induction l as [| x l IH]; intros acc; cbn [fold_left].
    - rewrite Forall_nil. tauto.
    - rewrite IH, Forall_insert_desc, Forall_cons. tauto. }
  rewrite H, Forall_nil. tauto.
Qed.

(** No entry has more votes than the head. *)
Definition head_leads (l : Tally) : Prop :=
  match l with
  | [] => True
  | h :: rest => Forall (fun e => (count (snd e) <= count (snd h))%nat) rest
  end.

Lemma key_ltb_counts x y :
  (key_ltb x y = true -> (count x <= count y)%nat)
  /\ (key_ltb x y = false -> (count y <= count x)%nat).
Proof.
  unfold key_ltb.
  destruct (Nat.ltb_spec (count x) (count y)); cbn [orb].
  - split; [lia | discriminate].
  - destruct (Nat.eqb_spec (count x) (count y)); split; intros; lia.
Qed.

Lemma insert_desc_head_leads x l : head_leads l -> head_leads (insert_desc x l).
Proof.
  destruct l as [| y l]; cbn [insert_desc head_leads]; [constructor |].
  intros Hy. destruct (key_ltb (snd y) (snd x)) eqn:Hcmp.
  - apply key_ltb_counts in Hcmp. constructor; [exact Hcmp |].
    eapply Forall_impl; [exact Hy |]. cbn. intros e He. lia.
  - apply key_ltb_counts in Hcmp. apply Forall_insert_desc. split; assumption.
Qed.

Lemma sorted_desc_head_leads l : head_leads (sorted_desc l).
Proof.
  unfold sorted_desc.
  assert (H : forall acc, head_leads acc ->
    head_leads (fold_left (fun acc x => insert_desc x acc) l acc)).
  { induction l as [| x l IH]; intros acc Hacc; cbn [fold_left];
      [exact Hacc |]. apply IH, insert_desc_head_leads, Hacc. }
  apply H. exact I.
Qed.

(** The head of the sorted tally has at least as many votes as any entry. *)
Lemma dominant_leads actions dominant rest :
  sorted_desc actions = dominant :: rest ->
  Forall (fun e => (count (snd e) <= count (snd dominant))%nat) actions
  /\ dominant ∈ actions.
Proof.
  intros Hsorted. pose proof (sorted_desc_head_leads actions) as Hhead.
  rewrite Hsorted in Hhead. cbn [head_leads] in Hhead. split.
  - apply Forall_sorted_desc. rewrite Hsorted. constructor; [lia | exact Hhead].
  - assert (H : Forall (fun e => e ∈ actions) (sorted_desc actions)).
    { apply Forall_sorted_desc, Forall_forall. auto. }
    rewrite Hsorted in H. apply Forall_cons in H as [H _]. exact H.
Qed.

Lemma sum_counts_bound (actions : Tally) (n : nat) :
  Forall (fun e => (count (snd e) <= n)%nat) actions ->
  (sum_counts actions <= n * length actions)%nat.
Proof.
  induction 1 as [| e actions He _ IH]; cbn [sum_counts fold_right length];
    [lia |]. fold (sum_counts actions). lia.
Qed.

(** X14: With three or more signals (the manager has four) the label Weak
    cannot come out: a dominant action with a single vote has at least two
    rivals, which is labelled Conflicting. Every aggregate that is not
    Hold is therefore labelled Strong or Moderate. *)
Theorem aggregate_signals_never_weak sm signals pair_id :
  (3 <= length signals)%nat ->
  consensus (_aggregate_signals sm signals pair_id) <> WEAK
  /\ (action (_aggregate_signals sm signals pair_id) <> HOLD ->
      consensus (_aggregate_signals sm signals pair_id) = STRONG
      \/ consensus (_aggregate_signals sm signals pair_id) = MODERATE).
Proof.
  intros Hlen. pose proof (tally_counts sm signals) as Hsum.
  unfold _aggregate_signals.
  destruct (tally sm signals) as [actions tw]. cbn [fst] in Hsum.
  destruct (sorted_desc actions) as [| [dominant details] rest] eqn:Hsorted.
  { cbn. split; [discriminate | congruence]. }
  destruct (dominant_leads _ _ _ Hsorted) as [Hlead _]. cbn [snd] in Hlead.
  apply sum_counts_bound in Hlead.
  destruct (count details =? n_strategies)%nat;
    [cbn; split; [discriminate | auto] |].
  destruct (Nat.leb_spec n_strategies (2 * count details));
    [cbn; split; [discriminate | auto] |].
  destruct (0.7 <? total_confidence details);
    [cbn; split; [discriminate | auto] |].
  destruct (Nat.ltb_spec 2 (length actions));
    [cbn; split; [discriminate | congruence] |].
  exfalso. unfold n_strategies in *. nia.
Qed.

Lemma aggregate_signals_never_weak_witness :
  consensus (_aggregate_signals init StrategyManagerFacts.long_vs_short
               "BTCUSDT_ETHUSDT") <> WEAK.
Proof.
  apply (aggregate_signals_never_weak init StrategyManagerFacts.long_vs_short
           "BTCUSDT_ETHUSDT").
  vm_compute. lia.
Defined.

(** *** Confidence *)

Definition within_weight (tw : Q) (e : Action * ActionVotes) : Prop :=
  0 <= total_confidence (snd e) <= tw.

Lemma tally_vote_within actions a c w name tw :
  0 <= c <= 1 -> 0 <= w -> 0 <= tw ->
  Forall (within_weight tw) actions ->
  Forall (within_weight (tw + w)) (tally_vote actions a (c * w) name).
Proof.
  intros Hc Hw Htw. assert (Hcw : 0 <= c * w <= w) by nra.
  induction 1 as [| [b d] actions Hd Hrest IH]; cbn [tally_vote].
  - constructor; [unfold within_weight; cbn; lra | constructor].
  - unfold within_weight in Hd. cbn [snd] in Hd.
    destruct (decide (b = a)); constructor.
    + unfold within_weight. cbn. lra.
    + eapply Forall_impl; [exact Hrest |]. unfold within_weight.
      intros other Hother. lra.
    + unfold within_weight. cbn. lra.
    + exact IH.
Qed.

Lemma tally_within sm signals :
  Forall (fun '(_, s) => 0 <= s_confidence s <= 1) signals ->
  (forall name, 0 <= weights sm name) ->
  0 <= snd (tally sm signals)
  /\ Forall (within_weight (snd (tally sm signals))) (fst (tally sm signals)).
Proof.
  intros Hsignals Hweights. unfold tally.
  assert (H : forall acc tw,
    0 <= tw -> Forall (within_weight tw) acc ->
    let r := fold_left
      (fun '(actions, total_weight) '(name, signal) =>
         (tally_vote actions (s_action signal)
            (s_confidence signal * weights sm name) name,
          total_weight + weights sm name)) signals (acc, tw) in
    0 <= snd r /\ Forall (within_weight (snd r)) (fst r)).
  { induction Hsignals as [| [name s] signals Hs _ IH]; intros acc tw Htw Hacc;
      cbn [fold_left]; [split; assumption |].
    apply IH.
    - pose proof (Hweights name). lra.
    - apply tally_vote_within; auto. }
  apply H; [lra | constructor].
Qed.

(** X15: With signal confidences between 0 and 1 and weights that are not
    negative, the aggregated confidence lies between 0 and 1, with or
    without the breakout boost. *)
Theorem aggregated_confidence_bounds sm signals breakout pair_id :
  Forall (fun '(_, s) => 0 <= s_confidence s <= 1) signals ->
  (forall name, 0 <= weights sm name) ->
  0 <= confidence (generate_aggregated_signal sm signals breakout pair_id) <= 1.
Proof.
  intros Hsignals Hweights.
  destruct (tally_within sm signals Hsignals Hweights) as [Htw Hall].
  assert (Hagg : 0 <= confidence (_aggregate_signals sm signals pair_id) <= 1).
  { unfold _aggregate_signals.
    destruct (tally sm signals) as [actions tw]. cbn [fst snd] in *.
    destruct (sorted_desc actions) as [| [dominant details] rest] eqn:Hsorted;
      [cbn; lra |].
    destruct (dominant_leads _ _ _ Hsorted) as [_ Hin].
    rewrite Forall_forall in Hall. specialize (Hall _ Hin).
    unfold within_weight in Hall. cbn [snd] in Hall.
    assert (Havg : 0 <= (if 0 <? tw then total_confidence details / tw
                         else 0.0) <= 1).
    { case_ltb 0 tw; [| lra]. split.
      - apply Qle_shift_div_l; [assumption | lra].
      - apply Qle_shift_div_r; [assumption | lra]. }
    repeat match goal with
           | |- context [if ?b then (_, _) else _] => destruct b
           end; cbn [confidence]; exact Havg. }
  unfold generate_aggregated_signal.
  destruct (breakout && _); [| exact Hagg]. cbn [confidence].
  pose proof (Q.min_spec 1.0
                (confidence (_aggregate_signals sm signals pair_id) * 1.2)).
  lra.
Qed.

Definition sample_signals : Signals :=
  four {| s_action := LONG_SPREAD; s_confidence := 0.9 |}
       {| s_action := LONG_SPREAD; s_confidence := 0.8 |}
       {| s_action := HOLD; s_confidence := 0.5 |}
       {| s_action := CLOSE; s_confidence := 0.95 |}.

Lemma aggregated_confidence_bounds_witness :
  0 <= confidence (generate_aggregated_signal init sample_signals true
                     "BTCUSDT_ETHUSDT") <= 1.
Proof.
  apply (aggregated_confidence_bounds init sample_signals true
           "BTCUSDT_ETHUSDT").
  - repeat constructor; vm_compute; discriminate.
  - intros []; vm_compute; discriminate.
Defined.

(** X16: When all four strategies signal the same action, that action is
    returned with label Strong, and the confidence is the weighted mean of
    the four confidences. *)
Theorem aggregate_signals_unanimous sm a c1 c2 c3 c4 pair_id :
  let agg :=
    _aggregate_signals sm
      (four {| s_action := a; s_confidence := c1 |}
            {| s_action := a; s_confidence := c2 |}
            {| s_action := a; s_confidence := c3 |}
            {| s_action := a; s_confidence := c4 |}) pair_id in
  action agg = a /\ consensus agg = STRONG
  /\ (0 < total_weight (weights sm) ->
      confidence agg * total_weight (weights sm)
      == c1 * weights sm engle_granger + c2 * weights sm orderbook_imbalance
         + c3 * weights sm correlation_rsi + c4 * weights sm mean_reversion).
Proof.
  intros agg.
  assert (Heq : agg =
    {| action := a;
       confidence :=
         if 0 <? 0 + weights sm engle_granger + weights sm orderbook_imbalance
                 + weights sm correlation_rsi + weights sm mean_reversion
         then (0.0 + c1 * weights sm engle_granger
               + c2 * weights sm orderbook_imbalance
               + c3 * weights sm correlation_rsi
               + c4 * weights sm mean_reversion)
              / (0 + weights sm engle_granger + weights sm orderbook_imbalance
                 + weights sm correlation_rsi + weights sm mean_reversion)
         else 0.0;
       strategy_signals :=
         four {| s_action := a; s_confidence := c1 |}
              {| s_action := a; s_confidence := c2 |}
              {| s_action := a; s_confidence := c3 |}
              {| s_action := a; s_confidence := c4 |};
       consensus := STRONG;
       votes := [(a, 4%nat)];
       agreeing_strategies := names |})
    by (subst agg; destruct a; reflexivity).
  rewrite Heq. cbn [action consensus confidence].
  split; [reflexivity | split; [reflexivity |]].
  unfold total_weight, names. cbn [fold_left]. intros Hpos.
  apply ltb_lt in Hpos. rewrite Hpos. apply ltb_lt in Hpos. field.
  intros Hzero. lra.
Qed.

(** *** Weights *)






(** A twelfth winning Engle-Granger trade after eleven wins raises its
    weight to 0.7 before normalisation, which gives 0.7 / 1.3. *)
Example update_strategy_performance_example :
  fst (update_strategy_performance
         (initial_weights,
          fun name =>
            if decide (name = engle_granger)
            then {| p_trades := 11; p_wins := 11; p_pnl := 55 |}
            else initial_performance name)
         engle_granger 5) engle_granger
  == 0.7 / 1.3.
Proof. vm_compute. reflexivity. Qed.

End StrategyManagerProps.

(** ** Engle-Granger strategy: confidence and data cleaning *)

Module EngleGrangerProps.

Import Actions EngleGranger FloatFacts.
Local Open Scope Q_scope.

Lemma raw_confidence_bounds z :
  0.6 <= Qmin 0.95 (0.6 + Qabs z / 10) <= 0.95.
Proof.
  pose proof (Qabs_nonneg z) as Hz.
  pose proof (Q.min_spec 0.95 (0.6 + Qabs z / 10)) as Hmin.
  assert (Hdiv : 0 <= Qabs z / 10)
    by (apply Qle_shift_div_l; [reflexivity | lra]).
  lra.
Qed.

Lemma cointegration_quality_bounds p :
  p < 0.20 ->
  0.5 < (if p <? 0.10 then 1.0 else Qmax 0.5 (1.0 - (p - 0.10) * 5)) <= 1.
Proof.
  intros Hp. case_ltb p 0.10; [lra |].
  pose proof (Q.max_spec 0.5 (1.0 - (p - 0.10) * 5)). lra.
Qed.

(** X18: Every signal of the strategy has a confidence between 0 and 0.95, and
    an entry signal (long or short spread) has a confidence above 0.3, so
    that it passes the confidence filter of the OR mode. *)
Theorem generate_signal_confidence num p prices_a prices_b current_position :
  let signal := generate_signal num p prices_a prices_b current_position in
  0 <= confidence signal <= 0.95
  /\ (is_entry (action signal) = true ->
      0.3 < confidence signal
      /\ StrategyManager.actionable
           {| StrategyManager.s_action := action signal;
              StrategyManager.s_confidence := confidence signal |} = true).
Proof.
  intros signal. subst signal. unfold generate_signal.
  destruct ((length (cleaned prices_a) <? min_data_points p)%nat
            || (length (cleaned prices_b) <? min_data_points p)%nat);
    [cbn; split; [lra | discriminate] |].
  destruct (engle_granger_test num _ _) as [[hedge pvalue] residuals].
  destruct (calculate_spread_zscore num _ _ hedge) as [z spread].
  destruct (holding current_position).
  { destruct (zscore_stoploss p <? Qabs z);
      [cbn; split; [lra | discriminate] |].
    destruct (Qabs z <? zscore_exit p); cbn; (split; [lra | discriminate]). }
  case_ltb pvalue 0.20; cbn [negb]; [| cbn; split; [lra | discriminate]].
  pose proof (raw_confidence_bounds z) as Hraw.
  pose proof (cointegration_quality_bounds pvalue Hcmp) as Hquality.
  set (raw := Qmin 0.95 (0.6 + Qabs z / 10)) in *.
  set (quality := if pvalue <? 0.10 then 1.0
                  else Qmax 0.5 (1.0 - (pvalue - 0.10) * 5)) in *.
  assert (Hconf : 0.3 < raw * quality <= 0.95) by nra.
  assert (Hact : forall a, a <> HOLD ->
    StrategyManager.actionable
      {| StrategyManager.s_action := a;
         StrategyManager.s_confidence := raw * quality |} = true).
  { intros a Ha. unfold StrategyManager.actionable. cbn.
    rewrite bool_decide_eq_false_2 by exact Ha. apply ltb_lt. lra. }
  destruct (zscore_entry p <? z);
    [cbn [action confidence]; split; [lra | intros _; split; [lra |]];
     apply Hact; discriminate |].
  destruct (z <? - zscore_entry p);
    [cbn [action confidence]; split; [lra | intros _; split; [lra |]];
     apply Hact; discriminate |].
  cbn. split; [lra | discriminate].
Qed.

(** *** Cleaning *)

Lemma drop_duplicated_length s :
  (length (drop_duplicated_keep_last s) <= length s)%nat.
Proof.
  induction s as [| [i v] s IH]; cbn [drop_duplicated_keep_last length];
    [lia |].
  destruct (existsb _ s); cbn [length]; lia.
Qed.

Lemma insert_by_index_length x s :
  length (insert_by_index x s) = S (length s).
Proof.
  induction s as [| y s IH]; cbn [insert_by_index length]; [reflexivity |].
  destruct (fst x <? fst y)%Z; cbn [length]; lia.
Qed.

Lemma sort_index_length s : length (sort_index s) = length s.
Proof.
  unfold sort_index.
  assert (H : forall acc,
    length (fold_left (fun acc x => insert_by_index x acc) s acc)
    = (length acc + length s)%nat).
  { induction s as [| x s IH]; intros acc; cbn [fold_left length]; [lia |].
    rewrite IH, insert_by_index_length. lia. }
  apply (H []).
Qed.

(** X19: A series with fewer rows than the minimum (30 by default; a single
    point, say) gets Hold with confidence 0, whatever the position and
    without the statistics being consulted. *)
Theorem generate_signal_insufficient num p prices_a prices_b current_position :
  (length prices_a < min_data_points p)%nat
  \/ (length prices_b < min_data_points p)%nat ->
  forall num',
    generate_signal num p prices_a prices_b current_position
    = generate_signal num' p prices_a prices_b current_position
    /\ action (generate_signal num p prices_a prices_b current_position) = HOLD
    /\ confidence (generate_signal num p prices_a prices_b current_position)
       = 0.0.
Proof.
  intros Hshort num'.
  assert (Htest : (length (cleaned prices_a) <? min_data_points p)%nat
                  || (length (cleaned prices_b) <? min_data_points p)%nat
                  = true).
  { apply orb_true_iff. unfold cleaned. rewrite !sort_index_length.
    pose proof (drop_duplicated_length prices_a).
    pose proof (drop_duplicated_length prices_b).
    destruct Hshort; [left | right]; apply Nat.ltb_lt; lia. }
  unfold generate_signal. rewrite Htest. repeat split.
Qed.

Lemma generate_signal_insufficient_witness :
  action (generate_signal EngleGrangerFacts.unrelated default_params
            [(0%Z, 100)] (EngleGrangerFacts.flat 98) None) = HOLD.
Proof.
  apply (generate_signal_insufficient EngleGrangerFacts.unrelated
           default_params [(0%Z, 100)] (EngleGrangerFacts.flat 98) None).
  - left. cbn. lia.
  - exact EngleGrangerFacts.unrelated.
Defined.

Lemma index_duplicated i (rest : Series) :
  existsb (fun '(j, _) => (i =? j)%Z) rest = true <-> i ∈ (fst <$> rest).
Proof.
  induction rest as [| [j w] rest IH]; cbn [existsb fmap list_fmap].
  - split; [discriminate | intros H; inversion H].
  - rewrite orb_true_iff, IH, elem_of_cons, Z.eqb_eq. cbn. reflexivity.
Qed.

(** The row of an index that is not repeated later in the series. *)
Definition last_row (s : Series) (i : Z) (v : Q) : Prop :=
  exists before after, s = before ++ (i, v) :: after /\ i ∉ (fst <$> after).

Lemma drop_duplicated_spec s i v :
  (i, v) ∈ drop_duplicated_keep_last s <-> last_row s i v.
Proof.
  unfold last_row.
  induction s as [| [j w] s IH]; cbn [drop_duplicated_keep_last].
  - split; [intros H; inversion H |].
    intros (before & after & H & _). destruct before; discriminate.
  - destruct (existsb _ s) eqn:Hdup.
    + apply index_duplicated in Hdup. rewrite IH. split.
      * intros (before & after & -> & Hlast).
        exists ((j, w) :: before), after. split; [reflexivity | exact Hlast].
      * intros (before & after & Heq & Hlast).
        destruct before as [| b before]; cbn in Heq; injection Heq as ? ?.
        -- subst. contradiction.
        -- subst. exists before, after. split; [reflexivity | exact Hlast].
    + apply not_true_iff_false in Hdup. rewrite index_duplicated in Hdup.
      rewrite elem_of_cons, IH. split.
      * intros [Heq | (before & after & -> & Hlast)].
        -- injection Heq as -> ->. exists [], s. split; [reflexivity | exact Hdup].
        -- exists ((j, w) :: before), after.
           split; [reflexivity | exact Hlast].
      * intros (before & after & Heq & Hlast).
        destruct before as [| b before]; cbn in Heq; injection Heq as ? ?.
        -- subst. left. reflexivity.
        -- subst. right. exists before, after.
           split; [reflexivity | exact Hlast].
Qed.

Lemma drop_duplicated_NoDup s :
  NoDup (fst <$> drop_duplicated_keep_last s).
Proof.
  induction s as [| [j w] s IH]; cbn [drop_duplicated_keep_last];
    [constructor |].
  destruct (existsb _ s) eqn:Hdup; [exact IH |].
  apply not_true_iff_false in Hdup. rewrite index_duplicated in Hdup.
  cbn. constructor; [| exact IH].
  intros Hin. apply list_elem_of_fmap in Hin as ([j' v] & Hj & Hin).
  cbn in Hj. subst j'. apply drop_duplicated_spec in Hin.
  destruct Hin as (before & after & -> & _). apply Hdup.
  rewrite fmap_app, elem_of_app. right. cbn. left.
Qed.

Definition index_lt (x y : Z * Q) : Prop := (fst x < fst y)%Z.

Lemma insert_by_index_spec x s :
  StronglySorted index_lt s -> fst x ∉ (fst <$> s) ->
  StronglySorted index_lt (insert_by_index x s)
  /\ forall y, y ∈ insert_by_index x s <-> y = x \/ y ∈ s.
Proof.
  induction s as [| y s IH]; intros Hsorted Hfresh; cbn [insert_by_index].
  - split; [repeat constructor |]. intros z. rewrite elem_of_cons. reflexivity.
  - apply StronglySorted_inv in Hsorted as [Hs Hy].
    cbn in Hfresh. rewrite not_elem_of_cons in Hfresh.
    destruct Hfresh as [Hne Hfresh].
    destruct (Z.ltb_spec (fst x) (fst y)) as [Hlt | Hge].
    + split.
      * constructor; [constructor; assumption |].
        constructor; [exact Hlt |].
        eapply Forall_impl; [exact Hy |]. unfold index_lt. intros z Hz. lia.
      * intros z. rewrite !elem_of_cons. reflexivity.
    + destruct (IH Hs Hfresh) as [Hsorted' Hmem]. split.
      * constructor; [exact Hsorted' |]. apply Forall_forall.
        intros z Hz. apply Hmem in Hz as [-> | Hz].
        -- unfold index_lt. lia.
        -- rewrite Forall_forall in Hy. apply Hy, Hz.
      * intros z. rewrite !elem_of_cons, Hmem. tauto.
Qed.

Lemma sort_index_spec s :
  NoDup (fst <$> s) ->
  StronglySorted index_lt (sort_index s)
  /\ forall y, y ∈ sort_index s <-> y ∈ s.
Proof.
  unfold sort_index.
  assert (H : forall acc,
    StronglySorted index_lt acc -> NoDup (fst <$> s) ->
    (forall y, y ∈ s -> fst y ∉ (fst <$> acc)) ->
    StronglySorted index_lt
      (fold_left (fun acc x => insert_by_index x acc) s acc)
    /\ forall y,
         y ∈ fold_left (fun acc x => insert_by_index x acc) s acc
         <-> y ∈ acc \/ y ∈ s).
  { induction s as [| x s IH]; intros acc Hacc Hnodup Hdisj; cbn [fold_left].
    - split; [exact Hacc |]. intros y. rewrite elem_of_nil. tauto.
    - cbn in Hnodup. apply NoDup_cons in Hnodup as [Hx Hnodup].
      destruct (insert_by_index_spec x acc Hacc) as [Hsorted Hmem].
      { apply Hdisj. left. }
      destruct (IH (insert_by_index x acc) Hsorted Hnodup) as [Hs Hm].
      { intros y Hy Hin. apply list_elem_of_fmap in Hin as (z & Hz & Hin).
        apply Hmem in Hin as [-> | Hin].
        - apply Hx. rewrite <- Hz. apply list_elem_of_fmap_2, Hy.
        - apply (Hdisj y); [right; exact Hy |].
          rewrite Hz. apply list_elem_of_fmap_2, Hin. }
      split; [exact Hs |]. intros y.
      rewrite Hm, Hmem, !elem_of_cons. tauto. }
  intros Hnodup. destruct (H [] (SSorted_nil _) Hnodup) as [Hs Hm].
  { intros y _ Hin. inversion Hin. }
  split; [exact Hs |]. intros y. rewrite Hm, elem_of_nil. tauto.
Qed.

(** X20: The cleaned series is in strictly ascending order of its index, and
    its rows are exactly the rows of the input whose index does not occur
    again later: of rows with the same index the last one is kept. *)
Theorem cleaned_spec s :
  StronglySorted index_lt (cleaned s)
  /\ forall i v, (i, v) ∈ cleaned s <-> last_row s i v.
Proof.
  unfold cleaned.
  destruct (sort_index_spec _ (drop_duplicated_NoDup s)) as [Hsorted Hmem].
  split; [exact Hsorted |]. intros i v.
  rewrite Hmem. apply drop_duplicated_spec.
Qed.

End EngleGrangerProps.

(** ** Orchestrator: approved decisions and the OR mode *)

Module OrchestratorProps.

Import Models Actions Orchestrator FloatFacts.
Local Open Scope Q_scope.

(** With sentiment fixed at 0 the sentiment vote repeats the strategy
    vote with confidence 0.9, so the combined decision keeps the action
    and averages the two confidences. *)
Lemma combine_pure_quant now vote position quant_analysis :
  let decision :=
    _combine_agent_decisions now vote 0.0 position quant_analysis in
  d_action decision = v_action vote
  /\ d_confidence decision = (0.0 + v_confidence vote + 0.9) / inject_Z 2
  /\ d_position_size_a decision = None
  /\ d_position_size_b decision = None
  /\ d_hedge_ratio decision = None.
Proof.
  intros decision. subst decision. unfold _combine_agent_decisions.
  assert (Hsent : _sentiment_to_action 0.0 (v_action vote) position
                  = {| v_action := v_action vote; v_confidence := 0.9;
                       v_reason := PureQuantSignal |}) by reflexivity.
  rewrite Hsent. cbn [fold_left cast v_action v_confidence].
  destruct (decide (v_action vote = v_action vote)); [| contradiction].
  cbn. repeat split.
Qed.

(** A second check with the same arguments, on the agent as the first
    check left it, gives the same verdict and leaves the agent as it is. *)
Lemma check_risk_limits_again cfg ra positions daily_pnl balance :
  let '(is_safe, violations, ra1) :=
    RiskAgent.check_risk_limits cfg ra positions daily_pnl balance in
  RiskAgent.check_risk_limits cfg ra1 positions daily_pnl balance
  = (is_safe, violations, ra1).
Proof.
  unfold RiskAgent.check_risk_limits.
  destruct (RiskAgentProps.update_drawdown_high_water ra balance)
    as (_ & _ & _ & _ & Hidem).
  rewrite Hidem. reflexivity.
Qed.

(** X21: When the pre-trade check passes, the live [make_decision] keeps the
    aggregated action and reports the mean of the aggregated confidence
    and 0.9; an entry carries the same size for both legs, sized at that
    mean confidence and at least 500, and the hedge ratio of the
    cointegration analysis; an entry without cointegration data ends as
    Hold with confidence 0. *)
Theorem make_decision_approved cfg ra stats now symbol_a symbol_b
    quant_analysis strategy_signal positions balance daily_pnl :
  fst (fst (RiskAgent.check_risk_limits cfg ra positions daily_pnl balance))
    = true ->
  let decision :=
    fst (make_decision cfg ra stats now symbol_a symbol_b quant_analysis
           strategy_signal positions balance daily_pnl) in
  let a := StrategyManager.action strategy_signal in
  let c := (StrategyManager.confidence strategy_signal + 0.9) / 2 in
  (is_entry a = false ->
   d_action decision = a /\ d_confidence decision == c
   /\ d_position_size_a decision = None)
  /\ (is_entry a = true -> qa_cointegration quant_analysis = None ->
      d_action decision = HOLD /\ d_confidence decision = 0.0)
  /\ (is_entry a = true ->
      forall co, qa_cointegration quant_analysis = Some co ->
      d_action decision = a /\ d_confidence decision == c
      /\ d_hedge_ratio decision = Some (c_hedge_ratio co)
      /\ exists size,
           d_position_size_a decision = Some size
           /\ d_position_size_b decision = Some size
           /\ 500 <= size
           /\ size = fst (RiskAgent.calculate_position_size cfg stats
                            (symbol_a ++ "_" ++ symbol_b) balance
                            (d_confidence decision) None)).
Proof.
  intros Hsafe decision a c. subst decision a c. unfold make_decision.
  match goal with
  | |- context [_combine_agent_decisions ?n ?v 0.0 ?p ?q] =>
    destruct (combine_pure_quant n v p q) as (Ha & Hc & Hsa & Hsb & Hh);
    set (combined := _combine_agent_decisions n v 0.0 p q) in *
  end.
  cbn [v_action v_confidence] in Ha, Hc.
  pose proof (RiskAgentProps.get_recommendation_pause_or_approve cfg ra
                (d_action combined) positions balance daily_pnl) as Hrec.
  rewrite Hsafe in Hrec.
  destruct (RiskAgent.get_recommendation cfg ra (d_action combined) positions
              balance daily_pnl) as [rec ra'].
  cbn [fst] in Hrec. rewrite Hrec. cbn [bool_decide negb].
  rewrite bool_decide_eq_true_2 by reflexivity. cbn [negb].
  rewrite Ha.
  assert (Hmean : d_confidence combined
                  == (StrategyManager.confidence strategy_signal + 0.9) / 2).
  { rewrite Hc. unfold Qdiv. change (/ inject_Z 2) with (/ 2). ring. }
  split; [| split].
  - intros Hentry. rewrite Hentry. cbn [fst with_symbols d_action d_confidence
                                         d_position_size_a].
    repeat split; assumption.
  - intros Hentry Hnone. rewrite Hentry, Hnone. split; reflexivity.
  - intros Hentry co Hco. rewrite Hentry, Hco.
    cbn [fst snd with_symbols with_sizes d_action d_confidence
         d_position_size_a d_position_size_b d_hedge_ratio
         RiskAgent.calculate_position_size].
    repeat split; try assumption. eexists. repeat split.
    apply (RiskAgentProps.calculate_position_size_bounds cfg stats
             (symbol_a ++ "_" ++ symbol_b)%string balance
             (d_confidence combined) None).
Qed.

Definition entry_analysis : QuantAnalysis :=
  {| qa_cointegration :=
       Some {| c_pvalue := 0.03; c_hedge_ratio := 1.8;
               c_half_life := Some 12; c_is_cointegrated := true |};
     qa_zscore := Some (-2.4);
     qa_mean_reversion_score := 0.6 |}.

Definition long_majority : StrategyManager.AggregatedSignal :=
  StrategyManager._aggregate_signals StrategyManager.init
    (StrategyManager.four
       {| StrategyManager.s_action := LONG_SPREAD;
          StrategyManager.s_confidence := 0.9 |}
       {| StrategyManager.s_action := LONG_SPREAD;
          StrategyManager.s_confidence := 0.8 |}
       {| StrategyManager.s_action := LONG_SPREAD;
          StrategyManager.s_confidence := 0.65 |}
       {| StrategyManager.s_action := HOLD;
          StrategyManager.s_confidence := 0.5 |})
    "BTCUSDT_ETHUSDT".

Lemma make_decision_approved_witness :
  d_action (fst (make_decision Config.default RiskAgent.init None 0
                   "BTCUSDT" "ETHUSDT" entry_analysis long_majority [] 100000
                   0)) = LONG_SPREAD.
Proof.
  destruct (make_decision_approved Config.default RiskAgent.init None 0
              "BTCUSDT" "ETHUSDT" entry_analysis long_majority [] 100000 0
              eq_refl) as (_ & _ & Hentry).
  destruct (Hentry eq_refl _ eq_refl) as (Haction & _). exact Haction.
Defined.

Lemma get_recommendation_agent cfg ra a positions balance daily_pnl :
  snd (RiskAgent.get_recommendation cfg ra a positions balance daily_pnl)
  = snd (RiskAgent.check_risk_limits cfg ra positions daily_pnl balance).
Proof.
  unfold RiskAgent.get_recommendation.
  destruct (RiskAgent.check_risk_limits cfg ra positions daily_pnl balance)
    as [[is_safe violations] ra1].
  destruct is_safe; cbn [negb]; [| reflexivity].
  destruct (is_entry a && _); reflexivity.
Qed.

(** What a decision of the OR mode carries for its signal. *)
Definition carries (co : Cointegration) (d : StrategyDecision) : Prop :=
  if is_entry (sd_action d) then
    sd_hedge_ratio d = Some (c_hedge_ratio co)
    /\ exists size,
         sd_position_size_a d = Some size /\ sd_position_size_b d = Some size
         /\ 500 <= size
  else sd_position_size_a d = None /\ sd_position_size_b d = None
       /\ sd_hedge_ratio d = None.

Definition summary (d : StrategyDecision)
    : StrategyManager.StrategyName * Action * Q :=
  (sd_strategy d, sd_action d, sd_confidence d).

Definition signal_summary (x : StrategyManager.StrategyName * StrategyManager.Signal)
    : StrategyManager.StrategyName * Action * Q :=
  (fst x, StrategyManager.s_action (snd x), StrategyManager.s_confidence (snd x)).

(** X22: In the OR mode a failed pre-trade check silences every strategy; when
    it passes, every signal becomes one decision, in order, with the
    signal's action and confidence, entries carrying equal leg sizes of at
    least 500 and the hedge ratio; but if the quant analysis is the empty
    one (no z-score or no cointegration entry), building the first
    decision raises and the answer is the empty list. *)
Theorem make_all_strategy_decisions_spec cfg ra stats now symbol_a symbol_b
    quant_analysis signals positions balance daily_pnl :
  let decisions :=
    fst (make_all_strategy_decisions cfg ra stats now symbol_a symbol_b
           quant_analysis signals positions balance daily_pnl) in
  let is_safe :=
    fst (fst (RiskAgent.check_risk_limits cfg ra positions daily_pnl balance)) in
  (is_safe = false -> decisions = [])
  /\ (qa_zscore quant_analysis = None
      \/ qa_cointegration quant_analysis = None -> decisions = [])
  /\ (is_safe = true ->
      forall z co,
        qa_zscore quant_analysis = Some z ->
        qa_cointegration quant_analysis = Some co ->
        summary <$> decisions = signal_summary <$> signals
        /\ Forall (carries co) decisions).
Proof.
  intros decisions is_safe. subst decisions is_safe.
  unfold make_all_strategy_decisions.
  pose proof (check_risk_limits_again cfg ra positions daily_pnl balance)
    as Hagain.
  destruct (RiskAgent.check_risk_limits cfg ra positions daily_pnl balance)
    as [[is_safe violations] ra1].
  cbn [fst].
  destruct is_safe; cbn [negb];
    [| split; [reflexivity | split; [reflexivity | discriminate]]].
  set (pair_id := (symbol_a ++ "_" ++ symbol_b)%string).
  set (step := fun '(acc, ra) '(strategy_name, signal) => _).
  assert (Hrec : forall a,
    RiskAgent.get_recommendation cfg ra1 a positions balance daily_pnl
    = (fst (RiskAgent.get_recommendation cfg ra1 a positions balance
              daily_pnl), ra1)
    /\ RiskAgent.r_action
         (fst (RiskAgent.get_recommendation cfg ra1 a positions balance
                 daily_pnl)) = APPROVE).
  { intros a. split.
    - rewrite (surjective_pairing (RiskAgent.get_recommendation _ _ _ _ _ _))
        at 1.
      rewrite get_recommendation_agent, Hagain. reflexivity.
    - rewrite RiskAgentProps.get_recommendation_pause_or_approve, Hagain.
      reflexivity. }
  split; [discriminate |]. split.
  - intros Hmissing.
    assert (Hstep : forall acc x,
      acc = None \/ acc = Some [] ->
      exists acc', step (acc, ra1) x = (acc', ra1)
                   /\ (acc' = None \/ acc' = Some [])).
    { intros acc [name signal] [-> | ->]; unfold step; cbn beta iota;
        [exists None; split; [reflexivity | left; reflexivity] |].
      destruct (Hrec (StrategyManager.s_action signal)) as [Heq Happrove].
      rewrite Heq, Happrove.
      rewrite bool_decide_eq_true_2 by reflexivity. cbn [negb].
      unfold strategy_decision.
      exists None. split; [| left; reflexivity].
      destruct Hmissing as [-> | ->]; [reflexivity |].
      destruct (qa_zscore quant_analysis); reflexivity. }
    assert (Hfold : forall acc,
      acc = None \/ acc = Some [] ->
      (fold_left step signals (acc, ra1)).1 = None
      \/ (fold_left step signals (acc, ra1)).1 = Some []).
    { induction signals as [| x signals IH]; intros acc Hacc;
        cbn [fold_left fst]; [exact Hacc |].
      destruct (Hstep acc x Hacc) as (acc' & -> & Hacc').
      apply IH, Hacc'. }
    specialize (Hfold (Some []) (or_intror eq_refl)).
    destruct (fold_left step signals (Some [], ra1)) as [result ra2].
    cbn [fst] in *. destruct Hfold as [-> | ->]; reflexivity.
  - intros _ z co Hz Hco.
    assert (Hfold : forall ds,
      Forall (carries co) ds ->
      exists ds',
        fold_left step signals (Some ds, ra1) = (Some (ds ++ ds'), ra1)
        /\ summary <$> ds' = signal_summary <$> signals
        /\ Forall (carries co) ds').
    { induction signals as [| [name signal] signals IH]; intros ds Hds;
        cbn [fold_left].
      - exists []. rewrite app_nil_r. repeat split; constructor.
      - destruct (Hrec (StrategyManager.s_action signal)) as [Heq Happrove].
        unfold step at 2. cbn beta iota. rewrite Heq, Happrove.
        rewrite bool_decide_eq_true_2 by reflexivity. cbn [negb].
        unfold strategy_decision. rewrite Hz, Hco.
        match goal with
        | |- context [Some (ds ++ [?d])] => set (decision := d)
        end.
        assert (Hcarries : carries co decision).
        { unfold carries, decision. cbn [sd_action sd_hedge_ratio
            sd_position_size_a sd_position_size_b].
          destruct (is_entry (StrategyManager.s_action signal)); cbn.
          - split; [reflexivity |]. eexists. repeat split.
            apply (RiskAgentProps.calculate_position_size_bounds cfg stats
                     pair_id balance (StrategyManager.s_confidence signal)
                     None).
          - repeat split. }
        destruct (IH (ds ++ [decision])) as (ds' & Hfold & Hsum & Hall).
        { apply Forall_app. split; [exact Hds | repeat constructor].
          exact Hcarries. }
        exists (decision :: ds'). rewrite Hfold, <- app_assoc.
        repeat split.
        + cbn [fmap list_fmap]. f_equal. exact Hsum.
        + constructor; assumption. }
    destruct (Hfold [] (Forall_nil_2 _)) as (ds' & Heq & Hsum & Hall).
    rewrite Heq. cbn. split; assumption.
Qed.

(** One actionable Engle-Granger signal: a decision with the complete
    analysis, none with the empty one. *)
Example make_all_strategy_decisions_example :
  let signals :=
    [(StrategyManager.engle_granger,
      {| StrategyManager.s_action := LONG_SPREAD;
         StrategyManager.s_confidence := 0.8 |})] in
  summary <$>
    fst (make_all_strategy_decisions Config.default RiskAgent.init None 0
           "BTCUSDT" "ETHUSDT" entry_analysis signals [] 100000 0)
  = [(StrategyManager.engle_granger, LONG_SPREAD, 0.8)]
  /\ fst (make_all_strategy_decisions Config.default RiskAgent.init None 0
            "BTCUSDT" "ETHUSDT" OrchestratorFacts.no_analysis signals []
            100000 0) = [].
Proof. split; vm_compute; reflexivity. Qed.

End OrchestratorProps.

(** ** Price store of the engine: what is ever stored *)

Module TradingEngineProps.

Import TradingEngine FloatFacts TradingEngineFacts.
Local Open Scope Q_scope.

(** Consecutive (hence any two) samples are at least a second apart. *)
Definition apart (x y : Z * Q) : Prop := (fst x + 1000000 <= fst y)%Z.

(** A series the loop can have built: timestamps strictly increasing in
    steps of at least one second, every stored price positive. *)
Definition paced (s : Series) : Prop :=
  StronglySorted apart s /\ Forall (fun x => 0 < snd x) s.

Lemma paced_last_time s :
  StronglySorted apart s -> forall x, x ∈ s -> (fst x <= last_time s)%Z.
Proof.
  unfold last_time. induction 1 as [| y s Hs IH Hall]; intros x Hx.
  - apply elem_of_nil in Hx. contradiction.
  - apply elem_of_cons in Hx. destruct s as [| z s'].
    + destruct Hx as [-> | Hx]; [| apply elem_of_nil in Hx; contradiction].
      cbn. destruct y. cbn. lia.
    + change (last (y :: z :: s')) with (last (z :: s')).
      destruct Hx as [-> | Hx]; [| apply IH, Hx].
      assert (Hz : z ∈ z :: s') by left. apply IH in Hz.
      apply Forall_cons in Hall as [Hyz _]. unfold apart in Hyz. lia.
Qed.

Lemma paced_snoc s now price :
  paced s -> 0 < price -> (last_time s + 1000000 <= now)%Z ->
  paced (s ++ [(now, price)]).
Proof.
  intros [Hsorted Hpos] Hprice Hdue. split.
  - apply StronglySorted_app_2; [| exact Hsorted | repeat constructor].
    intros x y Hx Hy. apply list_elem_of_singleton in Hy as ->.
    pose proof (paced_last_time s Hsorted x Hx). unfold apart. cbn. lia.
  - apply Forall_app. split; [exact Hpos | repeat constructor; exact Hprice].
Qed.

Lemma paced_drop k s : paced s -> paced (drop k s).
Proof.
  intros [Hsorted Hpos]. split; [| apply Forall_drop, Hpos].
  rewrite <- (take_drop k s) in Hsorted.
  eapply StronglySorted_app_1_r, Hsorted.
Qed.

Lemma step_paced now price s s' : step now price s s' -> paced s -> paced s'.
Proof.
  intros [| Hprice Hdue] Hs; [exact Hs |].
  apply sample_due_spec in Hdue. unfold keep_last.
  destruct (max_points <? length (s ++ [(now, price)]))%nat;
    [apply paced_drop |]; apply paced_snoc; assumption.
Qed.

(** X23: The loop never stores a price that is not positive, and never two
    samples of a symbol less than a second apart or out of time order:
    from a store whose series are all so, every sequence of updates, with
    whatever clock readings and cached prices, leaves every series so. *)
Theorem run_updates_paced symbols iterations pd :
  (forall symbol, paced (series pd symbol)) ->
  forall symbol, paced (series (run_updates symbols iterations pd) symbol).
Proof.
  unfold run_updates. revert pd.
  induction iterations as [| [now prices] iterations IH]; intros pd Hpd;
    [exact Hpd |].
  cbn [fold_left]. apply IH. intros symbol.
  eapply step_paced; [apply update_price_data_step | apply Hpd].
Qed.

Lemma paced_empty symbol : paced (series ∅ symbol).
Proof. unfold series. rewrite lookup_empty. split; constructor. Qed.

(** The clock stepping back, a zero price and a half-second tick all
    leave the stored series paced. *)
Lemma run_updates_paced_witness :
  paced (series (run_updates ["BTCUSDT"%string]
                   [(5000000%Z, {["BTCUSDT"%string := 60000]});
                    (3000000%Z, {["BTCUSDT"%string := 60010]});
                    (6000000%Z, {["BTCUSDT"%string := 0]});
                    (6500000%Z, {["BTCUSDT"%string := 60020]})] ∅)
           "BTCUSDT").
Proof. apply (run_updates_paced _ _ ∅ paced_empty). Defined.

(** X24: A symbol with no cached price reads as 0.0 and is never sampled; a
    symbol outside the configured list is never touched. *)
Theorem update_price_data_untouched now symbols prices pd symbol :
  (prices !! symbol = None ->
   series (_update_price_data now symbols prices pd) symbol
   = series pd symbol)
  /\ (symbol ∉ symbols ->
      series (_update_price_data now symbols prices pd) symbol
      = series pd symbol).
Proof.
  split.
  - intros Hnone.
    destruct (update_price_data_step now symbols prices pd symbol)
      as [| Hprice _]; [reflexivity |].
    unfold get_price in Hprice. rewrite Hnone in Hprice. cbn in Hprice. lra.
  - unfold _update_price_data. revert pd.
    induction symbols as [| x symbols IH]; intros pd Hnot; [reflexivity |].
    apply not_elem_of_cons in Hnot as [Hne Hnot]. cbn [fold_left].
    rewrite IH by exact Hnot.
    apply (update_symbol_step now prices pd x symbol). congruence.
Qed.

End TradingEngineProps.

(** ** Order book imbalance strategy *)

Module OrderBookImbalanceProps.

Import Actions OrderBookImbalance FloatFacts.
Local Open Scope Q_scope.

(** Rows with non-negative prices and sizes, as an exchange sends them. *)
Definition nonneg_rows (rows : list (Q * Q)) : Prop :=
  Forall (fun row => 0 <= fst row /\ 0 <= snd row) rows.

Lemma volume_from rows acc :
  fold_left (fun acc '(price, size) => acc + price * size) rows acc
  == acc + volume rows.
Proof.
  unfold volume. revert acc.
  induction rows as [| [price size] rows IH]; intros acc; cbn [fold_left].
  - lra.
  - rewrite IH, (IH (0 + price * size)). lra.
Qed.

Lemma volume_nonneg rows : nonneg_rows rows -> 0 <= volume rows.
Proof.
  induction 1 as [| [price size] rows [Hprice Hsize] _ IH].
  - unfold volume. cbn. lra.
  - unfold volume. cbn [fold_left]. rewrite volume_from.
    cbn [fst snd] in *. nra.
Qed.

Lemma slice_to_nonneg rows stop :
  nonneg_rows rows -> nonneg_rows (slice_to rows stop).
Proof. intros H. unfold slice_to. apply Forall_take, H. Qed.

(** X25: With the non-negative prices and sizes of a real order book the
    imbalance ratio lies in [-1, 1], the two volumes are non-negative, and
    the ratio is the volume difference over the volume total (all three
    are zero exactly when a book is missing or the total is zero). *)
Theorem calculate_orderbook_imbalance_bounds p orderbook_a orderbook_b :
  (forall book, orderbook_a = Some book ->
     nonneg_rows (bids book) /\ nonneg_rows (asks book)) ->
  let '(imbalance_ratio, bid_volume, ask_volume) :=
    calculate_orderbook_imbalance p orderbook_a orderbook_b in
  -1 <= imbalance_ratio /\ imbalance_ratio <= 1
  /\ 0 <= bid_volume /\ 0 <= ask_volume
  /\ imbalance_ratio * (bid_volume + ask_volume) == bid_volume - ask_volume.
Proof.
  intros Hbook. unfold calculate_orderbook_imbalance.
  destruct orderbook_a as [book_a |]; [| repeat split; lra].
  destruct orderbook_b as [book_b |]; [| repeat split; lra].
  destruct (Hbook book_a eq_refl) as [Hbids Hasks].
  pose proof (volume_nonneg _ (slice_to_nonneg _ (depth_levels p) Hbids))
    as Hb.
  pose proof (volume_nonneg _ (slice_to_nonneg _ (depth_levels p) Hasks))
    as Ha.
  set (b := volume (slice_to (bids book_a) (depth_levels p))) in *.
  set (a := volume (slice_to (asks book_a) (depth_levels p))) in *.
  destruct (Qeq_bool (b + a) 0) eqn:Hzero; [repeat split; lra |].
  apply Qeq_bool_neq in Hzero.
  assert (Hpos : 0 < b + a) by (destruct (Qlt_le_dec 0 (b + a)); lra).
  repeat split.
  - apply Qle_shift_div_l; lra.
  - apply Qle_shift_div_r; lra.
  - exact Hb.
  - exact Ha.
  - field. lra.
Qed.

Definition bid_heavy : OrderBook :=
  {| bids := [(100, 3); (99, 2)]; asks := [(101, 1)] |}.

Lemma calculate_orderbook_imbalance_bounds_witness :
  let '(imbalance_ratio, bid_volume, ask_volume) :=
    calculate_orderbook_imbalance default_params (Some bid_heavy)
                                  (Some bid_heavy) in
  -1 <= imbalance_ratio /\ imbalance_ratio <= 1
  /\ 0 <= bid_volume /\ 0 <= ask_volume
  /\ imbalance_ratio * (bid_volume + ask_volume) == bid_volume - ask_volume.
Proof.
  apply (calculate_orderbook_imbalance_bounds default_params (Some bid_heavy)
           (Some bid_heavy)).
  intros book [= <-]. split; repeat constructor; cbn; lra.
Defined.

(** A negative size in the book takes the ratio out of [-1, 1]. *)
Example calculate_orderbook_imbalance_negative_size :
  fst (fst (calculate_orderbook_imbalance default_params
              (Some {| bids := [(100, 2)]; asks := [(100, -1)] |})
              (Some bid_heavy))) == 3.
Proof. vm_compute. reflexivity. Qed.

(** *** The kill switch *)

Definition set_paused_until (s : t) (until : option Z) : t :=
  {| recent_losses := recent_losses s; paused_until := until;
     entry_time := entry_time s; entry_price_a := entry_price_a s;
     entry_price_b := entry_price_b s;
     imbalance_history := imbalance_history s |}.

Lemma call_paused p s c until :
  paused_until s = Some until -> (c_now c < until)%Z ->
  call p s c = (plain HOLD 0.0 KillSwitchActivated, s).
Proof.
  intros Hpaused Hnow. unfold call, generate_signal, check_kill_switch.
  rewrite Hpaused. destruct (Z.ltb_spec (c_now c) until); [reflexivity | lia].
Qed.

Lemma calls_paused p s cs until :
  paused_until s = Some until ->
  Forall (fun c => (c_now c < until)%Z) cs ->
  calls p s cs
  = (repeat (plain HOLD 0.0 KillSwitchActivated) (length cs), s).
Proof.
  intros Hpaused. induction 1 as [| c cs Hc _ IH]; [reflexivity |].
  cbn [calls]. rewrite (call_paused p s c until Hpaused Hc), IH.
  reflexivity.
Qed.

Lemma check_kill_switch_trips p s now :
  paused_until s = None -> fst (check_kill_switch p s now) = true ->
  check_kill_switch p s now
  = (true, set_paused_until s (Some (now + minutes 10)%Z)).
Proof.
  unfold check_kill_switch. intros ->.
  destruct (snd <$> List.filter _ (recent_losses s)); [discriminate |].
  destruct (_ <? _); [reflexivity | discriminate].
Qed.

(** X26: Once the kill switch trips, every call in the next ten minutes,
    whatever its arguments, answers HOLD with confidence 0 and touches
    nothing: no exit is looked for, no loss recorded, no imbalance
    sampled. *)
Theorem kill_switch_pause p s first rest :
  paused_until s = None ->
  fst (check_kill_switch p s (c_now first)) = true ->
  Forall (fun c => (c_now c < c_now first + minutes 10)%Z) rest ->
  calls p s (first :: rest)
  = (repeat (plain HOLD 0.0 KillSwitchActivated) (S (length rest)),
     set_paused_until s (Some (c_now first + minutes 10)%Z)).
Proof.
  intros Hfree Htrip Hrest. cbn [calls].
  unfold call at 1. unfold generate_signal.
  rewrite (check_kill_switch_trips p s (c_now first) Hfree Htrip).
  rewrite (calls_paused p
             (set_paused_until s (Some (c_now first + minutes 10)%Z)) rest
             (c_now first + minutes 10)%Z eq_refl Hrest).
  reflexivity.
Qed.

(** Three losses of 0.9 % within five minutes. *)
Definition losing : t :=
  {| recent_losses := [(10000000%Z, -0.009); (70000000%Z, -0.009);
                       (130000000%Z, -0.009)];
     paused_until := None; entry_time := None; entry_price_a := None;
     entry_price_b := None; imbalance_history := [] |}.

Definition flat_call (now : Z) (book : option OrderBook) : Call :=
  {| c_now := now; c_prices_a := [(now, 60000)]; c_prices_b := [(now, 3000)];
     c_current_position := None; c_orderbook_a := book;
     c_orderbook_b := book |}.

Lemma kill_switch_pause_witness :
  calls default_params losing
        [flat_call 140000000 (Some bid_heavy);
         flat_call 500000000 (Some bid_heavy)]
  = (repeat (plain HOLD 0.0 KillSwitchActivated) 2,
     set_paused_until losing (Some 740000000%Z)).
Proof.
  apply (kill_switch_pause default_params losing
           (flat_call 140000000 (Some bid_heavy))
           [flat_call 500000000 (Some bid_heavy)]).
  - reflexivity.
  - reflexivity.
  - repeat constructor.
Defined.

(** X27: The first check after the pause resumes without looking at the
    losses, and with a window shorter than the pause the losses recorded
    before it are by then too old to trip the switch again. *)
Theorem kill_switch_resumes p s tripped now later :
  (kill_switch_window_minutes p <= 10)%Z ->
  paused_until s = Some (tripped + minutes 10)%Z ->
  Forall (fun loss => (fst loss <= tripped)%Z) (recent_losses s) ->
  (tripped + minutes 10 <= now)%Z -> (now <= later)%Z ->
  check_kill_switch p s now = (false, set_paused_until s None)
  /\ check_kill_switch p (set_paused_until s None) later
     = (false, set_paused_until s None).
Proof.
  intros Hwindow Hpaused Hlosses Hnow Hlater. split.
  - unfold check_kill_switch. rewrite Hpaused.
    destruct (Z.ltb_spec now (tripped + minutes 10)); [lia | reflexivity].
  - unfold check_kill_switch. cbn [paused_until set_paused_until recent_losses].
    replace (List.filter _ (recent_losses s)) with (@nil (Z * Q));
      [reflexivity |].
    symmetry. induction Hlosses as [| [loss_time loss] losses Hloss _ IH];
      [reflexivity |].
    cbn [List.filter fst] in *.
    destruct (Z.ltb_spec (later - minutes (kill_switch_window_minutes p))
                         loss_time); [| exact IH].
    unfold minutes in *. lia.
Qed.

Lemma kill_switch_resumes_witness :
  check_kill_switch default_params
    (set_paused_until losing (Some 740000000%Z)) 740000000
  = (false, set_paused_until (set_paused_until losing (Some 740000000%Z)) None)
  /\ check_kill_switch default_params
       (set_paused_until (set_paused_until losing (Some 740000000%Z)) None)
       741000000
     = (false,
        set_paused_until (set_paused_until losing (Some 740000000%Z)) None).
Proof.
  apply (kill_switch_resumes default_params
           (set_paused_until losing (Some 740000000%Z)) 140000000 740000000
           741000000).
  - cbn. lia.
  - reflexivity.
  - repeat constructor; cbn; lia.
  - unfold minutes. lia.
  - lia.
Defined.

(** *** Exits *)

Lemma check_kill_switch_entry p s now :
  let s' := snd (check_kill_switch p s now) in
  entry_time s' = entry_time s /\ entry_price_a s' = entry_price_a s
  /\ entry_price_b s' = entry_price_b s
  /\ recent_losses s' = recent_losses s
  /\ imbalance_history s' = imbalance_history s.
Proof.
  unfold check_kill_switch.
  destruct (paused_until s) as [until |].
  - destruct (now <? until)%Z; repeat split.
  - destruct (snd <$> List.filter _ (recent_losses s)); [repeat split |].
    destruct (_ <? _); repeat split.
Qed.

Lemma check_exit_conditions_untracked p s now price_a price_b position :
  entry_time s = None ->
  check_exit_conditions p s now price_a price_b position
  = (false, NoExit, 0.0).
Proof.
  unfold check_exit_conditions. intros ->. destruct position; reflexivity.
Qed.

Lemma call_untracked p s c :
  entry_time s = None -> holding (c_current_position c) = true ->
  action (fst (call p s c)) = HOLD /\ entry_time (snd (call p s c)) = None.
Proof.
  intros Hentry Hheld. unfold call, generate_signal.
  pose proof (check_kill_switch_entry p s (c_now c)) as (Htime & _).
  destruct (check_kill_switch p s (c_now c)) as [paused s1].
  cbn [snd] in Htime. rewrite Hentry in Htime.
  destruct paused; [split; [reflexivity | exact Htime] |].
  rewrite Hheld, check_exit_conditions_untracked by exact Htime.
  split; [reflexivity | exact Htime].
Qed.

Lemma calls_untracked p s cs :
  entry_time s = None ->
  Forall (fun c => holding (c_current_position c) = true) cs ->
  Forall (fun signal => action signal = HOLD) (fst (calls p s cs))
  /\ entry_time (snd (calls p s cs)) = None.
Proof.
  intros Hentry Hheld. revert s Hentry.
  induction Hheld as [| c cs Hc _ IH]; intros s Hentry;
    [split; [constructor | exact Hentry] |].
  cbn [calls]. destruct (call_untracked p s c Hentry Hc) as [Haction Hnext].
  destruct (call p s c) as [signal s1]. cbn [fst snd] in *.
  destruct (IH s1 Hnext) as [Hall Hend].
  destruct (calls p s1 cs) as [signals s2]. cbn [fst snd] in *.
  split; [constructor; assumption | exact Hend].
Qed.

Definition moderate (r : EntryReason) : bool :=
  match r with
  | ModerateBuyPressure | ModerateSellPressure => true
  | _ => false
  end.

(** X28: An entry signalled at the moderate threshold records no entry time
    or prices, so the position it opens is never closed by this strategy:
    however the prices move and however long it is held, every later call
    with the position answers HOLD. *)
Theorem moderate_entry_never_closed p s entry later :
  entry_time s = None ->
  moderate (entry_reason (fst (call p s entry))) = true ->
  Forall (fun c => holding (c_current_position c) = true) later ->
  exists signal signals,
    fst (calls p s (entry :: later)) = signal :: signals
    /\ is_entry (action signal) = true /\ confidence signal = 0.65
    /\ Forall (fun signal => action signal = HOLD) signals
    /\ entry_time (snd (calls p s (entry :: later))) = None.
Proof.
  intros Hentry Hmoderate Hheld. cbn [calls].
  assert (Hcall : is_entry (action (fst (call p s entry))) = true
                  /\ confidence (fst (call p s entry)) = 0.65
                  /\ entry_time (snd (call p s entry)) = None).
  { revert Hmoderate. unfold call, generate_signal.
    pose proof (check_kill_switch_entry p s (c_now entry)) as (Htime & _).
    destruct (check_kill_switch p s (c_now entry)) as [paused s1].
    cbn [snd] in Htime. rewrite Hentry in Htime.
    destruct paused; [discriminate |].
    destruct (holding (c_current_position entry)).
    { destruct (check_exit_conditions _ _ _ _ _ _) as [[[] ?] ?];
        discriminate. }
    destruct (c_orderbook_a entry) as [book |]; [| discriminate].
    destruct (calculate_orderbook_imbalance _ _ _) as [[ratio bid] ask].
    destruct (0 <? bid + ask).
    all: repeat match goal with
         | |- context [if ?b then _ else _] => destruct b
         end; cbn; try discriminate; intros _; repeat split; exact Htime. }
  destruct Hcall as (Haction & Hconfidence & Hnext).
  destruct (call p s entry) as [signal s1]. cbn [fst snd] in *.
  destruct (calls_untracked p s1 later Hnext Hheld) as [Hall Hend].
  destruct (calls p s1 later) as [signals s2]. cbn [fst snd] in *.
  exists signal, signals. repeat split; assumption.
Qed.

(** Bids moderately heavier than asks: ratio 0.25. *)
Definition leaning : OrderBook :=
  {| bids := [(100, 5)]; asks := [(100, 3)] |}.

Definition held_call (now : Z) (price_a price_b : Q) : Call :=
  {| c_now := now; c_prices_a := [(now, price_a)];
     c_prices_b := [(now, price_b)];
     c_current_position := Some "LONG_SPREAD"%string;
     c_orderbook_a := Some leaning; c_orderbook_b := Some leaning |}.

(** A moderate entry at 60000, then the first leg halved an hour later. *)
Lemma moderate_entry_never_closed_witness :
  exists signal signals,
    fst (calls default_params init
           [flat_call 1000000 (Some leaning);
            held_call 3601000000 30000 3000]) = signal :: signals
    /\ is_entry (action signal) = true /\ confidence signal = 0.65
    /\ Forall (fun signal => action signal = HOLD) signals
    /\ entry_time
         (snd (calls default_params init
                 [flat_call 1000000 (Some leaning);
                  held_call 3601000000 30000 3000])) = None.
Proof.
  apply (moderate_entry_never_closed default_params init
           (flat_call 1000000 (Some leaning))
           [held_call 3601000000 30000 3000]).
  - reflexivity.
  - vm_compute. reflexivity.
  - repeat constructor.
Defined.

(** *** Signals *)

(** X29: Confidence lies in [0, 0.95]; an entry has at least 0.6, so it passes
    the 0.3 filter of the OR mode; a CLOSE has 0.95 and resets the entry
    record. *)
Theorem obi_signal_confidence p s now prices_a prices_b current_position
    orderbook_a orderbook_b :
  let result :=
    generate_signal p s now prices_a prices_b current_position orderbook_a
                    orderbook_b in
  let signal := fst result in
  0 <= confidence signal /\ confidence signal <= 0.95
  /\ (is_entry (action signal) = true ->
      0.6 <= confidence signal
      /\ holding current_position = false
      /\ StrategyManager.actionable
           {| StrategyManager.s_action := action signal;
              StrategyManager.s_confidence := confidence signal |} = true)
  /\ (action signal = CLOSE ->
      confidence signal = 0.95 /\ holding current_position = true
      /\ entry_time (snd result) = None).
Proof.
  intros result signal. subst result signal. unfold generate_signal.
  destruct (check_kill_switch p s now) as [paused s1].
  destruct paused.
  { cbn. repeat split; try lra; discriminate. }
  destruct (holding current_position).
  { destruct (check_exit_conditions _ _ _ _ _ _) as [[[] ?] ?]; cbn;
      repeat split; try lra; discriminate. }
  destruct orderbook_a as [book |];
    [| cbn; repeat split; try lra; discriminate].
  destruct (calculate_orderbook_imbalance _ _ _) as [[ratio bid] ask].
  set (smoothed := if (3 <=? _)%nat then _ else _).
  pose proof (Qabs_nonneg smoothed) as Habs.
  pose proof (Q.min_spec 0.95 (0.6 + Qabs smoothed * 0.5)) as Hmin.
  unfold StrategyManager.actionable.
  destruct (0 <? bid + ask).
  all: repeat match goal with
       | |- context [if ?b <? ?c then _ else _] => destruct (b <? c)
       end;
    cbn [fst snd action confidence is_entry StrategyManager.s_action
         StrategyManager.s_confidence];
    repeat split; try discriminate; try lra;
    rewrite bool_decide_eq_false_2 by discriminate; cbn [negb andb];
    apply ltb_lt; lra.
Qed.

(** *** What the object keeps *)

(** The loss deque holds at most 100 entries, all of them losses; the
    imbalance history holds at most [lookback_periods] samples; the entry
    time and the two entry prices are set or unset together. *)
Definition obi_consistent (p : Params) (s : t) : Prop :=
  (length (recent_losses s) <= 100)%nat
  /\ Forall (fun loss => snd loss < 0) (recent_losses s)
  /\ (length (imbalance_history s) <= lookback_periods p)%nat
  /\ (is_Some (entry_time s) <-> is_Some (entry_price_a s))
  /\ (is_Some (entry_time s) <-> is_Some (entry_price_b s)).

Lemma deque_append_length {A : Type} maxlen (d : list A) x :
  (length d <= maxlen)%nat -> (length (deque_append maxlen d x) <= maxlen)%nat.
Proof.
  intros H. unfold deque_append. rewrite length_drop, List.length_app.
  cbn. lia.
Qed.

Lemma deque_append_Forall {A : Type} (P : A -> Prop) maxlen d x :
  Forall P d -> P x -> Forall P (deque_append maxlen d x).
Proof.
  intros Hd Hx. unfold deque_append. apply Forall_drop, Forall_app.
  split; [exact Hd | repeat constructor; exact Hx].
Qed.

Lemma obi_call_consistent p s c : obi_consistent p s -> obi_consistent p (snd (call p s c)).
Proof.
  intros (Hlen & Hneg & Hhist & Ha & Hb). unfold call, generate_signal.
  pose proof (check_kill_switch_entry p s (c_now c))
    as (Htime & Hpa & Hpb & Hlosses & Hhistory).
  destruct (check_kill_switch p s (c_now c)) as [paused s1].
  cbn [snd] in *.
  assert (Hs1 : obi_consistent p s1).
  { unfold obi_consistent. rewrite Htime, Hpa, Hpb, Hlosses, Hhistory.
    repeat split; try assumption; try apply Ha; try apply Hb. }
  clear Htime Hpa Hpb Hlosses Hhistory Hlen Hneg Hhist Ha Hb.
  destruct Hs1 as (Hlen & Hneg & Hhist & Ha & Hb).
  assert (Hnone : is_Some (@None Z) <-> is_Some (@None Q))
    by (split; intros [? [=]]).
  assert (Hsome : forall (x : Z) (y : Q), is_Some (Some x) <-> is_Some (Some y))
    by (split; eauto).
  destruct paused; [repeat split; try assumption; try apply Ha; try apply Hb |].
  destruct (holding (c_current_position c)).
  { destruct (check_exit_conditions _ _ _ _ _ _) as [[should_exit ?] pnl_pct].
    destruct should_exit;
      [| repeat split; try assumption; try apply Ha; try apply Hb].
    cbn [snd]. unfold obi_consistent.
    cbn [recent_losses imbalance_history entry_time entry_price_a
         entry_price_b].
    split; [| split; [| split; [exact Hhist | split; exact Hnone]]].
    - case_ltb pnl_pct 0; [apply deque_append_length |]; assumption.
    - case_ltb pnl_pct 0; [apply deque_append_Forall |]; assumption. }
  destruct (c_orderbook_a c) as [book |];
    [| repeat split; try assumption; try apply Ha; try apply Hb].
  destruct (calculate_orderbook_imbalance _ _ _) as [[ratio bid] ask].
  pose proof (deque_append_length (lookback_periods p) (imbalance_history s1)
                ratio Hhist) as Hhist'.
  destruct (0 <? bid + ask).
  all: repeat match goal with
       | |- context [if ?b <? ?c then _ else _] => destruct (b <? c)
       end;
    cbn [snd]; unfold obi_consistent;
    cbn [recent_losses imbalance_history entry_time entry_price_a
         entry_price_b];
    repeat split; try assumption; try apply Ha; try apply Hb; eauto.
Qed.

(** X30: Every sequence of calls keeps a well-formed object (a fresh one is)
    well formed. *)
Theorem obi_calls_consistent p s cs :
  obi_consistent p s -> obi_consistent p (snd (calls p s cs)).
Proof.
  revert s. induction cs as [| c cs IH]; intros s Hs; [exact Hs |].
  cbn [calls]. pose proof (obi_call_consistent p s c Hs) as Hnext.
  destruct (call p s c) as [signal s1]. cbn [snd] in Hnext.
  specialize (IH s1 Hnext). destruct (calls p s1 cs) as [signals s2].
  exact IH.
Qed.

Lemma obi_consistent_init p : obi_consistent p init.
Proof.
  unfold obi_consistent, init. cbn.
  repeat split; try constructor; try lia; intros [? [=]].
Qed.

Lemma obi_calls_consistent_witness :
  obi_consistent default_params
    (snd (calls default_params init
            [flat_call 1000000 (Some bid_heavy);
             held_call 2000000 59000 3010])).
Proof. apply (obi_calls_consistent default_params init _ (obi_consistent_init _)). Defined.

End OrderBookImbalanceProps.
